(** * guidellm-reports: the extraction core of [data_parsers.py]

    A shallow embedding of the schema-normalisation layer: dataset settings,
    summary rows, per-request rows, and the two table enrichers.

    Conventions of the embedding.
    - A Python object read from JSON is a [value]; a [dict] is a finite map
      from strings to values.
    - A Python [str] is a Rocq [string], one character per code point, so
      the embedding covers the code points below 256.
    - A call that may raise returns a [result]; [try]/[except] is
      [try_except], which looks at the class of the exception.
    - [print] appends a [diag] to a log that is threaded through the
      functions that print.
    - Library functions whose text is not part of the repository
      ([ast.literal_eval], [json.loads], [float] on strings, the pandas cell
      operations) are fields of a runtime record that the definitions take as
      a parameter. *)

From Stdlib Require Import ZArith String Ascii List Floats Lia.
From stdpp Require Import gmap strings list fin_maps pretty.

Set Warnings "-register-all".
#[local] Open Scope string_scope.
#[local] Open Scope Z_scope.

(** ** Python values *)

Inductive value : Type :=
| VNone
| VBool (b : bool)
| VInt (z : Z)
| VFloat (f : float)
| VStr (s : string)
| VList (l : list value)
| VTuple (l : list value)
| VDict (m : gmap string value).

Abbreviation dict := (gmap string value).

(** ** Exceptions and results *)

Inductive exn : Set :=
| AttributeError
| TypeError
| ValueError
| JSONDecodeError
| SyntaxError
| OverflowError
| KeyError
| RecursionError
| MemoryError.

#[global] Instance exn_eq_dec : EqDecision exn.
Proof. solve_decision. Defined.

(** [exn_isinstance e cls]: an exception of class [e] is caught by
    [except cls].  [json.JSONDecodeError] is a subclass of [ValueError]. *)
Definition exn_isinstance (e cls : exn) : bool :=
  match e, cls with
  | JSONDecodeError, ValueError => true
  | _, _ => bool_decide (e = cls)
  end.

Inductive result (A : Type) : Type :=
| Ok (a : A)
| Raise (e : exn).

Arguments Ok {A} a.
Arguments Raise {A} e.

#[global] Instance result_ret : MRet result := fun A a => Ok a.
#[global] Instance result_bind : MBind result := fun A B f m =>
  match m with
  | Ok a => f a
  | Raise e => Raise e
  end.

(** [try: m except classes: handler]. *)
Definition try_except {A} (m : result A) (classes : list exn) (handler : result A)
  : result A :=
  match m with
  | Ok a => Ok a
  | Raise e => if existsb (exn_isinstance e) classes then handler else Raise e
  end.

(** ** Built-in operations on values *)

(** [bool(v)], as used by [if v], [if not v] and [a or b]. *)
Definition truthy (v : value) : bool :=
  match v with
  | VNone => false
  | VBool b => b
  | VInt z => negb (z =? 0)
  | VFloat f => negb (f =? 0)%float
  | VStr s => negb (String.eqb s "")
  | VList l | VTuple l => negb (Nat.eqb (length l) 0)
  | VDict m => negb (Nat.eqb (size m) 0)
  end.

Definition is_none (v : value) : bool :=
  match v with VNone => true | _ => false end.

(** [v.get(k, d)]: only a dict has the method. *)
Definition py_get (v : value) (k : string) (d : value) : result value :=
  match v with
  | VDict m => Ok (default d (m !! k))
  | _ => Raise AttributeError
  end.

(** [v == 'text']. *)
Definition py_eq_str (v : value) (s : string) : bool :=
  match v with
  | VStr s' => String.eqb s' s
  | _ => false
  end.

(** [v == 0]: numbers compare by value ([False == 0] holds), anything else
    is unequal. *)
Definition py_eq_zero (v : value) : bool :=
  match v with
  | VInt z => z =? 0
  | VFloat f => (f =? 0)%float
  | VBool b => negb b
  | _ => false
  end.

(** [float(z)] for an int: round to nearest, ties to even; [OverflowError]
    when the result is not finite.  The 63 leading bits (the last one
    sticky) are converted by the hardware and scaled back. *)
Definition float_of_Z (z : Z) : result float :=
  let a := Z.abs z in
  let n := Z.log2 a + 1 in
  if 1024 <? n then Raise OverflowError
  else
    let mag :=
      if n <=? 62 then PrimFloat.of_uint63 (Uint63.of_Z a)
      else
        let sh := n - 62 in
        let hi := Z.shiftr a sh in
        let sticky := if Z.land a (Z.ones sh) =? 0 then 0 else 1 in
        PrimFloat.ldshiftexp
          (PrimFloat.of_uint63 (Uint63.of_Z (2 * hi + sticky)))
          (Uint63.of_Z (sh - 1 + FloatOps.shift)) in
    if PrimFloat.is_infinity mag then Raise OverflowError
    else Ok (if z <? 0 then (- mag)%float else mag).

Definition Z_of_bool (b : bool) : Z := if b then 1 else 0.

(** [int(f)] for a float: truncation toward zero; NaN and the infinities
    raise. *)
Definition int_of_float (f : float) : result Z :=
  match Prim2SF f with
  | S754_nan => Raise ValueError
  | S754_infinity _ => Raise OverflowError
  | S754_zero _ => Ok 0
  | S754_finite s m e =>
      let a := if 0 <=? e then Z.shiftl (Z.pos m) e else Z.shiftr (Z.pos m) (- e) in
      Ok (if s then - a else a)
  end.

(** [v > 0]. *)
Definition py_gt_zero (v : value) : result bool :=
  match v with
  | VInt z => Ok (0 <? z)
  | VBool b => Ok b
  | VFloat f => Ok (0 <? f)%float
  | _ => Raise TypeError
  end.

(** The numeric tower for a binary arithmetic operator: bool is an int, and
    an int meeting a float is converted first. *)
Inductive number : Type :=
| NInt (z : Z)
| NFloat (f : float).

Definition as_number (v : value) : option number :=
  match v with
  | VInt z => Some (NInt z)
  | VBool b => Some (NInt (Z_of_bool b))
  | VFloat f => Some (NFloat f)
  | _ => None
  end.

(** [a - b]. *)
Definition py_sub (a b : value) : result value :=
  match as_number a, as_number b with
  | Some (NInt x), Some (NInt y) => Ok (VInt (x - y))
  | Some (NInt x), Some (NFloat g) => f ← float_of_Z x; Ok (VFloat (f - g)%float)
  | Some (NFloat f), Some (NInt y) => g ← float_of_Z y; Ok (VFloat (f - g)%float)
  | Some (NFloat f), Some (NFloat g) => Ok (VFloat (f - g)%float)
  | _, _ => Raise TypeError
  end.

(** ** String methods *)

Definition startswith (s p : string) : bool := String.prefix p s.

Definition endswith (s p : string) : bool :=
  String.prefix (String.rev p) (String.rev s).

(** [c in s] for a one-character [c]. *)
Fixpoint contains_char (c : ascii) (s : string) : bool :=
  match s with
  | EmptyString => false
  | String a s' => Ascii.eqb a c || contains_char c s'
  end.

(** [s.split(c)]: never empty, [''.split(',') == ['']]. *)
Fixpoint split_char (c : ascii) (s : string) : list string :=
  match s with
  | EmptyString => [EmptyString]
  | String a s' =>
      if Ascii.eqb a c then EmptyString :: split_char c s'
      else match split_char c s' with
           | [] => [String a EmptyString]
           | h :: t => String a h :: t
           end
  end.

(** [s.split(c, 1)] when [c in s]: the text before the first [c] and the
    text after it. *)
Fixpoint split_first (c : ascii) (s : string) : option (string * string) :=
  match s with
  | EmptyString => None
  | String a s' =>
      if Ascii.eqb a c then Some (EmptyString, s')
      else match split_first c s' with
           | Some (k, v) => Some (String a k, v)
           | None => None
           end
  end.

Definition is_ascii_digit (a : ascii) : bool :=
  let n := N_of_ascii a in ((48 <=? n) && (n <=? 57))%N.

(** The characters below 256 for which [str.isdigit] holds: the ASCII
    digits and the superscripts two, three and one. *)
Definition is_unicode_digit (a : ascii) : bool :=
  let n := N_of_ascii a in
  is_ascii_digit a || (n =? 178)%N || (n =? 179)%N || (n =? 185)%N.

Fixpoint all_chars (p : ascii -> bool) (s : string) : bool :=
  match s with
  | EmptyString => true
  | String a s' => p a && all_chars p s'
  end.

(** [s.isdigit()]. *)
Definition isdigit (s : string) : bool :=
  negb (String.eqb s "") && all_chars is_unicode_digit s.

Fixpoint digits_value (acc : Z) (s : string) : Z :=
  match s with
  | EmptyString => acc
  | String a s' => digits_value (10 * acc + (Z.of_N (N_of_ascii a) - 48)) s'
  end.

(** ** The Python runtime the extraction code calls into *)

Record runtime : Type := {
  (** [ast.literal_eval] *)
  literal_eval : string -> result value;
  (** [json.loads] on a [str] *)
  json_loads : string -> result value;
  (** [float] on a [str]; [None] is [ValueError] *)
  float_of_str : string -> option float;
  (** [sys.get_int_max_str_digits()]; [0] switches the limit off *)
  int_max_str_digits : nat;
  (** [str(v)], as an f-string renders a value *)
  py_str : value -> string;
  (** the order in which a mapping yields its keys: the order they were
      inserted in, which for a decoded document is the order the document
      writes them in.  A [dict] of this file does not record it, so it is
      the runtime's to tell; any enumeration of the keys may be the one *)
  key_order : dict -> list string;
  key_order_keys : forall m : dict, key_order m ≡ₚ (map_to_list m).*1
}.

Section Extraction.

Variable rt : runtime.

(** [int(s)] for a string that passed [isdigit]: the superscript digits are
    no decimal digits, and a text longer than the conversion limit is
    refused. *)
Definition py_int (s : string) : result Z :=
  if all_chars is_ascii_digit s then
    if negb (Nat.eqb (int_max_str_digits rt) 0)
       && Nat.ltb (int_max_str_digits rt) (String.length s)
    then Raise ValueError
    else Ok (digits_value 0 s)
  else Raise ValueError.

(** [float(v)]. *)
Definition py_float (v : value) : result float :=
  match v with
  | VInt z => float_of_Z z
  | VBool b => float_of_Z (Z_of_bool b)
  | VFloat f => Ok f
  | VStr s => match float_of_str rt s with
              | Some f => Ok f
              | None => Raise ValueError
              end
  | _ => Raise TypeError
  end.

(** ** [extract_dataset_settings] *)

Definition default_settings : dict :=
  list_to_map
    [("prompt_tokens", VInt 400); ("prompt_tokens_stdev", VInt 0);
     ("output_tokens", VInt 200); ("output_tokens_stdev", VInt 0);
     ("processor", VStr "multiturn")].

(** The loop over [data_list[0].split(',')]: an item without ['='] is
    passed over ([if '=' in item]), any other is cut at its first ['=']
    ([item.split('=', 1)]), and a later key overwrites an earlier one. *)
Fixpoint parse_items (items : list string) (settings : dict) : result dict :=
  match items with
  | [] => Ok settings
  | item :: rest =>
      match split_first "=" item with
      | None => parse_items rest settings
      | Some (key, val) =>
          v ← (if isdigit val then z ← py_int val; Ok (VInt z) else Ok (VStr val));
          parse_items rest (<[key := v]> settings)
      end
  end.

(** The body of the first [try]: [Some d] is [return d], [None] is falling
    out of the [if] without returning. *)
Definition stringified_list_settings (request_loader : value) (data_str : string)
  : result (option dict) :=
  data_list ← literal_eval rt data_str;
  match data_list with
  | VList (first :: _) =>
      pieces ← match first with
               | VStr s => Ok (split_char "," s)
               | _ => Raise AttributeError
               end;
      settings ← parse_items pieces ∅;
      processor ← py_get request_loader "processor" (VStr "");
      Ok (Some (list_to_map
        [("prompt_tokens", default (VInt 0) (settings !! "prompt_tokens"));
         ("prompt_tokens_stdev", VInt 0);
         ("output_tokens", default (VInt 0) (settings !! "output_tokens"));
         ("output_tokens_stdev", VInt 0);
         ("processor", processor)]))
  | _ => Ok None
  end.

(** The body of the second [try]. [json.loads] takes a [str]; any other
    object of the model is a [TypeError]. *)
Definition json_settings (request_loader data_str : value) : result dict :=
  data_dict ← match data_str with
              | VStr s => json_loads rt s
              | _ => Raise TypeError
              end;
  prompt_tokens ← py_get data_dict "prompt_tokens" (VInt 0);
  prompt_tokens_stdev ← py_get data_dict "prompt_tokens_stdev" (VInt 0);
  output_tokens ← py_get data_dict "output_tokens" (VInt 0);
  output_tokens_stdev ← py_get data_dict "output_tokens_stdev" (VInt 0);
  processor ← py_get request_loader "processor" (VStr "");
  Ok (list_to_map
    [("prompt_tokens", prompt_tokens);
     ("prompt_tokens_stdev", prompt_tokens_stdev);
     ("output_tokens", output_tokens);
     ("output_tokens_stdev", output_tokens_stdev);
     ("processor", processor)]).

Definition is_stringified_list (data_str : value) : bool :=
  match data_str with
  | VStr s => startswith s "['" && endswith s "']"
  | _ => false
  end.

Definition extract_dataset_settings (request_loader : value) : result dict :=
  if is_none request_loader then Ok default_settings
  else
    data_str ← py_get request_loader "data" (VStr "");
    if negb (truthy data_str) then Ok ∅
    else
      early ← match data_str with
              | VStr s =>
                  if is_stringified_list data_str
                  then try_except (stringified_list_settings request_loader s)
                         [ValueError; SyntaxError] (Ok None)
                  else Ok None
              | _ => Ok None
              end;
      match early with
      | Some settings => Ok settings
      | None =>
          try_except (json_settings request_loader data_str)
            [JSONDecodeError; TypeError] (Ok ∅)
      end.

(** ** Diagnostics

    Every [print] of the module, as data.  A computation that prints
    carries its log next to its outcome, so what was printed before an
    exception is kept. *)

Inductive diag : Type :=
| ErrorReading (filepath : string)
| NoBenchmarks (filepath : string)
| NoAxisFound (filepath : string)
| NoSuccessfulRequests (filepath : string)
| FoundRequests (n : nat) (filename label : string)
| ColumnNotFound (field : string)
| NoDataRemains (field : string) (levels : list value).

Definition io (A : Type) : Type := (list diag * result A)%type.

#[global] Instance io_ret : MRet io := fun A a => ([], Ok a).
#[global] Instance io_bind : MBind io := fun A B f m =>
  match m with
  | (log, Ok a) => let '(log', r) := f a in ((log ++ log')%list, r)
  | (log, Raise e) => (log, Raise e)
  end.

Definition print (d : diag) : io unit := ([d], Ok tt).
Definition lift {A} (r : result A) : io A := ([], r).

(** ** Pieces shared by the two extractors *)

(** [os.path.basename]: the text after the last ['/']. *)
Definition basename (path : string) : string :=
  List.last (split_char "/" path) "".

(** The items a [for] loop sees.  A dict yields its keys (all of them
    strings) in the order it holds them, a string its characters; a
    number, a bool or [None] is not iterable. *)
Definition py_iter (v : value) : result (list value) :=
  match v with
  | VList l | VTuple l => Ok l
  | VDict m => Ok (VStr <$> key_order rt m)
  | VStr s => Ok ((fun a => VStr (String a EmptyString)) <$> list_ascii_of_string s)
  | _ => Raise TypeError
  end.

(** [len(v)]. *)
Definition py_len (v : value) : result nat :=
  match v with
  | VList l | VTuple l => Ok (length l)
  | VDict m => Ok (size m)
  | VStr s => Ok (String.length s)
  | _ => Raise TypeError
  end.

(** Lines 98-110 and 243-255: [config], and [strategy] and [profile] from
    [config] when that one is truthy, else from [args]. *)
Definition resolve_strategy (benchmark : value) : result (value * value * value) :=
  config ← py_get benchmark "config" (VDict ∅);
  args ← py_get benchmark "args" (VDict ∅);
  strategy ← py_get config "strategy" (VDict ∅);
  strategy ← (if negb (truthy strategy) then py_get args "strategy" (VDict ∅)
              else Ok strategy);
  profile ← py_get config "profile" (VDict ∅);
  profile ← (if negb (truthy profile) then py_get args "profile" (VDict ∅)
             else Ok profile);
  Ok (config, strategy, profile).

(** Lines 115-131 and 260-275: the pair [(concurrency, rps)]. *)
Definition resolve_axis (strategy profile : value) : result (value * value) :=
  concurrency ← py_get strategy "max_concurrency" VNone;
  concurrency ← (if is_none concurrency then py_get strategy "streams" VNone
                 else Ok concurrency);
  profile_type ← py_get profile "strategy_type" VNone;
  strategy_type ← py_get strategy "type_" profile_type;
  rps ← (if py_eq_str strategy_type "constant" then
           rate ← py_get strategy "rate" VNone;
           rate ← (if is_none rate then
                     rate_list ← py_get profile "rate" VNone;
                     match (if truthy rate_list then rate_list else VList []) with
                     | VList (first :: _) => Ok first
                     | _ => Ok rate
                     end
                   else Ok rate);
           if is_none rate then Ok VNone else f ← py_float rate; Ok (VFloat f)
         else Ok VNone);
  Ok (concurrency, rps).

(** Lines 141-143 and 284-286: the argument handed to
    [extract_dataset_settings], and the call. *)
Definition loader_argument (config benchmark : value) : result value :=
  request_config ← py_get config "requests" (VDict ∅);
  request_loader ← py_get benchmark "request_loader" (VDict ∅);
  Ok (if truthy request_config then request_config else request_loader).

Definition benchmark_dataset_settings (config benchmark : value) : result dict :=
  loader ← loader_argument config benchmark;
  extract_dataset_settings loader.

(** [if extra_metadata: row.update(extra_metadata)]: the metadata wins on a
    key both have. *)
Definition merge_metadata (extra_metadata : option dict) (row : dict) : dict :=
  match extra_metadata with
  | Some extra => if negb (Nat.eqb (size extra) 0) then extra ∪ row else row
  | None => row
  end.

(** [d.get(a, {}).get(b, {})]. *)
Definition get2 (d : value) (a b : string) : result value :=
  x ← py_get d a (VDict ∅);
  py_get x b (VDict ∅).

(** [d.get(a, {}).get(b, {}).get(c, 0)]. *)
Definition get3 (d : value) (a b c : string) : result value :=
  x ← get2 d a b;
  py_get x c (VInt 0).

Definition dget (d : dict) (k : string) (dflt : value) : value :=
  default dflt (d !! k).

(** ** [parse_benchmark_metrics] *)

(** Lines 149-151 and 154-156: the mean of the "successful" bucket, and
    the mean of the "total" bucket when that one equals 0. *)
Definition mean_throughput (metrics : value) (name : string) : result value :=
  mean ← get3 metrics name "successful" "mean";
  if py_eq_zero mean then get3 metrics name "total" "mean" else Ok mean.

(** Lines 138-203 for one benchmark that has an axis value: the summary
    row, the metadata merged in. *)
Definition summary_row (filename filepath : string) (extra_metadata : option dict)
    (config benchmark concurrency rps : value) : result dict :=
  dataset_settings ← benchmark_dataset_settings config benchmark;
  metrics ← py_get benchmark "metrics" (VDict ∅);
  output_tps_mean ← mean_throughput metrics "output_tokens_per_second";
  total_tps_mean ← mean_throughput metrics "tokens_per_second";
  request_latency ← get2 metrics "request_latency" "successful";
  ttft ← get2 metrics "time_to_first_token_ms" "successful";
  itl ← get2 metrics "inter_token_latency_ms" "successful";
  request_latency_percentiles ← py_get request_latency "percentiles" (VDict ∅);
  ttft_percentiles ← py_get ttft "percentiles" (VDict ∅);
  itl_percentiles ← py_get itl "percentiles" (VDict ∅);
  request_latency_mean ← py_get request_latency "mean" (VInt 0);
  request_latency_median ← py_get request_latency "median" (VInt 0);
  ttft_mean ← py_get ttft "mean" (VInt 0);
  ttft_median ← py_get ttft "median" (VInt 0);
  itl_mean ← py_get itl "mean" (VInt 0);
  itl_median ← py_get itl "median" (VInt 0);
  request_latency_p95 ← py_get request_latency_percentiles "p95" (VInt 0);
  request_latency_p99 ← py_get request_latency_percentiles "p99" (VInt 0);
  ttft_p95 ← py_get ttft_percentiles "p95" (VInt 0);
  ttft_p99 ← py_get ttft_percentiles "p99" (VInt 0);
  itl_p95 ← py_get itl_percentiles "p95" (VInt 0);
  itl_p99 ← py_get itl_percentiles "p99" (VInt 0);
  input_sequence_length ← get3 metrics "prompt_token_count" "successful" "mean";
  output_sequence_length ← get3 metrics "output_token_count" "successful" "mean";
  Ok (merge_metadata extra_metadata (list_to_map
    [("filename", VStr filename);
     ("filepath", VStr filepath);
     ("concurrency", concurrency);
     ("rps", rps);
     ("prompt_tokens", dget dataset_settings "prompt_tokens" (VInt 0));
     ("prompt_tokens_stdev", dget dataset_settings "prompt_tokens_stdev" (VInt 0));
     ("output_tokens", dget dataset_settings "output_tokens" (VInt 0));
     ("output_tokens_stdev", dget dataset_settings "output_tokens_stdev" (VInt 0));
     ("processor", dget dataset_settings "processor" (VStr ""));
     ("mean_output_tokens_per_second", output_tps_mean);
     ("mean_total_tokens_per_second", total_tps_mean);
     ("request_latency_mean", request_latency_mean);
     ("request_latency_median", request_latency_median);
     ("ttft_mean", ttft_mean);
     ("ttft_median", ttft_median);
     ("itl_mean", itl_mean);
     ("itl_median", itl_median);
     ("request_latency_p95", request_latency_p95);
     ("request_latency_p99", request_latency_p99);
     ("ttft_p95", ttft_p95);
     ("ttft_p99", ttft_p99);
     ("itl_p95", itl_p95);
     ("itl_p99", itl_p99);
     ("input_sequence_length", input_sequence_length);
     ("output_sequence_length", output_sequence_length)])).

(** One turn of the loop of lines 96-205: [None] is [continue]. *)
Definition summary_entry (filename filepath : string) (extra_metadata : option dict)
    (benchmark : value) : io (option dict) :=
  '(config, strategy, profile) ← lift (resolve_strategy benchmark);
  '(concurrency, rps) ← lift (resolve_axis strategy profile);
  if is_none concurrency && is_none rps then
    _ ← print (NoAxisFound filepath); mret None
  else
    row ← lift (summary_row filename filepath extra_metadata config benchmark
                  concurrency rps);
    mret (Some row).

Fixpoint summary_loop (filename filepath : string) (extra_metadata : option dict)
    (benchmarks : list value) : io (list dict) :=
  match benchmarks with
  | [] => mret []
  | benchmark :: rest =>
      row ← summary_entry filename filepath extra_metadata benchmark;
      rows ← summary_loop filename filepath extra_metadata rest;
      mret (match row with Some r => r :: rows | None => rows end)
  end.

(** [file] is what [json.load] returned, or [None] when opening or decoding
    the file raised. *)
Definition parse_benchmark_metrics (file : option value) (filepath : string)
    (extra_metadata : option dict) : io (list dict) :=
  let filename := basename filepath in
  match file with
  | None => _ ← print (ErrorReading filepath); mret []
  | Some data =>
      benchmarks ← lift (py_get data "benchmarks" (VList []));
      if negb (truthy benchmarks) then
        _ ← print (NoBenchmarks filepath); mret []
      else
        items ← lift (py_iter benchmarks);
        summary_loop filename filepath extra_metadata items
  end.

(** ** [parse_individual_requests] *)

(** One relative time stamp of lines 333-346, under a known start of the
    run. *)
Definition relative_time (absolute test_start_time : value) : result value :=
  positive ← py_gt_zero absolute;
  if (positive : bool) then py_sub absolute test_start_time else Ok (VInt 0).

(** Lines 304-355 for one request. *)
Definition request_row (filename filepath : string) (extra_metadata : option dict)
    (concurrency rps : value) (dataset_settings : dict) (test_start_time : value)
    (request : value) : result dict :=
  start_time_old ← py_get request "start_time" (VInt 0);
  start_time ← py_get request "request_start_time" start_time_old;
  end_time_old ← py_get request "end_time" (VInt 0);
  end_time ← py_get request "request_end_time" end_time_old;
  request_id ← py_get request "request_id" (VStr "");
  prompt_tokens ← py_get request "prompt_tokens" (VInt 0);
  output_tokens ← py_get request "output_tokens" (VInt 0);
  request_latency ← py_get request "request_latency" (VInt 0);
  time_to_first_token_ms ← py_get request "time_to_first_token_ms" (VInt 0);
  inter_token_latency_ms ← py_get request "inter_token_latency_ms" (VInt 0);
  tokens_per_second ← py_get request "tokens_per_second" (VInt 0);
  output_tokens_per_second ← py_get request "output_tokens_per_second" (VInt 0);
  first_token_time ← py_get request "first_token_time" (VInt 0);
  let request_data : dict := list_to_map
    [("filename", VStr filename);
     ("filepath", VStr filepath);
     ("concurrency", concurrency);
     ("rps", rps);
     ("dataset_prompt_tokens", dget dataset_settings "prompt_tokens" (VInt 0));
     ("dataset_output_tokens", dget dataset_settings "output_tokens" (VInt 0));
     ("request_id", request_id);
     ("prompt_tokens", prompt_tokens);
     ("output_tokens", output_tokens);
     ("request_latency", request_latency);
     ("time_to_first_token_ms", time_to_first_token_ms);
     ("inter_token_latency_ms", inter_token_latency_ms);
     ("tokens_per_second", tokens_per_second);
     ("output_tokens_per_second", output_tokens_per_second);
     ("first_token_time", first_token_time);
     ("start_time", start_time);
     ("end_time", end_time)] in
  '(first_token_rel, start_rel, end_rel) ←
    (if negb (is_none test_start_time) then
       first_token_time ← py_get request "first_token_time" (VInt 0);
       first_token_rel ← relative_time first_token_time test_start_time;
       start_rel ← relative_time start_time test_start_time;
       end_rel ← relative_time end_time test_start_time;
       Ok (first_token_rel, start_rel, end_rel)
     else Ok (VInt 0, VInt 0, VInt 0));
  Ok (merge_metadata extra_metadata
        (<["end_time_relative" := end_rel]>
           (<["start_time_relative" := start_rel]>
              (<["first_token_time_relative" := first_token_rel]> request_data)))).

Fixpoint request_loop (filename filepath : string) (extra_metadata : option dict)
    (concurrency rps : value) (dataset_settings : dict) (test_start_time : value)
    (requests : list value) : result (list dict) :=
  match requests with
  | [] => Ok []
  | request :: rest =>
      row ← request_row filename filepath extra_metadata concurrency rps
              dataset_settings test_start_time request;
      rows ← request_loop filename filepath extra_metadata concurrency rps
               dataset_settings test_start_time rest;
      Ok (row :: rows)
  end.

(** Lines 237-240: the start of the run, from [run_stats] first, then from
    the entry itself; [None] when neither has it. *)
Definition run_start_time (benchmark : value) : result value :=
  run_stats ← py_get benchmark "run_stats" (VDict ∅);
  test_start_time ← py_get run_stats "start_time" VNone;
  if is_none test_start_time then py_get benchmark "start_time" VNone
  else Ok test_start_time.

(** Line 296, the label of the progress message; [int(rps)] may raise. *)
Definition request_label (concurrency rps : value) : result string :=
  if negb (is_none concurrency) then Ok ("c" ++ py_str rt concurrency)
  else match rps with
       | VNone => Ok ""
       | VFloat f => z ← int_of_float f; Ok ("rps" ++ py_str rt (VInt z))
       | _ => Raise TypeError
       end.

(** One turn of the loop of lines 235-357: the rows of one benchmark. *)
Definition requests_entry (filename filepath : string) (extra_metadata : option dict)
    (benchmark : value) : io (list dict) :=
  test_start_time ← lift (run_start_time benchmark);
  '(config, strategy, profile) ← lift (resolve_strategy benchmark);
  '(concurrency, rps) ← lift (resolve_axis strategy profile);
  if is_none concurrency && is_none rps then
    _ ← print (NoAxisFound filepath); mret []
  else
    dataset_settings ← lift (benchmark_dataset_settings config benchmark);
    requests ← lift (py_get benchmark "requests" (VDict ∅));
    successful_requests ← lift (py_get requests "successful" (VList []));
    if negb (truthy successful_requests) then
      _ ← print (NoSuccessfulRequests filepath); mret []
    else
      label ← lift (request_label concurrency rps);
      n ← lift (py_len successful_requests);
      _ ← print (FoundRequests n filename label);
      items ← lift (py_iter successful_requests);
      lift (request_loop filename filepath extra_metadata concurrency rps
              dataset_settings test_start_time items).

Fixpoint requests_outer_loop (filename filepath : string)
    (extra_metadata : option dict) (benchmarks : list value) : io (list dict) :=
  match benchmarks with
  | [] => mret []
  | benchmark :: rest =>
      rows ← requests_entry filename filepath extra_metadata benchmark;
      more ← requests_outer_loop filename filepath extra_metadata rest;
      mret (rows ++ more)%list
  end.

Definition parse_individual_requests (file : option value) (filepath : string)
    (extra_metadata : option dict) : io (list dict) :=
  let filename := basename filepath in
  match file with
  | None => _ ← print (ErrorReading filepath); mret []
  | Some data =>
      benchmarks ← lift (py_get data "benchmarks" (VList []));
      if negb (truthy benchmarks) then
        _ ← print (NoBenchmarks filepath); mret []
      else
        items ← lift (py_iter benchmarks);
        requests_outer_loop filename filepath extra_metadata items
  end.

End Extraction.

(** ** Tables

    A [DataFrame]: the column labels, and the rows in index order, every
    row with the cells the frame stores for it.  A cell no row supplied is
    NaN, and in a column of floats a cell is a float, also where the row
    the frame was built from had an integer. *)

Record dataframe : Type := {
  columns : list string;
  rows : list dict
}.

(** The integer a float denotes, when it denotes one. *)
Definition float_integer (f : float) : option Z :=
  match Prim2SF f with
  | S754_zero _ => Some 0
  | S754_finite s m e =>
      let magnitude :=
        if 0 <=? e then Some (Z.shiftl (Z.pos m) e)
        else if Z.land (Z.pos m) (Z.ones (- e)) =? 0
             then Some (Z.shiftr (Z.pos m) (- e))
             else None in
      (fun a => if s then - a else a) <$> magnitude
  | _ => None
  end.

Definition is_number (v : value) : bool :=
  match v with VInt _ | VFloat _ => true | _ => false end.

(** Two numbers are the same number: no rounding of an integer on its way
    to a float, no tolerance between floats; a NaN is found among NaNs, as
    a hash table of floats finds it. *)
Definition number_eqb (a b : value) : bool :=
  match a, b with
  | VInt x, VInt y => x =? y
  | VInt x, VFloat g | VFloat g, VInt x => bool_decide (float_integer g = Some x)
  | VFloat f, VFloat g =>
      (f =? g)%float || (PrimFloat.is_nan f && PrimFloat.is_nan g)
  | _, _ => false
  end.

(** The two pandas cell operations the enrichers use. *)
Record pandas : Type := {
  (** one cell of [Series.astype(str)]: the text of the cell, [None] for a
      cell that stays missing *)
  astype_str : value -> option string;
  (** one cell of [Series.isin(values)] *)
  isin : value -> list value -> bool;
  (** a number is among a list of floats when it is the same number as one
      of them *)
  isin_numbers : forall (c : value) (levels : list float),
    is_number c = true ->
    isin c (VFloat <$> levels)
    = existsb (fun level => number_eqb c (VFloat level)) levels
}.

Section Tables.

Variable pd : pandas.

Definition has_column (df : dataframe) (c : string) : bool :=
  bool_decide (c ∈ columns df).

Definition cell (row : dict) (c : string) : value :=
  default (VFloat PrimFloat.nan) (row !! c).

(** [df[c]]: the cells of a column, or [KeyError]. *)
Definition get_column (df : dataframe) (c : string) : result (list value) :=
  if has_column df c then Ok ((fun row => cell row c) <$> rows df)
  else Raise KeyError.

(** [df[c] = series], for a series on the index of [df]: an existing column
    is overwritten in place, a new one is added last. *)
Definition set_column (df : dataframe) (c : string) (series : list value)
  : dataframe :=
  {| columns := if has_column df c then columns df else (columns df ++ [c])%list;
     rows := zip_with (fun row v => <[c := v]> row) (rows df) series |}.

(** One cell of [a.astype(str) + '-' + b.astype(str)]: the two texts
    around a dash, and NaN where one of the two cells stayed missing. *)
Definition dash (x y : value) : value :=
  match astype_str pd x, astype_str pd y with
  | Some a, Some b => VStr (a ++ "-" ++ b)
  | _, _ => VFloat PrimFloat.nan
  end.

Definition dash_join (a b : list value) : list value := zip_with dash a b.

(** ** [create_dataset_identifier] *)
Definition create_dataset_identifier (df : dataframe) : result dataframe :=
  if has_column df "prompt_tokens" then
    prompt ← get_column df "prompt_tokens";
    output ← get_column df "output_tokens";
    Ok (set_column df "dataset_id" (dash_join prompt output))
  else if has_column df "dataset_prompt_tokens" then
    prompt ← get_column df "dataset_prompt_tokens";
    output ← get_column df "dataset_output_tokens";
    Ok (set_column df "dataset_id" (dash_join prompt output))
  else Ok df.

(** ** [filter_data_by_levels]

    [levels] is [None] or a list.  The result comes with what was
    printed. *)
Definition axis_field (axis_mode : string) : string :=
  if String.eqb axis_mode "concurrency" then "concurrency" else "rps".

Definition filter_data_by_levels (df : dataframe) (axis_mode : string)
    (levels : option (list value)) : dataframe * list diag :=
  match levels with
  | None => (df, [])
  | Some levels =>
      let field := axis_field axis_mode in
      if negb (has_column df field) then (df, [ColumnNotFound field])
      else
        let filtered_df :=
          {| columns := columns df;
             rows := List.filter (fun row => isin pd (cell row field) levels) (rows df) |} in
        (filtered_df,
         match rows filtered_df with
         | [] => [NoDataRemains field levels]
         | _ => []
         end)
  end.

End Tables.

(** ** A concrete runtime for the worked examples

    Executable decoders for a fragment of what CPython and pandas accept,
    enough to run the examples of this file:
    - [literal_eval]: a list display of string literals without escapes;
    - [json_loads]: JSON without escapes in strings and without a fraction
      or an exponent in numbers;
    - [float] on a string: an optional sign and decimal digits;
    - [str]: [None], bools, ints, strings, and the floats that print as an
      integer followed by [.0], as [nan] or as [inf].
    Outside the fragment the decoders refuse the text.  The general theorems
    do not mention them: they hold for every runtime. *)

Module Sample.

Definition is_space (a : ascii) : bool :=
  let n := N_of_ascii a in
  ((n =? 32) || (n =? 9) || (n =? 10) || (n =? 13))%N.

Fixpoint skip_spaces (cs : list ascii) : list ascii :=
  match cs with
  | c :: rest => if is_space c then skip_spaces rest else cs
  | [] => []
  end.

(** The body of a string literal up to the closing quote [q]. *)
Fixpoint literal_body (q : ascii) (cs : list ascii) : option (string * list ascii) :=
  match cs with
  | [] => None
  | c :: rest =>
      if Ascii.eqb c q then Some (EmptyString, rest)
      else if Ascii.eqb c "\" || (N_of_ascii c <? 32)%N then None
      else '(s, rest') ← literal_body q rest; Some (String c s, rest')
  end.

(** The double quote, by its code. *)
Definition dquote : ascii := ascii_of_N 34.

Definition is_quote (a : ascii) : bool := Ascii.eqb a "'" || Ascii.eqb a dquote.

(** After ['['] or [',']: string literals up to the closing bracket. *)
Fixpoint literal_items (fuel : nat) (cs : list ascii)
  : option (list value * list ascii) :=
  match fuel with
  | O => None
  | S fuel =>
      match skip_spaces cs with
      | [] => None
      | c :: rest =>
          if Ascii.eqb c "]" then Some ([], rest)
          else if is_quote c then
            '(s, rest) ← literal_body c rest;
            match skip_spaces rest with
            | d :: rest =>
                if Ascii.eqb d "]" then Some ([VStr s], rest)
                else if Ascii.eqb d "," then
                  '(items, rest) ← literal_items fuel rest;
                  Some (VStr s :: items, rest)
                else None
            | [] => None
            end
          else None
      end
  end.

Definition literal_eval (s : string) : result value :=
  match skip_spaces (list_ascii_of_string s) with
  | c :: rest =>
      if Ascii.eqb c "[" then
        match literal_items (S (length rest)) rest with
        | Some (items, tail) =>
            match skip_spaces tail with
            | [] => Ok (VList items)
            | _ => Raise SyntaxError
            end
        | None => Raise SyntaxError
        end
      else Raise SyntaxError
  | [] => Raise SyntaxError
  end.

(** The digits at the head of the text, as a number. *)
Fixpoint json_digits (acc : Z) (cs : list ascii) : Z * list ascii :=
  match cs with
  | c :: rest =>
      if is_ascii_digit c
      then json_digits (10 * acc + (Z.of_N (N_of_ascii c) - 48)) rest
      else (acc, cs)
  | [] => (acc, [])
  end.

Definition starts_number_tail (cs : list ascii) : bool :=
  match cs with
  | c :: _ => Ascii.eqb c "." || Ascii.eqb c "e" || Ascii.eqb c "E" || is_ascii_digit c
  | [] => false
  end.

(** An integer literal: no leading zero before another digit, and no
    fraction or exponent after it. *)
Definition json_int (cs : list ascii) : option (Z * list ascii) :=
  match cs with
  | c :: rest =>
      if Ascii.eqb c "0" then
        if starts_number_tail rest then None else Some (0, rest)
      else if is_ascii_digit c then
        let '(z, rest) := json_digits 0 cs in
        if starts_number_tail rest then None else Some (z, rest)
      else None
  | [] => None
  end.

Definition json_scalar (cs : list ascii) : option (value * list ascii) :=
  match cs with
  | "n" :: "u" :: "l" :: "l" :: rest => Some (VNone, rest)
  | "t" :: "r" :: "u" :: "e" :: rest => Some (VBool true, rest)
  | "f" :: "a" :: "l" :: "s" :: "e" :: rest => Some (VBool false, rest)
  | "N" :: "a" :: "N" :: rest => Some (VFloat PrimFloat.nan, rest)
  | "-" :: rest => '(z, rest) ← json_int rest; Some (VInt (- z), rest)
  | c :: rest =>
      if Ascii.eqb c dquote
      then '(s, rest) ← literal_body dquote rest; Some (VStr s, rest)
      else '(z, rest) ← json_int cs; Some (VInt z, rest)
  | [] => None
  end%char.

Fixpoint json_value (fuel : nat) (cs : list ascii) : option (value * list ascii) :=
  match fuel with
  | O => None
  | S fuel =>
      match skip_spaces cs with
      | c :: rest =>
          if Ascii.eqb c "[" then
            match skip_spaces rest with
            | d :: rest' =>
                if Ascii.eqb d "]" then Some (VList [], rest')
                else '(items, rest) ← json_elements fuel rest; Some (VList items, rest)
            | [] => None
            end
          else if Ascii.eqb c "{" then
            match skip_spaces rest with
            | d :: rest' =>
                if Ascii.eqb d "}" then Some (VDict ∅, rest')
                else '(members, rest) ← json_members fuel rest;
                     Some (VDict (list_to_map (reverse members)), rest)
            | [] => None
            end
          else json_scalar (c :: rest)
      | [] => None
      end
  end
with json_elements (fuel : nat) (cs : list ascii) : option (list value * list ascii) :=
  match fuel with
  | O => None
  | S fuel =>
      '(v, rest) ← json_value fuel cs;
      match skip_spaces rest with
      | d :: rest =>
          if Ascii.eqb d "]" then Some ([v], rest)
          else if Ascii.eqb d "," then
            '(items, rest) ← json_elements fuel rest; Some (v :: items, rest)
          else None
      | [] => None
      end
  end
with json_members (fuel : nat) (cs : list ascii)
  : option (list (string * value) * list ascii) :=
  match fuel with
  | O => None
  | S fuel =>
      match skip_spaces cs with
      | q :: rest =>
          if Ascii.eqb q dquote then
            '(key, rest) ← literal_body dquote rest;
            match skip_spaces rest with
            | colon :: rest =>
                if Ascii.eqb colon ":" then
                  '(v, rest) ← json_value fuel rest;
                  match skip_spaces rest with
                  | d :: rest =>
                      if Ascii.eqb d "}" then Some ([(key, v)], rest)
                      else if Ascii.eqb d "," then
                        '(members, rest) ← json_members fuel rest;
                        Some ((key, v) :: members, rest)
                      else None
                  | [] => None
                  end
                else None
            | [] => None
            end
          else None
      | [] => None
      end
  end.

Definition json_loads (s : string) : result value :=
  let cs := list_ascii_of_string s in
  match json_value (2 * length cs + 2) cs with
  | Some (v, tail) =>
      match skip_spaces tail with
      | [] => Ok v
      | _ => Raise JSONDecodeError
      end
  | None => Raise JSONDecodeError
  end.

(** [float] on an integer literal; a magnitude beyond the finite floats
    becomes an infinity. *)
Definition float_of_str (s : string) : option float :=
  let digits_to_float (negative : bool) (digits : string) :=
    if isdigit digits && all_chars is_ascii_digit digits then
      let z := digits_value 0 digits in
      match float_of_Z z with
      | Ok f => Some (if negative then (- f)%float else f)
      | Raise _ => Some (if negative then PrimFloat.neg_infinity else PrimFloat.infinity)
      end
    else None in
  match s with
  | String "-" digits => digits_to_float true digits
  | String "+" digits => digits_to_float false digits
  | _ => digits_to_float false s
  end.

(** [str] of a float with an integral value below [10^16]. *)
Definition str_of_float (f : float) : option string :=
  match int_of_float f with
  | Ok z =>
      if (Z.abs z <? 10 ^ 16) && (if float_of_Z z is Ok g then (f =? g)%float else false)
      then Some ((if PrimFloat.get_sign f then
                    (if z =? 0 then "-0" else pretty z)
                  else pretty z) ++ ".0")
      else None
  | Raise ValueError => Some "nan"
  | Raise _ => Some (if PrimFloat.get_sign f then "-inf" else "inf")
  end.

Definition py_str (v : value) : string :=
  match v with
  | VNone => "None"
  | VBool b => if b then "True" else "False"
  | VInt z => pretty z
  | VStr s => s
  | VFloat f => default "..." (str_of_float f)
  | _ => "..."
  end.

(** The documents of the examples write the keys of a mapping in the
    order [map_to_list] gives them. *)
Definition python : runtime :=
  Build_runtime literal_eval json_loads float_of_str 4300 py_str
    (fun m => (map_to_list m).*1) (fun m => Permutation_refl _).

(** The text of a cell: a missing cell (NaN, [None]) stays missing. *)
Definition render (v : value) : option string :=
  match v with
  | VNone => None
  | VFloat f => if PrimFloat.is_nan f then None else Some (py_str v)
  | _ => Some (py_str v)
  end.

(** Membership of a cell among the levels: the same number, or the same
    string. *)
Definition cell_equal (a b : value) : bool :=
  match a, b with
  | VStr s, VStr t => String.eqb s t
  | _, _ => number_eqb a b
  end.

Definition frames : pandas.
Proof.
  refine {| astype_str := render;
            isin := fun c levels => existsb (cell_equal c) levels |}.
  intros c levels Hc. induction levels as [|level levels IH]; [reflexivity|].
  cbn [fmap list_fmap existsb]. cbn [fmap] in IH. rewrite IH.
  destruct c; try discriminate Hc; reflexivity.
Defined.

End Sample.

(** ** Reading the outcome of an extraction *)

(** The values one field takes over the emitted rows, in order. *)
Definition field_values (k : string) (out : io (list dict))
  : result (list (option value)) :=
  match snd out with
  | Ok rows => Ok (List.map (fun row : dict => row !! k) rows)
  | Raise e => Raise e
  end.

(** The caller's metadata does not bind the key [k]. *)
Definition metadata_free (extra_metadata : option dict) (k : string) : Prop :=
  default ∅ extra_metadata !! k = None.

(** A row carries an axis value: [concurrency] and [rps] are both there
    and not both null. *)
Definition axis_present (row : dict) : Prop :=
  exists c r : value,
    row !! "concurrency" = Some c /\ row !! "rps" = Some r
    /\ (c <> VNone \/ r <> VNone).

(** Exactly one of [concurrency] and [rps] is null. *)
Definition axis_exclusive (row : dict) : Prop :=
  exists c r : value,
    row !! "concurrency" = Some c /\ row !! "rps" = Some r
    /\ ((c = VNone /\ r <> VNone) \/ (c <> VNone /\ r = VNone)).

(** The relative time stamp the code stores for an absolute one: 0 when
    the start of the run is unknown or the absolute value is not above 0,
    else the difference. *)
Definition relative_spec (test_start_time absolute v : value) : Prop :=
  if is_none test_start_time then v = VInt 0
  else exists positive : bool,
      py_gt_zero absolute = Ok positive
      /\ (if positive then py_sub absolute test_start_time = Ok v else v = VInt 0).

(** The absolute time stamps of a request: the new field name wins when the
    key is there, else the old name, else 0. *)
Definition request_time (request : dict) (new_key old_key : string) : value :=
  default (default (VInt 0) (request !! old_key)) (request !! new_key).

(** Building a JSON object from its members. *)
Definition obj (members : list (string * value)) : value :=
  VDict (list_to_map members).

(** The rows an extraction emitted, none when it raised. *)
Definition rows_of (out : io (list dict)) : list dict :=
  match snd out with Ok rows => rows | Raise _ => [] end.

(** ** Worked documents *)

Definition results_file (entries : list value) : option value :=
  Some (obj [("benchmarks", VList entries)]).

(** A constant-rate run that also bounds its concurrency. *)
Definition constant_rate_entry : value :=
  obj [("config", obj [("strategy",
         obj [("type_", VStr "constant"); ("rate", VInt 2);
              ("max_concurrency", VInt 4)])]);
       ("requests", obj [("successful", VList [obj [("request_id", VStr "r1")]])])].

(** An entry whose strategy names neither a concurrency nor a rate. *)
Definition axisless_entry : value :=
  obj [("config", obj [("strategy", obj [("type_", VStr "synchronous")])])].

(** The dict a computation returned, empty when it raised. *)
Definition row_of (r : result dict) : dict :=
  match r with Ok row => row | Raise _ => ∅ end.

(** A run without a successful request that still moved tokens. *)
Definition degraded_entry : value :=
  obj [("config", obj [("strategy", obj [("max_concurrency", VInt 4)])]);
       ("metrics", obj
          [("output_tokens_per_second",
            obj [("successful", obj [("mean", VInt 0)]);
                 ("total", obj [("mean", VInt 42)])]);
           ("tokens_per_second",
            obj [("successful", obj [("mean", VFloat 17.5)]);
                 ("total", obj [("mean", VInt 99)])])])].


(** An entry has no loader information: [config] is a mapping (or absent)
    whose [requests] is absent or falsy. *)
Definition no_request_config (benchmark : dict) : Prop :=
  exists config : dict,
    default (VDict ∅) (benchmark !! "config") = VDict config
    /\ truthy (default (VDict ∅) (config !! "requests")) = false.

(** The dataset fields of a summary row. *)
Definition summary_dataset_fields (row : dict)
    (prompt_tokens prompt_tokens_stdev output_tokens output_tokens_stdev
       processor : value) : Prop :=
  row !! "prompt_tokens" = Some prompt_tokens
  /\ row !! "prompt_tokens_stdev" = Some prompt_tokens_stdev
  /\ row !! "output_tokens" = Some output_tokens
  /\ row !! "output_tokens_stdev" = Some output_tokens_stdev
  /\ row !! "processor" = Some processor.

(** The dataset fields of a per-request row. *)
Definition request_dataset_fields (row : dict)
    (prompt_tokens output_tokens : value) : Prop :=
  row !! "dataset_prompt_tokens" = Some prompt_tokens
  /\ row !! "dataset_output_tokens" = Some output_tokens.

(** The keys of the dataset fields, which the metadata must leave alone. *)
Definition dataset_keys : list string :=
  ["prompt_tokens"; "prompt_tokens_stdev"; "output_tokens";
   "output_tokens_stdev"; "processor"; "dataset_prompt_tokens";
   "dataset_output_tokens"].

(** An entry with a concurrency, one successful request and an explicit
    null [request_loader]. *)
Definition null_loader_entry : value :=
  obj [("config", obj [("strategy", obj [("max_concurrency", VInt 4)])]);
       ("request_loader", VNone);
       ("requests", obj [("successful", VList [obj [("request_id", VStr "r1")]])])].

(** The same entry without the [request_loader] key. *)
Definition bare_entry : dict :=
  list_to_map
    [("config", obj [("strategy", obj [("max_concurrency", VInt 4)])]);
     ("requests", obj [("successful", VList [obj [("request_id", VStr "r1")]])])].

(** The entry holds the three sub-trees of the newer layout, none of them
    empty. *)
Definition variant_a_present (benchmark : dict) : Prop :=
  exists (config : dict) (strategy profile requests : value),
    benchmark !! "config" = Some (VDict config)
    /\ config !! "strategy" = Some strategy /\ truthy strategy = true
    /\ config !! "profile" = Some profile /\ truthy profile = true
    /\ config !! "requests" = Some requests /\ truthy requests = true.

(** The entry with the sub-trees of the older layout set to the given
    values. *)
Definition with_variant_b (args request_loader : value) (benchmark : dict) : dict :=
  <["args" := args]> (<["request_loader" := request_loader]> benchmark).

(** The request with the time stamps of the older layout set to the given
    values. *)
Definition with_old_times (start_time end_time : value) (request : dict) : dict :=
  <["start_time" := start_time]> (<["end_time" := end_time]> request).

(** An entry of the newer layout. *)
Definition variant_a_entry : dict :=
  list_to_map
    [("config", obj [("strategy", obj [("max_concurrency", VInt 4)]);
                     ("profile", obj [("strategy_type", VStr "concurrent")]);
                     ("requests", obj [("data", VStr "['prompt_tokens=512,output_tokens=256']")])]);
     ("requests", obj [("successful",
        VList [obj [("request_start_time", VInt 20); ("request_end_time", VInt 30)]])])].

(** An entry whose newer-layout strategy is empty next to an older-layout
    strategy with a value. *)
Definition empty_strategy_entry : value :=
  obj [("config", obj [("strategy", obj [])]);
       ("args", obj [("strategy", obj [("streams", VInt 8)])])].

(** The same entry without the older layout. *)
Definition empty_strategy_alone : value :=
  obj [("config", obj [("strategy", obj [])])].

(** The concurrency column of a table. *)
Definition concurrency_table (levels : list Z) : dataframe :=
  {| columns := ["filename"; "concurrency"];
     rows := (fun c => list_to_map [("filename", VStr "run.json");
                                    ("concurrency", VInt c)]) <$> levels |}.

(** A summary table of two runs. *)
Definition token_table : dataframe :=
  {| columns := ["prompt_tokens"; "output_tokens"];
     rows := [list_to_map [("prompt_tokens", VInt 512); ("output_tokens", VInt 256)];
              list_to_map [("prompt_tokens", VInt 400); ("output_tokens", VInt 200)]] |}.

(** ** The configuration getters of [config.py]

    [config] is what [yaml.safe_load] returned. *)

(** [get_axis_mode]: the configured mode, [concurrency] for anything that
    is not one of the two names. *)
Definition get_axis_mode (config : value) : result value :=
  options ← py_get config "options" (VDict ∅);
  axis_mode ← py_get options "axis_mode" (VStr "concurrency");
  if negb (py_eq_str axis_mode "concurrency" || py_eq_str axis_mode "rps")
  then Ok (VStr "concurrency")
  else Ok axis_mode.

(** [get_color_column]. *)
Definition get_color_column (config : value) : result value :=
  options ← py_get config "options" (VDict ∅);
  py_get options "color" (VStr "dataset_id").

(** [[float(level) for level in levels]]: the conversions run in order and
    the first one that raises ends the comprehension. *)
Fixpoint float_each (rt : runtime) (levels : list value) : result (list value) :=
  match levels with
  | [] => Ok []
  | level :: rest =>
      f ← py_float rt level;
      floats ← float_each rt rest;
      Ok (VFloat f :: floats)
  end.

(** The body shared by [get_concurrency_levels] and [get_rps_levels], which
    differ in the key they read. *)
Definition get_levels (rt : runtime) (key : string) (config : value)
  : result (option (list value)) :=
  options ← py_get config "options" (VDict ∅);
  levels ← py_get options key VNone;
  if truthy levels then
    try_except
      (items ← py_iter rt levels;
       floats ← float_each rt items;
       Ok (Some floats))
      [ValueError; TypeError] (Ok None)
  else Ok None.

Definition get_concurrency_levels (rt : runtime) (config : value)
  : result (option (list value)) :=
  get_levels rt "concurrency_levels" config.

Definition get_rps_levels (rt : runtime) (config : value)
  : result (option (list value)) :=
  get_levels rt "rps_levels" config.

(** [get_data_groups]. *)
Definition get_data_groups (config : value) : result value :=
  py_get config "data" (VList []).

(** ** The enrichment step of [main] (lines 95-103 and 129-137)

    The identifier is derived, then the table is filtered by the levels
    configured for the axis mode. *)
Definition configured_levels (rt : runtime) (config : value) (axis_mode : string)
  : result (option (list value)) :=
  if String.eqb axis_mode "concurrency" then get_concurrency_levels rt config
  else get_rps_levels rt config.

Definition enrich_table (rt : runtime) (pd : pandas) (config : value)
    (axis_mode : string) (df : dataframe) : result (dataframe * list diag) :=
  df ← create_dataset_identifier pd df;
  levels ← configured_levels rt config axis_mode;
  Ok (filter_data_by_levels pd df axis_mode levels).

(** ** [load_data_from_config]

    [glob] and the parser are arguments, as in the source: the parser is
    any callable taking a path and the group's metadata.  What the loader
    prints is a log of its own, with the parser's diagnostics inside.  The
    result is [all_data], the rows handed to [pd.DataFrame]. *)

Inductive load_diag : Type :=
| ProcessingGroup (n : nat) (extra_metadata : value)
| ProcessingFile (filepath : string)
| Parsing (d : diag).

Definition lio (A : Type) : Type := (list load_diag * result A)%type.

#[global] Instance lio_ret : MRet lio := fun A a => ([], Ok a).
#[global] Instance lio_bind : MBind lio := fun A B f m =>
  match m with
  | (log, Ok a) => let '(log', r) := f a in ((log ++ log')%list, r)
  | (log, Raise e) => (log, Raise e)
  end.

Definition lprint (d : load_diag) : lio unit := ([d], Ok tt).
Definition llift {A} (r : result A) : lio A := ([], r).

(** [v[k]] for a string [k]: a dict without the key raises [KeyError],
    a sequence wants an integer, and nothing else can be subscripted. *)
Definition py_getitem (v : value) (k : string) : result value :=
  match v with
  | VDict m => match m !! k with
               | Some x => Ok x
               | None => Raise KeyError
               end
  | _ => Raise TypeError
  end.

Section Loader.

Variable rt : runtime.
Variable glob : string -> list string.
Variable parser_func : string -> value -> io (list dict).

(** The loop [for pattern in file_patterns: files.extend(glob(pattern))];
    [glob] wants a path. *)
Fixpoint expand_patterns (patterns : list value) : result (list string) :=
  match patterns with
  | [] => Ok []
  | VStr pattern :: rest =>
      files ← expand_patterns rest;
      Ok (glob pattern ++ files)%list
  | _ :: _ => Raise TypeError
  end.

Definition run_parser (filepath : string) (extra_metadata : value)
  : lio (list dict) :=
  let '(log, r) := parser_func filepath extra_metadata in (Parsing <$> log, r).

(** The loop over the files of one group. *)
Fixpoint parse_files (extra_metadata : value) (files : list string)
  : lio (list dict) :=
  match files with
  | [] => mret []
  | filepath :: rest =>
      _ ← lprint (ProcessingFile filepath);
      rows ← run_parser filepath extra_metadata;
      more ← parse_files extra_metadata rest;
      mret (rows ++ more)%list
  end.

(** One turn of the loop over the groups. *)
Definition load_group (data_group : value) : lio (list dict) :=
  extra_metadata ← llift (py_get data_group "extra_metadata" (VDict ∅));
  file_patterns ← llift (py_get data_group "files" (VList []));
  patterns ← llift (py_iter rt file_patterns);
  files ← llift (expand_patterns patterns);
  _ ← lprint (ProcessingGroup (length files) extra_metadata);
  parse_files extra_metadata files.

Fixpoint load_groups (groups : list value) : lio (list dict) :=
  match groups with
  | [] => mret []
  | data_group :: rest =>
      rows ← load_group data_group;
      more ← load_groups rest;
      mret (rows ++ more)%list
  end.

Definition load_data_from_config (config : value) : lio (list dict) :=
  data ← llift (py_getitem config "data");
  groups ← llift (py_iter rt data);
  load_groups groups.

End Loader.

(** A configuration that asks for the rps axis and three levels. *)
Definition rps_config : value :=
  obj [("data", VList []);
       ("options", obj [("axis_mode", VStr "rps");
                        ("rps_levels", VList [VInt 1; VFloat 2.5; VStr "10"]);
                        ("concurrency_levels", VList [VInt 1; VStr "fast"])])].

(** [str(a) + "-" + str(b)], as the description of the function words the
    identifier, for two cells of which one may have no text: then there is
    no identifier either, the cell is NaN. *)
Definition joined (a b : option string) : value :=
  match a, b with
  | Some x, Some y => VStr (x ++ "-" ++ y)
  | _, _ => VFloat PrimFloat.nan
  end.

(** The identifier of one row, from its own two token cells. *)
Definition dataset_id_of (pd : pandas) (prompt output : string) (row : dict)
  : value :=
  joined (astype_str pd (cell row prompt)) (astype_str pd (cell row output)).

(** The pair of columns [create_dataset_identifier] reads, when it reads
    any. *)
Definition identifier_columns (df : dataframe) : option (string * string) :=
  if has_column df "prompt_tokens" then Some ("prompt_tokens", "output_tokens")
  else if has_column df "dataset_prompt_tokens"
       then Some ("dataset_prompt_tokens", "dataset_output_tokens")
       else None.

(** The paths the loader announced, in the order it parsed them. *)
Definition processed_files (log : list load_diag) : list string :=
  omap (fun d => match d with ProcessingFile f => Some f | _ => None end) log.

(** A directory with two result files, and two patterns that both match
    the first. *)
Definition sample_glob (pattern : string) : list string :=
  if String.eqb pattern "runs/*.json" then ["runs/a.json"; "runs/b.json"]
  else if String.eqb pattern "runs/a*" then ["runs/a.json"]
  else [].

Definition sample_read (filepath : string) : option value :=
  if String.eqb filepath "runs/a.json" then results_file [constant_rate_entry]
  else if String.eqb filepath "runs/b.json" then results_file [degraded_entry]
  else None.

(** [parse_benchmark_metrics] as the loader calls it, for a group whose
    metadata is a mapping. *)
Definition sample_parser (filepath : string) (extra_metadata : value)
  : io (list dict) :=
  parse_benchmark_metrics Sample.python (sample_read filepath) filepath
    (match extra_metadata with VDict m => Some m | _ => None end).

Definition overlapping_group : value :=
  obj [("files", VList [VStr "runs/*.json"; VStr "runs/a*"]);
       ("extra_metadata", obj [("version", VStr "v1")])].

(** The rows a load returned, none when it raised. *)
Definition loaded_rows (out : lio (list dict)) : list dict :=
  match snd out with Ok rows => rows | Raise _ => [] end.

(** The keys of a summary row, as the dict display of lines 168-199 lists
    them. *)
Definition summary_keys : list string :=
  ["filename"; "filepath"; "concurrency"; "rps"; "prompt_tokens";
   "prompt_tokens_stdev"; "output_tokens"; "output_tokens_stdev"; "processor";
   "mean_output_tokens_per_second"; "mean_total_tokens_per_second";
   "request_latency_mean"; "request_latency_median"; "ttft_mean"; "ttft_median";
   "itl_mean"; "itl_median"; "request_latency_p95"; "request_latency_p99";
   "ttft_p95"; "ttft_p99"; "itl_p95"; "itl_p99"; "input_sequence_length";
   "output_sequence_length"].

(** The keys of a per-request row: lines 307-325 and the three relative
    time stamps. *)
Definition request_keys : list string :=
  ["filename"; "filepath"; "concurrency"; "rps"; "dataset_prompt_tokens";
   "dataset_output_tokens"; "request_id"; "prompt_tokens"; "output_tokens";
   "request_latency"; "time_to_first_token_ms"; "inter_token_latency_ms";
   "tokens_per_second"; "output_tokens_per_second"; "first_token_time";
   "start_time"; "end_time"; "first_token_time_relative";
   "start_time_relative"; "end_time_relative"].

(** A results file with one run at concurrency 4 that served one request. *)
Definition one_run_file : option value :=
  results_file
    [obj [("config", obj [("strategy", obj [("max_concurrency", VInt 4)])]);
          ("requests", obj [("successful", VList [obj [("request_id", VStr "r1")]])])]].

(** The number of requests the progress messages of a log announce. *)
Fixpoint announced (log : list diag) : nat :=
  match log with
  | [] => 0
  | FoundRequests n _ _ :: rest => n + announced rest
  | _ :: rest => announced rest
  end.

(** The messages a per-request extraction of [filepath] can print. *)
Definition request_message (filepath : string) (d : diag) : Prop :=
  match d with
  | ErrorReading p | NoBenchmarks p | NoAxisFound p | NoSuccessfulRequests p =>
      p = filepath
  | FoundRequests n filename _ => n <> 0%nat /\ filename = basename filepath
  | _ => False
  end.

(** What the summary extraction printed and returned. *)
Definition log_of {A} (out : io A) : list diag := fst out.

(** A file with a run at a constant rate, a run without an axis value and a
    run at concurrency 4. *)
Definition mixed_file : option value :=
  results_file [constant_rate_entry; axisless_entry; VDict bare_entry].

(** The keys of a dataset record, lines 20-26, 44-50 and 58-64. *)
Definition settings_keys : list string :=
  ["prompt_tokens"; "prompt_tokens_stdev"; "output_tokens";
   "output_tokens_stdev"; "processor"].

(** A loader whose token count is written with a superscript two, which
    [str.isdigit] accepts and [int] refuses. *)
Definition superscript_loader : dict :=
  list_to_map
    [("data", VStr ("['output_tokens=256,prompt_tokens=" ++ String (ascii_of_N 178) "']"));
     ("processor", VStr "gpt2")].

(** A run at an unbounded constant rate, as a load generator writes it
    when no rate limit is set: [json.load] reads [Infinity] as a float. *)
Definition unbounded_rate_entry : value :=
  obj [("config", obj [("strategy",
         obj [("type_", VStr "constant"); ("rate", VFloat infinity)])]);
       ("requests", obj [("successful", VList [obj [("request_id", VStr "r1")]])])].

(** An entry whose loader text is the JSON number 5. *)
Definition number_loader_entry : value :=
  obj [("config", obj [("strategy", obj [("max_concurrency", VInt 4)])]);
       ("request_loader", obj [("data", VStr "5")]);
       ("requests", obj [("successful", VList [obj [("request_id", VStr "r1")]])])].

(** The two parsers as [load_data_from_config] calls them, over a file
    system [read] that gives what [json.load] returns for a path ([None]
    when opening or decoding raises), for a group whose metadata is a
    mapping. *)
Definition calls_extractor (rt : runtime) (read : string -> option value)
    (parser_func : string -> value -> io (list dict)) : Prop :=
  (forall filepath m,
      parser_func filepath (VDict m)
      = parse_benchmark_metrics rt (read filepath) filepath (Some m))
  \/ (forall filepath m,
         parser_func filepath (VDict m)
         = parse_individual_requests rt (read filepath) filepath (Some m)).

(** ** The axis pair, as the entry gives it *)

(** Lines 115-117 and 260-262: [max_concurrency], and [streams] when that
    one is null or absent. *)
Definition configured_concurrency (strategy : dict) : value :=
  if is_none (dget strategy "max_concurrency" VNone)
  then dget strategy "streams" VNone
  else dget strategy "max_concurrency" VNone.

(** Lines 122-123 and 267-268: the strategy type reads [constant]; the
    profile's [strategy_type] counts when the strategy has no key [type_]. *)
Definition constant_rate (strategy profile : dict) : bool :=
  py_eq_str (default (dget profile "strategy_type" VNone) (strategy !! "type_"))
    "constant".

(** Lines 125-129 and 269-273: the strategy's [rate], and when that one is
    null or absent the first element of the profile's [rate] when that is a
    list with an element. *)
Definition configured_rate (strategy profile : dict) : value :=
  if is_none (dget strategy "rate" VNone) then
    match (if truthy (dget profile "rate" VNone)
           then dget profile "rate" VNone else VList []) with
    | VList (first :: _) => first
    | _ => VNone
    end
  else dget strategy "rate" VNone.

(** The axis fields of a row of the entry [benchmark]: [concurrency] is
    the configured one, and [rps] is [float] of the configured rate of a
    constant-rate run and null in every other case. *)
Definition axis_of_entry (rt : runtime) (benchmark : value) (row : dict) : Prop :=
  exists (config : value) (strategy profile : dict) (rps : value),
    resolve_strategy benchmark = Ok (config, VDict strategy, VDict profile)
    /\ row !! "concurrency" = Some (configured_concurrency strategy)
    /\ row !! "rps" = Some rps
    /\ (rps <> VNone
        <-> constant_rate strategy profile = true
            /\ configured_rate strategy profile <> VNone)
    /\ (rps <> VNone ->
        exists f, py_float rt (configured_rate strategy profile) = Ok f
                  /\ rps = VFloat f).

(** A constant-rate strategy that bounds its concurrency and names no
    rate. *)
Definition rateless_entry : value :=
  obj [("config", obj [("strategy",
         obj [("type_", VStr "constant"); ("max_concurrency", VInt 4)])]);
       ("requests", obj [("successful", VList [obj [("request_id", VStr "r1")]])])].

(** ** The time stamps of a request, as the entry gives them *)






(** ** The values an extractor makes of three sub-trees

    What a summary row holds, before the caller's metadata is merged in,
    when the strategy, the profile and the loader information of its entry
    are the given ones. *)
Definition summary_values (rt : runtime) (strategy profile requests : value)
    (row0 : dict) : Prop :=
  exists (c r : value) (settings : dict),
    resolve_axis rt strategy profile = Ok (c, r)
    /\ extract_dataset_settings rt requests = Ok settings
    /\ row0 !! "concurrency" = Some c /\ row0 !! "rps" = Some r
    /\ summary_dataset_fields row0
         (dget settings "prompt_tokens" (VInt 0))
         (dget settings "prompt_tokens_stdev" (VInt 0))
         (dget settings "output_tokens" (VInt 0))
         (dget settings "output_tokens_stdev" (VInt 0))
         (dget settings "processor" (VStr "")).

(** The same for a per-request row. *)
Definition request_values (rt : runtime) (strategy profile requests : value)
    (row0 : dict) : Prop :=
  exists (c r : value) (settings : dict),
    resolve_axis rt strategy profile = Ok (c, r)
    /\ extract_dataset_settings rt requests = Ok settings
    /\ row0 !! "concurrency" = Some c /\ row0 !! "rps" = Some r
    /\ request_dataset_fields row0
         (dget settings "prompt_tokens" (VInt 0))
         (dget settings "output_tokens" (VInt 0)).

(** The newer-layout entry next to an older layout that says otherwise. *)
Definition both_layouts_entry : dict :=
  with_variant_b (obj [("strategy", obj [("streams", VInt 8)])])
    (obj [("data", VStr "['prompt_tokens=1,output_tokens=2']")])
    variant_a_entry.

(** The table with the identifier derived from the columns [prompt] and
    [output]: the column [dataset_id] is overwritten when there is one and
    added last when there is none, and every row gets the identifier of
    its own two cells. *)
Definition with_dataset_id (pd : pandas) (prompt output : string) (df : dataframe)
  : dataframe :=
  {| columns := if has_column df "dataset_id" then columns df
                else (columns df ++ ["dataset_id"])%list;
     rows := (fun row => <["dataset_id" := dataset_id_of pd prompt output row]> row)
               <$> rows df |}.

(** ** Tables [main] builds

    [pd.DataFrame(rows)] for rows that all have the keys [keys], written in
    that order, and in every column values of one kind: the frame stores
    the cells as the rows have them. *)
Definition frame_of (keys : list string) (rows : list dict) : dataframe :=
  {| columns := keys; rows := rows |}.

(** A run of the newer layout with its dataset settings and its
    successful requests, given by their token counts. *)
Definition run_entry (concurrency : Z) (data : string) (tokens : list (Z * Z))
  : value :=
  obj [("config",
        obj [("strategy", obj [("max_concurrency", VInt concurrency)]);
             ("requests", obj [("data", VStr data)])]);
       ("requests",
        obj [("successful",
              VList ((fun t => obj [("prompt_tokens", VInt (fst t));
                                    ("output_tokens", VInt (snd t))]) <$> tokens))])].

Definition two_runs_file : option value :=
  results_file
    [run_entry 4 "['prompt_tokens=512,output_tokens=256']" [(100, 50); (120, 60)];
     run_entry 8 "['prompt_tokens=400,output_tokens=200']" [(90, 45)]].

Definition summary_frame : dataframe :=
  frame_of summary_keys
    (rows_of (parse_benchmark_metrics Sample.python two_runs_file "runs/a.json" None)).

Definition request_frame : dataframe :=
  frame_of request_keys
    (rows_of (parse_individual_requests Sample.python two_runs_file "runs/a.json"
                None)).

(** A column of floats with a missing cell next to a column of integers. *)
Definition gappy_frame : dataframe :=
  {| columns := ["prompt_tokens"; "output_tokens"];
     rows := [list_to_map [("prompt_tokens", VFloat 512); ("output_tokens", VInt 256)];
              list_to_map [("prompt_tokens", VFloat PrimFloat.nan);
                           ("output_tokens", VInt 128)]] |}.

(** A table with the prompt column and without the output column. *)
Definition prompt_only_frame : dataframe :=
  {| columns := ["filename"; "prompt_tokens"];
     rows := [list_to_map [("filename", VStr "a.json"); ("prompt_tokens", VInt 512)]] |}.

(** * Properties *)

(** ** The result and log monads *)

Lemma bind_Ok {A B} (m : result A) (f : A -> result B) (b : B) :
  m ≫= f = Ok b -> exists a, m = Ok a /\ f a = Ok b.
Proof. destruct m as [a|e]; simpl; intros H; [eauto | discriminate]. Qed.

Lemma Ok_inj {A} (a b : A) : Ok a = Ok b -> a = b.
Proof. intros [= ->]. reflexivity. Qed.

Lemma bind_Ok_l {A B} (a : A) (f : A -> result B) : Ok a ≫= f = f a.
Proof. reflexivity. Qed.

Lemma io_bind_Ok {A B} (m : io A) (f : A -> io B) (log : list diag) (b : B) :
  m ≫= f = (log, Ok b) ->
  exists l1 a l2, m = (l1, Ok a) /\ f a = (l2, Ok b) /\ log = (l1 ++ l2)%list.
Proof.
  destruct m as [l1 [a|e]]; unfold mbind, io_bind; simpl.
  - destruct (f a) as [l2 r] eqn:Hf. intros [= <- ->]. eauto 6.
  - intros [= _ ?]. 
Qed.

Lemma lift_Ok {A} (r : result A) (log : list diag) (a : A) :
  lift r = (log, Ok a) -> r = Ok a /\ log = [].
Proof. unfold lift. intros [= <- ->]. auto. Qed.

Lemma py_get_dict (v : value) (k : string) (d r : value) :
  py_get v k d = Ok r -> exists m, v = VDict m /\ r = default d (m !! k).
Proof. destruct v; simpl; intros [= <-]; eauto. Qed.

Lemma py_get_Some (m : dict) (k : string) (d x : value) :
  m !! k = Some x -> py_get (VDict m) k d = Ok x.
Proof. intros H. simpl. rewrite H. reflexivity. Qed.

Lemma py_get_None (m : dict) (k : string) (d : value) :
  m !! k = None -> py_get (VDict m) k d = Ok d.
Proof. intros H. simpl. rewrite H. reflexivity. Qed.

(** ** Strings *)


Lemma split_first_none (c : ascii) (s : string) :
  contains_char c s = false <-> split_first c s = None.
Proof.
  induction s as [|a s IH]; simpl; [tauto|].
  destruct (Ascii.eqb a c); simpl.
  - split; discriminate.
  - rewrite IH. destruct (split_first c s) as [[??]|]; split; congruence.
Qed.


Lemma split_char_single (c : ascii) (a : string) :
  contains_char c a = false -> split_char c a = [a].
Proof.
  induction a as [|x a IH]; simpl; [reflexivity|].
  intros H. apply orb_false_iff in H as [Hx Ha].
  rewrite Hx, (IH Ha). reflexivity.
Qed.




(** ** Dataset settings *)

(** C7. Given a null loader, [extract_dataset_settings] returns exactly the
    record with prompt_tokens 400, output_tokens 200, both standard
    deviations 0 and processor "multiturn", whatever the runtime. *)
Theorem extract_dataset_settings_null (rt : runtime) :
  extract_dataset_settings rt VNone
  = Ok (list_to_map
          [("prompt_tokens", VInt 400); ("prompt_tokens_stdev", VInt 0);
           ("output_tokens", VInt 200); ("output_tokens_stdev", VInt 0);
           ("processor", VStr "multiturn")]).
Proof. unfold extract_dataset_settings. simpl. reflexivity. Qed.


Lemma parse_items_skip (rt : runtime) (item : string) (rest : list string)
    (settings : dict) :
  contains_char "=" item = false ->
  parse_items rt (item :: rest) settings = parse_items rt rest settings.
Proof.
  intros Hk. simpl. apply split_first_none in Hk. rewrite Hk. reflexivity.
Qed.



(** The JSON branch when the text decodes to an object: the record of its
    four numbers, 0 for an absent one, and the loader's processor. *)
Lemma extract_dataset_settings_json_object (rt : runtime) (loader : dict)
    (s : string) (d : dict) :
  loader !! "data" = Some (VStr s) -> s <> "" ->
  is_stringified_list (VStr s) = false ->
  json_loads rt s = Ok (VDict d) ->
  extract_dataset_settings rt (VDict loader)
  = Ok (list_to_map
          [("prompt_tokens", default (VInt 0) (d !! "prompt_tokens"));
           ("prompt_tokens_stdev", default (VInt 0) (d !! "prompt_tokens_stdev"));
           ("output_tokens", default (VInt 0) (d !! "output_tokens"));
           ("output_tokens_stdev", default (VInt 0) (d !! "output_tokens_stdev"));
           ("processor", default (VStr "") (loader !! "processor"))]).
Proof.
  intros Hdata Hne Hshape Hjson.
  unfold extract_dataset_settings. cbn [is_none].
  rewrite (py_get_Some _ _ _ _ Hdata). cbn [mbind result_bind truthy].
  destruct (String.eqb_spec s "") as [->|_]; [congruence|]. cbn [negb].
  rewrite Hshape. cbn [mbind result_bind].
  unfold json_settings. rewrite Hjson. reflexivity.
Qed.

(** The JSON branch when the text does not decode: the empty mapping. *)
Lemma extract_dataset_settings_json_malformed (rt : runtime) (loader : dict)
    (s : string) :
  loader !! "data" = Some (VStr s) -> s <> "" ->
  is_stringified_list (VStr s) = false ->
  json_loads rt s = Raise JSONDecodeError ->
  extract_dataset_settings rt (VDict loader) = Ok ∅.
Proof.
  intros Hdata Hne Hshape Hjson.
  unfold extract_dataset_settings. cbn [is_none].
  rewrite (py_get_Some _ _ _ _ Hdata). cbn [mbind result_bind truthy].
  destruct (String.eqb_spec s "") as [->|_]; [congruence|]. cbn [negb].
  rewrite Hshape. cbn [mbind result_bind].
  unfold json_settings. rewrite Hjson. reflexivity.
Qed.

(** C2, where the code departs from it.  When [data] is a non-empty string
    outside the stringified-list shape whose text decodes to a JSON value
    that is no object (a number, a list, a string, a bool, null), the
    [.get] on the decoded value raises [AttributeError], which the
    [except (json.JSONDecodeError, TypeError)] clause does not catch: the
    function raises instead of returning the empty mapping. *)
Theorem extract_dataset_settings_json_non_object (rt : runtime) (loader : dict)
    (s : string) (v : value) :
  loader !! "data" = Some (VStr s) -> s <> "" ->
  is_stringified_list (VStr s) = false ->
  json_loads rt s = Ok v -> (forall d, v <> VDict d) ->
  extract_dataset_settings rt (VDict loader) = Raise AttributeError.
Proof.
  intros Hdata Hne Hshape Hjson Hv.
  unfold extract_dataset_settings. cbn [is_none].
  rewrite (py_get_Some _ _ _ _ Hdata). cbn [mbind result_bind truthy].
  destruct (String.eqb_spec s "") as [->|_]; [congruence|]. cbn [negb].
  rewrite Hshape. cbn [mbind result_bind].
  unfold json_settings. rewrite Hjson. cbn [mbind result_bind].
  destruct v; try reflexivity. exfalso. eapply Hv. reflexivity.
Qed.

Lemma extract_dataset_settings_json_non_object_witness :
  extract_dataset_settings Sample.python (obj [("data", VStr "5")])
  = Raise AttributeError.
Proof.
  apply (extract_dataset_settings_json_non_object Sample.python
           (list_to_map [("data", VStr "5")]) "5" (VInt 5)).
  - reflexivity.
  - discriminate.
  - reflexivity.
  - vm_compute. reflexivity.
  - discriminate.
Defined.

(** ** Rows *)

Lemma merge_metadata_free (extra_metadata : option dict) (row : dict) (k : string) :
  metadata_free extra_metadata k ->
  merge_metadata extra_metadata row !! k = row !! k.
Proof.
  unfold metadata_free, merge_metadata.
  destruct extra_metadata as [extra|]; simpl; [|reflexivity].
  intros Hk. destruct (negb _); [|reflexivity].
  rewrite lookup_union_r by exact Hk. reflexivity.
Qed.

(** Peel every bind off a hypothesis [m ≫= f = Ok b]. *)
Ltac bind_inv H :=
  repeat match type of H with
  | mbind _ _ = Ok _ =>
      let x := fresh "x" in
      let Hx := fresh "H" x in
      apply bind_Ok in H as (x & Hx & H)
  end.

(** What a summary row holds under the keys the claims speak of, before the
    caller's metadata is laid over it. *)
Lemma summary_row_fields (rt : runtime) (filename filepath : string)
    (extra_metadata : option dict) (config benchmark concurrency rps : value)
    (row : dict) :
  summary_row rt filename filepath extra_metadata config benchmark concurrency rps
    = Ok row ->
  exists (settings : dict) (metrics output_tps total_tps : value) (row0 : dict),
    benchmark_dataset_settings rt config benchmark = Ok settings
    /\ py_get benchmark "metrics" (VDict ∅) = Ok metrics
    /\ mean_throughput metrics "output_tokens_per_second" = Ok output_tps
    /\ mean_throughput metrics "tokens_per_second" = Ok total_tps
    /\ row = merge_metadata extra_metadata row0
    /\ row0 !! "concurrency" = Some concurrency
    /\ row0 !! "rps" = Some rps
    /\ row0 !! "prompt_tokens" = Some (dget settings "prompt_tokens" (VInt 0))
    /\ row0 !! "prompt_tokens_stdev" = Some (dget settings "prompt_tokens_stdev" (VInt 0))
    /\ row0 !! "output_tokens" = Some (dget settings "output_tokens" (VInt 0))
    /\ row0 !! "output_tokens_stdev" = Some (dget settings "output_tokens_stdev" (VInt 0))
    /\ row0 !! "processor" = Some (dget settings "processor" (VStr ""))
    /\ row0 !! "mean_output_tokens_per_second" = Some output_tps
    /\ row0 !! "mean_total_tokens_per_second" = Some total_tps.
Proof.
  intros H. unfold summary_row in H.
  apply bind_Ok in H as (settings & Hsettings & H).
  apply bind_Ok in H as (metrics & Hmetrics & H).
  apply bind_Ok in H as (output_tps & Hout & H).
  apply bind_Ok in H as (total_tps & Htot & H).
  bind_inv H. apply Ok_inj in H. subst row.
  eexists settings, metrics, output_tps, total_tps, _.
  do 4 (split; [eassumption|]).
  split; [reflexivity|].
  repeat apply conj; vm_compute; reflexivity.
Qed.

Lemma relative_time_spec (absolute test_start_time v : value) :
  relative_time absolute test_start_time = Ok v ->
  exists positive : bool,
    py_gt_zero absolute = Ok positive
    /\ (if positive then py_sub absolute test_start_time = Ok v else v = VInt 0).
Proof.
  unfold relative_time. intros H.
  apply bind_Ok in H as (positive & Hpos & H).
  exists positive. split; [exact Hpos|].
  destruct positive; [exact H | apply Ok_inj in H; congruence].
Qed.

(** What a per-request row holds under the keys the claims speak of, before
    the caller's metadata is laid over it. *)
Lemma request_row_fields (filename filepath : string)
    (extra_metadata : option dict) (concurrency rps : value)
    (settings : dict) (test_start_time request : value) (row : dict) :
  request_row filename filepath extra_metadata concurrency rps settings
    test_start_time request = Ok row ->
  exists (r row0 : dict) (first_rel start_rel end_rel : value),
    request = VDict r
    /\ row = merge_metadata extra_metadata row0
    /\ row0 !! "concurrency" = Some concurrency
    /\ row0 !! "rps" = Some rps
    /\ row0 !! "dataset_prompt_tokens" = Some (dget settings "prompt_tokens" (VInt 0))
    /\ row0 !! "dataset_output_tokens" = Some (dget settings "output_tokens" (VInt 0))
    /\ row0 !! "start_time" = Some (request_time r "request_start_time" "start_time")
    /\ row0 !! "end_time" = Some (request_time r "request_end_time" "end_time")
    /\ row0 !! "first_token_time_relative" = Some first_rel
    /\ row0 !! "start_time_relative" = Some start_rel
    /\ row0 !! "end_time_relative" = Some end_rel
    /\ relative_spec test_start_time (default (VInt 0) (r !! "first_token_time")) first_rel
    /\ relative_spec test_start_time (request_time r "request_start_time" "start_time") start_rel
    /\ relative_spec test_start_time (request_time r "request_end_time" "end_time") end_rel.
Proof.
  intros H. unfold request_row in H.
  destruct request as [| | | | | | |r]; try discriminate H.
  cbn [py_get mbind result_bind] in H.
  apply bind_Ok in H as ([[first_rel start_rel] end_rel] & Hrel & H).
  apply Ok_inj in H. subst row.
  eexists r, _, first_rel, start_rel, end_rel.
  split; [reflexivity|]. split; [reflexivity|].
  assert (relative_spec test_start_time (default (VInt 0) (r !! "first_token_time")) first_rel
    /\ relative_spec test_start_time (request_time r "request_start_time" "start_time") start_rel
    /\ relative_spec test_start_time (request_time r "request_end_time" "end_time") end_rel)
    as Hspec.
  { unfold relative_spec. destruct (is_none test_start_time).
    - cbn [negb] in Hrel. apply Ok_inj in Hrel.
      injection Hrel as -> -> ->. auto.
    - cbn [negb mbind result_bind] in Hrel.
      apply bind_Ok in Hrel as (a & Ha & Hrel).
      apply bind_Ok in Hrel as (b & Hb & Hrel).
      apply bind_Ok in Hrel as (c & Hc & Hrel).
      apply Ok_inj in Hrel. injection Hrel as -> -> ->.
      auto using relative_time_spec. }
  clear Hrel.
  repeat (apply conj; [vm_compute; reflexivity|]).
  exact Hspec.
Qed.

(** ** Turns of the two loops *)

Lemma print_Ok (d : diag) (log : list diag) (u : unit) :
  print d = (log, Ok u) -> log = [d].
Proof. unfold print. intros [= <- _]. reflexivity. Qed.

Lemma mret_Ok {A} (a b : A) (log : list diag) :
  (mret a : io A) = (log, Ok b) -> a = b /\ log = [].
Proof. unfold mret, io_ret. intros [= <- <-]. auto. Qed.

(** Peel one [lift]ed step off an [io] computation. *)
Ltac io_step H x Hx :=
  let l1 := fresh "l" in
  let l2 := fresh "l" in
  apply io_bind_Ok in H as (l1 & x & l2 & Hx & H & ->);
  apply lift_Ok in Hx as [Hx ->].

(** A turn of the summary loop that keeps a row: the axis pair it resolved
    is not all null, and the row is the summary row for it. *)
Lemma summary_entry_row (rt : runtime) (filename filepath : string)
    (extra_metadata : option dict) (benchmark : value) (log : list diag)
    (row : dict) :
  summary_entry rt filename filepath extra_metadata benchmark = (log, Ok (Some row)) ->
  exists config strategy profile concurrency rps : value,
    resolve_strategy benchmark = Ok (config, strategy, profile)
    /\ resolve_axis rt strategy profile = Ok (concurrency, rps)
    /\ is_none concurrency && is_none rps = false
    /\ summary_row rt filename filepath extra_metadata config benchmark
         concurrency rps = Ok row.
Proof.
  unfold summary_entry. intros H.
  io_step H x Hx. destruct x as [[config strategy] profile].
  io_step H y Hy. destruct y as [concurrency rps].
  exists config, strategy, profile, concurrency, rps.
  destruct (is_none concurrency && is_none rps) eqn:Hnone.
  - apply io_bind_Ok in H as (? & ? & ? & _ & H & _).
    apply mret_Ok in H as [H _]. discriminate H.
  - io_step H z Hz. apply mret_Ok in H as [[= ->] _]. auto.
Qed.

(** A turn of the summary loop on an entry without an axis value: the
    entry is passed over, with the warning. *)
Lemma summary_entry_skip (rt : runtime) (filename filepath : string)
    (extra_metadata : option dict) (benchmark config strategy profile : value) :
  resolve_strategy benchmark = Ok (config, strategy, profile) ->
  resolve_axis rt strategy profile = Ok (VNone, VNone) ->
  summary_entry rt filename filepath extra_metadata benchmark
  = ([NoAxisFound filepath], Ok None).
Proof.
  intros Hs Ha. unfold summary_entry. rewrite Hs. cbn. rewrite Ha. reflexivity.
Qed.

Lemma summary_loop_rows (rt : runtime) (filename filepath : string)
    (extra_metadata : option dict) (P : dict -> Prop) :
  (forall benchmark log row,
      summary_entry rt filename filepath extra_metadata benchmark
        = (log, Ok (Some row)) -> P row) ->
  forall benchmarks log rows,
    summary_loop rt filename filepath extra_metadata benchmarks = (log, Ok rows) ->
    Forall P rows.
Proof.
  intros HP. induction benchmarks as [|b bs IH]; intros log rows H.
  - apply mret_Ok in H as [<- _]. constructor.
  - cbn [summary_loop] in H.
    apply io_bind_Ok in H as (l1 & row & l2 & Hrow & H & ->).
    apply io_bind_Ok in H as (l3 & rest & l4 & Hrest & H & ->).
    apply mret_Ok in H as [<- _].
    specialize (IH _ _ Hrest).
    destruct row as [row|]; [|exact IH].
    constructor; [eapply HP; exact Hrow | exact IH].
Qed.

Lemma request_loop_rows (filename filepath : string)
    (extra_metadata : option dict) (concurrency rps : value) (settings : dict)
    (test_start_time : value) (requests : list value) (rows : list dict) :
  request_loop filename filepath extra_metadata concurrency rps settings
    test_start_time requests = Ok rows ->
  Forall2 (fun request row =>
             request_row filename filepath extra_metadata concurrency rps
               settings test_start_time request = Ok row) requests rows.
Proof.
  revert rows. induction requests as [|q qs IH]; intros rows H.
  - apply Ok_inj in H. subst rows. constructor.
  - cbn [request_loop] in H.
    apply bind_Ok in H as (row & Hrow & H).
    apply bind_Ok in H as (rest & Hrest & H).
    apply Ok_inj in H. subst rows. constructor; auto.
Qed.

(** A turn of the per-request loop: no rows, or the rows of the successful
    requests, built for one axis pair that is not all null, one dataset
    record and the start time of the run. *)
Lemma requests_entry_rows (rt : runtime) (filename filepath : string)
    (extra_metadata : option dict) (benchmark : value) (log : list diag)
    (rows : list dict) :
  requests_entry rt filename filepath extra_metadata benchmark = (log, Ok rows) ->
  rows = []
  \/ exists (config strategy profile concurrency rps test_start_time : value)
            (settings : dict) (requests : list value),
      run_start_time benchmark = Ok test_start_time
      /\ resolve_strategy benchmark = Ok (config, strategy, profile)
      /\ resolve_axis rt strategy profile = Ok (concurrency, rps)
      /\ is_none concurrency && is_none rps = false
      /\ benchmark_dataset_settings rt config benchmark = Ok settings
      /\ Forall2 (fun request row =>
                    request_row filename filepath extra_metadata concurrency rps
                      settings test_start_time request = Ok row) requests rows.
Proof.
  unfold requests_entry. intros H.
  io_step H tst Htst.
  io_step H x Hx. destruct x as [[config strategy] profile].
  io_step H y Hy. destruct y as [concurrency rps].
  destruct (is_none concurrency && is_none rps) eqn:Hnone.
  { apply io_bind_Ok in H as (? & ? & ? & _ & H & _).
    apply mret_Ok in H as [<- _]. auto. }
  io_step H settings Hsettings.
  io_step H requests Hrequests.
  io_step H successful Hsuccessful.
  destruct (negb (truthy successful)).
  { apply io_bind_Ok in H as (? & ? & ? & _ & H & _).
    apply mret_Ok in H as [<- _]. auto. }
  io_step H label Hlabel.
  io_step H n Hn.
  apply io_bind_Ok in H as (? & ? & ? & _ & H & _).
  io_step H items Hitems.
  apply lift_Ok in H as [H _].
  right. exists config, strategy, profile, concurrency, rps, tst, settings, items.
  repeat (split; [assumption|]). apply request_loop_rows, H.
Qed.

Lemma requests_outer_loop_rows (rt : runtime) (filename filepath : string)
    (extra_metadata : option dict) (P : dict -> Prop) :
  (forall benchmark log rows,
      requests_entry rt filename filepath extra_metadata benchmark
        = (log, Ok rows) -> Forall P rows) ->
  forall benchmarks log rows,
    requests_outer_loop rt filename filepath extra_metadata benchmarks
      = (log, Ok rows) ->
    Forall P rows.
Proof.
  intros HP. induction benchmarks as [|b bs IH]; intros log rows H.
  - apply mret_Ok in H as [<- _]. constructor.
  - cbn [requests_outer_loop] in H.
    apply io_bind_Ok in H as (l1 & here & l2 & Hhere & H & ->).
    apply io_bind_Ok in H as (l3 & rest & l4 & Hrest & H & ->).
    apply mret_Ok in H as [<- _].
    apply Forall_app. split; [eapply HP; exact Hhere | eapply IH; exact Hrest].
Qed.

(** The rows of a whole file satisfy what the rows of each entry satisfy. *)
Lemma parse_benchmark_metrics_rows (rt : runtime) (file : option value)
    (filepath : string) (extra_metadata : option dict) (P : dict -> Prop) :
  (forall benchmark log row,
      summary_entry rt (basename filepath) filepath extra_metadata benchmark
        = (log, Ok (Some row)) -> P row) ->
  forall log rows,
    parse_benchmark_metrics rt file filepath extra_metadata = (log, Ok rows) ->
    Forall P rows.
Proof.
  intros HP log rows H. unfold parse_benchmark_metrics in H.
  destruct file as [data|].
  - io_step H benchmarks Hb.
    destruct (negb (truthy benchmarks)).
    + apply io_bind_Ok in H as (? & ? & ? & _ & H & _).
      apply mret_Ok in H as [<- _]. constructor.
    + io_step H items Hitems.
      eapply summary_loop_rows; eauto.
  - apply io_bind_Ok in H as (? & ? & ? & _ & H & _).
    apply mret_Ok in H as [<- _]. constructor.
Qed.

Lemma parse_individual_requests_rows (rt : runtime) (file : option value)
    (filepath : string) (extra_metadata : option dict) (P : dict -> Prop) :
  (forall benchmark log rows,
      requests_entry rt (basename filepath) filepath extra_metadata benchmark
        = (log, Ok rows) -> Forall P rows) ->
  forall log rows,
    parse_individual_requests rt file filepath extra_metadata = (log, Ok rows) ->
    Forall P rows.
Proof.
  intros HP log rows H. unfold parse_individual_requests in H.
  destruct file as [data|].
  - io_step H benchmarks Hb.
    destruct (negb (truthy benchmarks)).
    + apply io_bind_Ok in H as (? & ? & ? & _ & H & _).
      apply mret_Ok in H as [<- _]. constructor.
    + io_step H items Hitems.
      eapply requests_outer_loop_rows; eauto.
  - apply io_bind_Ok in H as (? & ? & ? & _ & H & _).
    apply mret_Ok in H as [<- _]. constructor.
Qed.

(** ** The axis pair *)

(** Close an equation between closed terms by evaluation. *)
Ltac by_vm :=
  lazymatch goal with |- _ = ?r => vm_cast_no_check (@eq_refl _ r) end.

Lemma requests_entry_skip (rt : runtime) (filename filepath : string)
    (extra_metadata : option dict)
    (benchmark config strategy profile test_start_time : value) :
  run_start_time benchmark = Ok test_start_time ->
  resolve_strategy benchmark = Ok (config, strategy, profile) ->
  resolve_axis rt strategy profile = Ok (VNone, VNone) ->
  requests_entry rt filename filepath extra_metadata benchmark
  = ([NoAxisFound filepath], Ok []).
Proof.
  intros Ht Hs Ha. unfold requests_entry. rewrite Ht. cbn. rewrite Hs. cbn.
  rewrite Ha. reflexivity.
Qed.

Lemma not_both_none (c r : value) :
  is_none c && is_none r = false -> c <> VNone \/ r <> VNone.
Proof.
  destruct c; cbn; try (intros _; left; discriminate).
  destruct r; cbn; try (intros _; right; discriminate). discriminate.
Qed.

Lemma summary_entry_axis (rt : runtime) (filename filepath : string)
    (extra_metadata : option dict) (benchmark : value) (log : list diag)
    (row : dict) :
  metadata_free extra_metadata "concurrency" ->
  metadata_free extra_metadata "rps" ->
  summary_entry rt filename filepath extra_metadata benchmark = (log, Ok (Some row)) ->
  axis_present row.
Proof.
  intros Fc Fr H.
  apply summary_entry_row in H as (config & strategy & profile & c & r & _ & _ & Hnone & H).
  apply summary_row_fields in H
    as (settings & metrics & o & t & row0 & _ & _ & _ & _ & -> & Hc & Hr & _).
  exists c, r. rewrite !merge_metadata_free by assumption.
  auto using not_both_none.
Qed.

Lemma requests_entry_axis (rt : runtime) (filename filepath : string)
    (extra_metadata : option dict) (benchmark : value) (log : list diag)
    (rows : list dict) :
  metadata_free extra_metadata "concurrency" ->
  metadata_free extra_metadata "rps" ->
  requests_entry rt filename filepath extra_metadata benchmark = (log, Ok rows) ->
  Forall axis_present rows.
Proof.
  intros Fc Fr H.
  apply requests_entry_rows in H as [->|H]; [constructor|].
  destruct H as (config & strategy & profile & c & r & tst & settings & items
                 & _ & _ & _ & Hnone & _ & Hrows).
  induction Hrows as [|q row qs rows Hrow _ IH]; constructor; [|exact IH].
  apply request_row_fields in Hrow
    as (rq & row0 & ? & ? & ? & _ & -> & Hc & Hr & _).
  exists c, r. rewrite !merge_metadata_free by assumption.
  auto using not_both_none.
Qed.

Lemma is_none_true (v : value) : is_none v = true -> v = VNone.
Proof. destruct v; cbn; congruence. Qed.

Lemma is_none_false (v : value) : is_none v = false -> v <> VNone.
Proof. destruct v; cbn; congruence. Qed.

(** The axis pair in terms of the entry's strategy and profile. *)
Lemma resolve_axis_configured (rt : runtime) (strategy profile c r : value) :
  resolve_axis rt strategy profile = Ok (c, r) ->
  exists s p : dict,
    strategy = VDict s /\ profile = VDict p
    /\ c = configured_concurrency s
    /\ (r <> VNone <-> constant_rate s p = true /\ configured_rate s p <> VNone)
    /\ (r <> VNone ->
        exists f, py_float rt (configured_rate s p) = Ok f /\ r = VFloat f).
Proof.
  unfold resolve_axis. intros H.
  apply bind_Ok in H as (m & Hm & H).
  apply py_get_dict in Hm as (s & -> & ->).
  apply bind_Ok in H as (c' & Hc & H).
  apply bind_Ok in H as (pt & Hpt & H).
  apply py_get_dict in Hpt as (p & -> & ->).
  apply bind_Ok in H as (st & Hst & H).
  apply py_get_dict in Hst as (s' & [= <-] & ->).
  apply bind_Ok in H as (r' & Hr & H).
  apply Ok_inj in H. injection H as -> ->.
  exists s, p. split; [reflexivity|]. split; [reflexivity|].
  assert (c = configured_concurrency s) as Hcc.
  { unfold configured_concurrency, dget.
    destruct (is_none (default VNone (s !! "max_concurrency"))).
    - apply py_get_dict in Hc as (s' & [= <-] & ->). reflexivity.
    - apply Ok_inj in Hc. congruence. }
  split; [exact Hcc|]. clear Hc Hcc.
  unfold constant_rate, dget.
  destruct (py_eq_str _ "constant").
  - cbn [py_get mbind result_bind] in Hr.
    assert ((if is_none (default VNone (s !! "rate")) then
               match (if truthy (default VNone (p !! "rate"))
                      then default VNone (p !! "rate") else VList []) with
               | VList (first :: _) => Ok first
               | _ => Ok (default VNone (s !! "rate"))
               end
             else Ok (default VNone (s !! "rate")))
            = Ok (configured_rate s p)) as Hrate.
    { unfold configured_rate, dget.
      destruct (is_none (default VNone (s !! "rate"))) eqn:Hn; [|reflexivity].
      apply is_none_true in Hn. rewrite Hn.
      destruct (if truthy _ then _ else _) as [| | | | |[|first rest]| |];
        reflexivity. }
    rewrite Hrate in Hr. cbn [mbind result_bind] in Hr.
    destruct (is_none (configured_rate s p)) eqn:Hn.
    + apply Ok_inj in Hr. subst r. apply is_none_true in Hn.
      split; [split; [congruence | intros [_ Hx]; congruence] | congruence].
    + apply is_none_false in Hn.
      apply bind_Ok in Hr as (f & Hf & Hr). apply Ok_inj in Hr. subst r.
      split; [split; [auto | discriminate] | eauto].
  - apply Ok_inj in Hr. subst r.
    split; [split; [congruence | intros [Hx _]; discriminate Hx] | congruence].
Qed.

Lemma summary_entry_axis_values (rt : runtime) (filename filepath : string)
    (extra_metadata : option dict) (benchmark : value) (log : list diag)
    (row : dict) :
  metadata_free extra_metadata "concurrency" ->
  metadata_free extra_metadata "rps" ->
  summary_entry rt filename filepath extra_metadata benchmark = (log, Ok (Some row)) ->
  axis_of_entry rt benchmark row.
Proof.
  intros Fc Fr H.
  apply summary_entry_row in H
    as (config & strategy & profile & c & r & Hs & Ha & _ & H).
  apply resolve_axis_configured in Ha as (s & p & -> & -> & -> & Hiff & Hf).
  apply summary_row_fields in H
    as (settings & metrics & o & t & row0 & _ & _ & _ & _ & -> & Hc & Hr & _).
  exists config, s, p, r. rewrite !merge_metadata_free by assumption. auto.
Qed.

Lemma requests_entry_axis_values (rt : runtime) (filename filepath : string)
    (extra_metadata : option dict) (benchmark : value) (log : list diag)
    (rows : list dict) :
  metadata_free extra_metadata "concurrency" ->
  metadata_free extra_metadata "rps" ->
  requests_entry rt filename filepath extra_metadata benchmark = (log, Ok rows) ->
  Forall (axis_of_entry rt benchmark) rows.
Proof.
  intros Fc Fr H.
  apply requests_entry_rows in H as [->|H]; [constructor|].
  destruct H as (config & strategy & profile & c & r & tst & settings & items
                 & _ & Hs & Ha & _ & _ & Hrows).
  apply resolve_axis_configured in Ha as (s & p & -> & -> & -> & Hiff & Hf).
  induction Hrows as [|q row qs rows Hrow _ IH]; constructor; [|exact IH].
  apply request_row_fields in Hrow
    as (rq & row0 & ? & ? & ? & _ & -> & Hc & Hr & _).
  exists config, s, p, r. rewrite !merge_metadata_free by assumption. auto.
Qed.

(** C1, as the code has it.  Whatever the file holds, every row that summary
    extraction or per-request extraction emits carries [concurrency] and
    [rps] with at least one of them non-null, as long as the caller's
    metadata binds neither key; an entry whose two values are both null is
    passed over with a warning.  The two fields do not exclude each other:
    in every row of an entry, [concurrency] is the strategy's
    [max_concurrency] (its [streams] when that one is null or absent), and
    [rps] is non-null exactly when the strategy type reads [constant] and
    the configured rate is non-null, and then it is [float] of that rate.
    So both are non-null exactly for a constant-rate strategy with a rate
    that also bounds its concurrency. *)
Theorem emitted_rows_carry_an_axis (rt : runtime) (file : option value)
    (filepath : string) (extra_metadata : option dict) :
  metadata_free extra_metadata "concurrency" ->
  metadata_free extra_metadata "rps" ->
  (forall log rows,
      parse_benchmark_metrics rt file filepath extra_metadata = (log, Ok rows) ->
      Forall axis_present rows)
  /\ (forall log rows,
      parse_individual_requests rt file filepath extra_metadata = (log, Ok rows) ->
      Forall axis_present rows)
  /\ (forall filename benchmark config strategy profile,
      resolve_strategy benchmark = Ok (config, strategy, profile) ->
      resolve_axis rt strategy profile = Ok (VNone, VNone) ->
      summary_entry rt filename filepath extra_metadata benchmark
        = ([NoAxisFound filepath], Ok None)
      /\ (forall test_start_time,
            run_start_time benchmark = Ok test_start_time ->
            requests_entry rt filename filepath extra_metadata benchmark
              = ([NoAxisFound filepath], Ok [])))
  /\ (forall filename benchmark log row,
      summary_entry rt filename filepath extra_metadata benchmark
        = (log, Ok (Some row)) ->
      axis_of_entry rt benchmark row)
  /\ (forall filename benchmark log rows,
      requests_entry rt filename filepath extra_metadata benchmark
        = (log, Ok rows) ->
      Forall (axis_of_entry rt benchmark) rows).
Proof.
  intros Fc Fr. split; [|split; [|split; [|split]]].
  - apply parse_benchmark_metrics_rows. intros benchmark log row.
    apply summary_entry_axis; assumption.
  - apply parse_individual_requests_rows. intros benchmark log rows.
    apply requests_entry_axis; assumption.
  - intros filename benchmark config strategy profile Hs Ha. split.
    + eapply summary_entry_skip; eassumption.
    + intros tst Ht. eapply requests_entry_skip; eassumption.
  - intros filename benchmark log row.
    apply summary_entry_axis_values; assumption.
  - intros filename benchmark log rows.
    apply requests_entry_axis_values; assumption.
Qed.

Lemma emitted_rows_carry_an_axis_witness :
  Forall axis_present
    (rows_of (parse_benchmark_metrics Sample.python
                (results_file [axisless_entry; constant_rate_entry; rateless_entry])
                "run.json" None))
  /\ field_values "rps"
       (parse_benchmark_metrics Sample.python
          (results_file [axisless_entry; constant_rate_entry; rateless_entry])
          "run.json" None)
     = Ok [Some (VFloat 2); Some VNone]
  /\ field_values "concurrency"
       (parse_benchmark_metrics Sample.python
          (results_file [axisless_entry; constant_rate_entry; rateless_entry])
          "run.json" None)
     = Ok [Some (VInt 4); Some (VInt 4)].
Proof.
  split; [|split; by_vm].
  refine (proj1 (emitted_rows_carry_an_axis Sample.python
           (results_file [axisless_entry; constant_rate_entry; rateless_entry])
           "run.json" None _ _) [NoAxisFound "run.json"] _ _).
  - reflexivity.
  - reflexivity.
  - by_vm.
Defined.

Lemma axis_exclusive_counterexample :
  field_values "concurrency"
    (parse_benchmark_metrics Sample.python
       (results_file [constant_rate_entry]) "run.json" None)
    = Ok [Some (VInt 4)]
  /\ field_values "rps"
       (parse_benchmark_metrics Sample.python
          (results_file [constant_rate_entry]) "run.json" None)
     = Ok [Some (VFloat 2)]
  /\ field_values "rps"
       (parse_individual_requests Sample.python
          (results_file [constant_rate_entry]) "run.json" None)
     = Ok [Some (VFloat 2)]
  /\ field_values "concurrency"
       (parse_individual_requests Sample.python
          (results_file [constant_rate_entry]) "run.json" None)
     = Ok [Some (VInt 4)].
Proof. repeat split; by_vm. Qed.

(** ** Throughput *)

(** A bucket that is not in the metrics reads as the mean 0. *)
Lemma get3_absent (metrics : dict) (name bucket : string) :
  metrics !! name = None ->
  get3 (VDict metrics) name bucket "mean" = Ok (VInt 0).
Proof. intros H. unfold get3, get2. cbn. rewrite H. reflexivity. Qed.

Lemma get3_present (metrics series stats : dict) (name bucket : string) :
  metrics !! name = Some (VDict series) ->
  series !! bucket = Some (VDict stats) ->
  get3 (VDict metrics) name bucket "mean" = Ok (default (VInt 0) (stats !! "mean")).
Proof. intros H1 H2. unfold get3, get2. cbn. rewrite H1. cbn. rewrite H2. reflexivity. Qed.




(** ** Relative time stamps *)











(** ** Dataset settings of an entry without loader information *)

Lemma resolve_strategy_config (benchmark : dict) (config strategy profile : value) :
  resolve_strategy (VDict benchmark) = Ok (config, strategy, profile) ->
  config = default (VDict ∅) (benchmark !! "config").
Proof.
  unfold resolve_strategy. cbn [py_get mbind result_bind]. intros H.
  bind_inv H. apply Ok_inj in H. congruence.
Qed.

Lemma resolve_strategy_dict (benchmark config strategy profile : value) :
  resolve_strategy benchmark = Ok (config, strategy, profile) ->
  exists b, benchmark = VDict b.
Proof.
  unfold resolve_strategy. intros H. apply bind_Ok in H as (c & Hc & _).
  apply py_get_dict in Hc as (b & -> & _). eauto.
Qed.

Lemma extract_dataset_settings_empty (rt : runtime) :
  extract_dataset_settings rt (VDict ∅) = Ok ∅.
Proof. reflexivity. Qed.

(** The argument handed to [extract_dataset_settings] by an entry without
    loader information is whatever the entry holds under [request_loader],
    the empty mapping when the key is absent. *)
Lemma loader_argument_fallback (benchmark config : dict) :
  truthy (default (VDict ∅) (config !! "requests")) = false ->
  loader_argument (VDict config) (VDict benchmark)
  = Ok (default (VDict ∅) (benchmark !! "request_loader")).
Proof.
  intros H. unfold loader_argument. cbn [py_get mbind result_bind].
  rewrite H. reflexivity.
Qed.

Lemma dataset_settings_no_loader (rt : runtime) (benchmark : dict) (config : value)
    (settings : dict) :
  no_request_config benchmark ->
  config = default (VDict ∅) (benchmark !! "config") ->
  benchmark_dataset_settings rt config (VDict benchmark) = Ok settings ->
  (benchmark !! "request_loader" = None
   \/ benchmark !! "request_loader" = Some (VDict ∅) -> settings = ∅)
  /\ (benchmark !! "request_loader" = Some VNone -> settings = default_settings).
Proof.
  intros (cfg & Hcfg & Hreq) -> H. rewrite Hcfg in H.
  unfold benchmark_dataset_settings in H.
  rewrite (loader_argument_fallback _ _ Hreq) in H.
  cbn [mbind result_bind] in H. split.
  - intros [Hl|Hl]; rewrite Hl in H;
      change (extract_dataset_settings rt (VDict ∅) = Ok settings) in H;
      rewrite extract_dataset_settings_empty in H; apply Ok_inj in H;
      subst settings; reflexivity.
  - intros Hl. rewrite Hl in H.
    change (Ok default_settings = Ok settings) in H. apply Ok_inj in H.
    subst settings. reflexivity.
Qed.

Lemma metadata_free_keys (extra_metadata : option dict) (keys : list string)
    (k : string) :
  Forall (metadata_free extra_metadata) keys -> k ∈ keys ->
  metadata_free extra_metadata k.
Proof. intros H Hk. rewrite Forall_forall in H. auto. Qed.

(** The dataset fields of the row a turn of the summary loop keeps are
    read off the record [extract_dataset_settings] returned. *)
Lemma summary_entry_dataset (rt : runtime) (filename filepath : string)
    (extra_metadata : option dict) (benchmark : dict) (log : list diag)
    (row : dict) :
  Forall (metadata_free extra_metadata) dataset_keys ->
  summary_entry rt filename filepath extra_metadata (VDict benchmark)
    = (log, Ok (Some row)) ->
  exists settings : dict,
    benchmark_dataset_settings rt (default (VDict ∅) (benchmark !! "config"))
      (VDict benchmark) = Ok settings
    /\ summary_dataset_fields row
         (dget settings "prompt_tokens" (VInt 0))
         (dget settings "prompt_tokens_stdev" (VInt 0))
         (dget settings "output_tokens" (VInt 0))
         (dget settings "output_tokens_stdev" (VInt 0))
         (dget settings "processor" (VStr "")).
Proof.
  intros F H.
  apply summary_entry_row in H as (config & strategy & profile & c & r & Hs & _ & _ & H).
  apply resolve_strategy_config in Hs. subst config.
  apply summary_row_fields in H
    as (settings & metrics & o & t & row0 & Hset & _ & _ & _ & -> & _ & _
        & H1 & H2 & H3 & H4 & H5 & _).
  exists settings. split; [exact Hset|].
  unfold summary_dataset_fields.
  rewrite !merge_metadata_free
    by (eapply metadata_free_keys; [exact F | unfold dataset_keys; set_solver]).
  auto.
Qed.

Lemma requests_entry_dataset (rt : runtime) (filename filepath : string)
    (extra_metadata : option dict) (benchmark : dict) (log : list diag)
    (rows : list dict) :
  Forall (metadata_free extra_metadata) dataset_keys ->
  requests_entry rt filename filepath extra_metadata (VDict benchmark)
    = (log, Ok rows) ->
  rows = []
  \/ exists settings : dict,
      benchmark_dataset_settings rt (default (VDict ∅) (benchmark !! "config"))
        (VDict benchmark) = Ok settings
      /\ Forall (fun row => request_dataset_fields row
                              (dget settings "prompt_tokens" (VInt 0))
                              (dget settings "output_tokens" (VInt 0))) rows.
Proof.
  intros F H.
  apply requests_entry_rows in H as [->|H]; [auto|]. right.
  destruct H as (config & strategy & profile & c & r & tst & settings & items
                 & _ & Hs & _ & _ & Hset & Hrows).
  apply resolve_strategy_config in Hs. subst config.
  exists settings. split; [exact Hset|].
  induction Hrows as [|q row qs rows Hrow _ IH]; constructor; [|exact IH].
  apply request_row_fields in Hrow
    as (rq & row0 & ? & ? & ? & _ & -> & _ & _ & H1 & H2 & _).
  unfold request_dataset_fields.
  rewrite !merge_metadata_free
    by (eapply metadata_free_keys; [exact F | unfold dataset_keys; set_solver]).
  auto.
Qed.

Lemma dget_empty (k : string) (d : value) : dget ∅ k d = d.
Proof. unfold dget. rewrite lookup_empty. reflexivity. Qed.

Lemma summary_fields_default (row : dict) :
  summary_dataset_fields row
    (dget default_settings "prompt_tokens" (VInt 0))
    (dget default_settings "prompt_tokens_stdev" (VInt 0))
    (dget default_settings "output_tokens" (VInt 0))
    (dget default_settings "output_tokens_stdev" (VInt 0))
    (dget default_settings "processor" (VStr ""))
  = summary_dataset_fields row (VInt 400) (VInt 0) (VInt 200) (VInt 0)
      (VStr "multiturn").
Proof. by_vm. Qed.

Lemma request_fields_default (row : dict) :
  request_dataset_fields row
    (dget default_settings "prompt_tokens" (VInt 0))
    (dget default_settings "output_tokens" (VInt 0))
  = request_dataset_fields row (VInt 400) (VInt 200).
Proof. by_vm. Qed.

(** C10, as the code has it.  Take an entry whose [config.requests] is
    absent or falsy.  When its [request_loader] is absent or the empty
    mapping, both extractors hand the empty mapping to
    [extract_dataset_settings], which returns the empty mapping: a summary
    row has prompt_tokens 0, output_tokens 0, both standard deviations 0 and
    processor "", a per-request row has dataset_prompt_tokens 0 and
    dataset_output_tokens 0.  When its [request_loader] is an explicit null,
    they hand over the null, and the rows carry the 400/200 "multiturn"
    record.  The caller's metadata must not bind the dataset keys. *)
Theorem dataset_settings_without_loader (rt : runtime) (filename filepath : string)
    (extra_metadata : option dict) (benchmark : dict) :
  no_request_config benchmark ->
  Forall (metadata_free extra_metadata) dataset_keys ->
  (benchmark !! "request_loader" = None
   \/ benchmark !! "request_loader" = Some (VDict ∅) ->
   loader_argument (default (VDict ∅) (benchmark !! "config")) (VDict benchmark)
     = Ok (VDict ∅)
   /\ (forall log row,
         summary_entry rt filename filepath extra_metadata (VDict benchmark)
           = (log, Ok (Some row)) ->
         summary_dataset_fields row (VInt 0) (VInt 0) (VInt 0) (VInt 0) (VStr ""))
   /\ (forall log rows,
         requests_entry rt filename filepath extra_metadata (VDict benchmark)
           = (log, Ok rows) ->
         Forall (fun row => request_dataset_fields row (VInt 0) (VInt 0)) rows))
  /\ (benchmark !! "request_loader" = Some VNone ->
      loader_argument (default (VDict ∅) (benchmark !! "config")) (VDict benchmark)
        = Ok VNone
      /\ (forall log row,
            summary_entry rt filename filepath extra_metadata (VDict benchmark)
              = (log, Ok (Some row)) ->
            summary_dataset_fields row (VInt 400) (VInt 0) (VInt 200) (VInt 0)
              (VStr "multiturn"))
      /\ (forall log rows,
            requests_entry rt filename filepath extra_metadata (VDict benchmark)
              = (log, Ok rows) ->
            Forall (fun row => request_dataset_fields row (VInt 400) (VInt 200)) rows)).
Proof.
  intros Hcfg F.
  assert (forall l, benchmark !! "request_loader" = l ->
            loader_argument (default (VDict ∅) (benchmark !! "config"))
              (VDict benchmark) = Ok (default (VDict ∅) l)) as Harg.
  { intros l <-. destruct Hcfg as (cfg & -> & Hreq).
    apply loader_argument_fallback, Hreq. }
  split; intros Hl.
  - split; [destruct Hl as [Hl|Hl]; apply (Harg _ Hl)|]. split.
    + intros log row H.
      apply (summary_entry_dataset _ _ _ _ _ _ _ F) in H as (settings & Hset & H).
      apply (dataset_settings_no_loader rt benchmark _ settings Hcfg eq_refl) in Hset
        as [Hset _].
      rewrite (Hset Hl), !dget_empty in H. exact H.
    + intros log rows H.
      apply (requests_entry_dataset _ _ _ _ _ _ _ F) in H as [->|(settings & Hset & H)];
        [constructor|].
      apply (dataset_settings_no_loader rt benchmark _ settings Hcfg eq_refl) in Hset
        as [Hset _].
      rewrite (Hset Hl), !dget_empty in H. exact H.
  - split; [apply (Harg _ Hl)|]. split.
    + intros log row H.
      apply (summary_entry_dataset _ _ _ _ _ _ _ F) in H as (settings & Hset & H).
      apply (dataset_settings_no_loader rt benchmark _ settings Hcfg eq_refl) in Hset
        as [_ Hset].
      rewrite (Hset Hl), summary_fields_default in H. exact H.
    + intros log rows H.
      apply (requests_entry_dataset _ _ _ _ _ _ _ F) in H as [->|(settings & Hset & H)];
        [constructor|].
      apply (dataset_settings_no_loader rt benchmark _ settings Hcfg eq_refl) in Hset
        as [_ Hset].
      rewrite (Hset Hl) in H. clear -H.
      induction H as [|row rows H _ IH]; constructor; [|exact IH].
      rewrite request_fields_default in H. exact H.
Qed.

Lemma dataset_settings_without_loader_witness :
  field_values "prompt_tokens"
    (parse_benchmark_metrics Sample.python (results_file [VDict bare_entry])
       "run.json" None) = Ok [Some (VInt 0)]
  /\ field_values "dataset_prompt_tokens"
    (parse_individual_requests Sample.python (results_file [VDict bare_entry])
       "run.json" None) = Ok [Some (VInt 0)]
  /\ loader_argument (default (VDict ∅) (bare_entry !! "config")) (VDict bare_entry)
     = Ok (VDict ∅)
  /\ (forall log row,
        summary_entry Sample.python "run.json" "run.json" None (VDict bare_entry)
          = (log, Ok (Some row)) ->
        summary_dataset_fields row (VInt 0) (VInt 0) (VInt 0) (VInt 0) (VStr ""))
  /\ (forall log rows,
        requests_entry Sample.python "run.json" "run.json" None (VDict bare_entry)
          = (log, Ok rows) ->
        Forall (fun row => request_dataset_fields row (VInt 0) (VInt 0)) rows).
Proof.
  split; [by_vm|]. split; [by_vm|].
  apply (proj1 (dataset_settings_without_loader Sample.python "run.json" "run.json"
                  None bare_entry
                  (ex_intro _ (list_to_map
                     [("strategy", obj [("max_concurrency", VInt 4)])])
                     (conj eq_refl eq_refl))
                  ltac:(repeat constructor))).
  left. reflexivity.
Defined.

Lemma default_record_reachable_counterexample :
  field_values "prompt_tokens"
    (parse_benchmark_metrics Sample.python (results_file [null_loader_entry])
       "run.json" None) = Ok [Some (VInt 400)]
  /\ field_values "output_tokens"
    (parse_benchmark_metrics Sample.python (results_file [null_loader_entry])
       "run.json" None) = Ok [Some (VInt 200)]
  /\ field_values "processor"
    (parse_benchmark_metrics Sample.python (results_file [null_loader_entry])
       "run.json" None) = Ok [Some (VStr "multiturn")]
  /\ field_values "dataset_prompt_tokens"
    (parse_individual_requests Sample.python (results_file [null_loader_entry])
       "run.json" None) = Ok [Some (VInt 400)]
  /\ field_values "dataset_output_tokens"
    (parse_individual_requests Sample.python (results_file [null_loader_entry])
       "run.json" None) = Ok [Some (VInt 200)].
Proof. repeat split; by_vm. Qed.

(** ** Precedence of the newer layout *)

Lemma py_get_with_variant_b (args request_loader : value) (benchmark : dict)
    (k : string) (d : value) :
  k <> "args" -> k <> "request_loader" ->
  py_get (VDict (with_variant_b args request_loader benchmark)) k d
  = py_get (VDict benchmark) k d.
Proof.
  intros H1 H2. unfold with_variant_b, py_get.
  rewrite !lookup_insert_ne by congruence. reflexivity.
Qed.

Lemma resolve_strategy_variant_a (benchmark config : dict) (strategy profile : value) :
  benchmark !! "config" = Some (VDict config) ->
  config !! "strategy" = Some strategy -> truthy strategy = true ->
  config !! "profile" = Some profile -> truthy profile = true ->
  resolve_strategy (VDict benchmark) = Ok (VDict config, strategy, profile).
Proof.
  intros Hc Hs Ts Hp Tp. unfold resolve_strategy.
  rewrite (py_get_Some _ _ _ _ Hc). cbn [py_get mbind result_bind].
  rewrite Hs, Hp. cbn [default from_option id mbind result_bind].
  rewrite Ts, Tp. reflexivity.
Qed.

Lemma loader_argument_variant_a (benchmark config : dict) (requests : value) :
  config !! "requests" = Some requests -> truthy requests = true ->
  loader_argument (VDict config) (VDict benchmark) = Ok requests.
Proof.
  intros Hr Tr. unfold loader_argument. cbn [py_get mbind result_bind].
  rewrite Hr. cbn [default from_option id]. rewrite Tr. reflexivity.
Qed.

Lemma summary_row_variant_b (rt : runtime) (filename filepath : string)
    (extra_metadata : option dict) (benchmark config : dict)
    (requests args request_loader concurrency rps : value) :
  config !! "requests" = Some requests -> truthy requests = true ->
  summary_row rt filename filepath extra_metadata (VDict config)
    (VDict (with_variant_b args request_loader benchmark)) concurrency rps
  = summary_row rt filename filepath extra_metadata (VDict config)
      (VDict benchmark) concurrency rps.
Proof.
  intros Hr Tr. unfold summary_row, benchmark_dataset_settings.
  rewrite !(loader_argument_variant_a _ _ _ Hr Tr).
  rewrite py_get_with_variant_b by discriminate. reflexivity.
Qed.

Lemma request_row_old_times (filename filepath : string)
    (extra_metadata : option dict) (concurrency rps : value) (settings : dict)
    (test_start_time : value) (request : dict) (a e x y : value) :
  request !! "request_start_time" = Some a ->
  request !! "request_end_time" = Some e ->
  request_row filename filepath extra_metadata concurrency rps settings
    test_start_time (VDict (with_old_times x y request))
  = request_row filename filepath extra_metadata concurrency rps settings
      test_start_time (VDict request).
Proof.
  intros Ha He. unfold request_row, with_old_times.
  cbn [py_get mbind result_bind].
  repeat first [rewrite lookup_insert_eq | rewrite lookup_insert_ne by discriminate].
  rewrite Ha, He. cbn [default from_option id]. reflexivity.
Qed.

Lemma truthy_dget (m : dict) (k : string) :
  truthy (dget m k (VDict ∅)) = true ->
  m !! k = Some (dget m k (VDict ∅)).
Proof.
  unfold dget. destruct (m !! k) as [v|]; [reflexivity|].
  intros H. vm_compute in H. discriminate H.
Qed.

(** What [resolve_strategy] returns for an entry whose [config] and [args]
    are mappings: each sub-tree of [config], and the one of [args] in its
    place when it is falsy. *)
Lemma resolve_strategy_fallback (benchmark config args : dict) :
  default (VDict ∅) (benchmark !! "config") = VDict config ->
  default (VDict ∅) (benchmark !! "args") = VDict args ->
  resolve_strategy (VDict benchmark)
  = Ok (VDict config,
        (if truthy (dget config "strategy" (VDict ∅))
         then dget config "strategy" (VDict ∅)
         else dget args "strategy" (VDict ∅)),
        (if truthy (dget config "profile" (VDict ∅))
         then dget config "profile" (VDict ∅)
         else dget args "profile" (VDict ∅))).
Proof.
  intros Hc Ha. unfold resolve_strategy. cbn [py_get mbind result_bind].
  rewrite Hc, Ha. cbn [py_get mbind result_bind]. unfold dget.
  destruct (truthy (default (VDict ∅) (config !! "strategy")));
    destruct (truthy (default (VDict ∅) (config !! "profile"))); reflexivity.
Qed.

Lemma loader_argument_fallback_rule (benchmark config : dict) :
  loader_argument (VDict config) (VDict benchmark)
  = Ok (if truthy (dget config "requests" (VDict ∅))
        then dget config "requests" (VDict ∅)
        else dget benchmark "request_loader" (VDict ∅)).
Proof. reflexivity. Qed.

Lemma request_row_absolute (filename filepath : string)
    (extra_metadata : option dict) (concurrency rps : value) (settings : dict)
    (test_start_time : value) (request row : dict) :
  request_row filename filepath extra_metadata concurrency rps settings
    test_start_time (VDict request) = Ok row ->
  exists row0 : dict,
    row = merge_metadata extra_metadata row0
    /\ row0 !! "first_token_time" = Some (dget request "first_token_time" (VInt 0))
    /\ row0 !! "start_time"
       = Some (request_time request "request_start_time" "start_time")
    /\ row0 !! "end_time"
       = Some (request_time request "request_end_time" "end_time").
Proof.
  intros H. unfold request_row in H. cbn [py_get mbind result_bind] in H.
  apply bind_Ok in H as ([[first_rel start_rel] end_rel] & _ & H).
  apply Ok_inj in H. subst row. eexists. split; [reflexivity|].
  rewrite !lookup_insert_ne by discriminate.
  repeat apply conj; vm_compute; reflexivity.
Qed.

(** C3, as the code has it.  For an entry whose [config] is a mapping:
    when [config.strategy], [config.profile] and [config.requests] are not
    empty, the axis values and the dataset fields of every row either
    extractor emits are the ones computed from these three sub-trees
    (before the caller's metadata is merged in), whatever [args] and
    [request_loader] hold, so replacing these changes nothing; a sub-tree
    of [config] that is absent or empty is replaced by the one of the older
    layout ([args.strategy], [args.profile], [request_loader]); and the
    absolute start and end of a request are the ones under the newer field
    names when these keys are there, whatever the older names hold, and
    the ones under the older names when they are not. *)
Theorem variant_a_takes_precedence (rt : runtime) (filename filepath : string)
    (extra_metadata : option dict) (benchmark config : dict)
    (Hconfig : benchmark !! "config" = Some (VDict config)) :
  let strategy := dget config "strategy" (VDict ∅) in
  let profile := dget config "profile" (VDict ∅) in
  let requests := dget config "requests" (VDict ∅) in
  (truthy strategy = true -> truthy profile = true -> truthy requests = true ->
   (forall log row,
       summary_entry rt filename filepath extra_metadata (VDict benchmark)
         = (log, Ok (Some row)) ->
       exists row0, row = merge_metadata extra_metadata row0
                    /\ summary_values rt strategy profile requests row0)
   /\ (forall log rows,
       requests_entry rt filename filepath extra_metadata (VDict benchmark)
         = (log, Ok rows) ->
       Forall (fun row =>
                 exists row0, row = merge_metadata extra_metadata row0
                              /\ request_values rt strategy profile requests row0)
         rows)
   /\ (forall args request_loader,
       summary_entry rt filename filepath extra_metadata
         (VDict (with_variant_b args request_loader benchmark))
       = summary_entry rt filename filepath extra_metadata (VDict benchmark))
   /\ (forall args request_loader,
       requests_entry rt filename filepath extra_metadata
         (VDict (with_variant_b args request_loader benchmark))
       = requests_entry rt filename filepath extra_metadata (VDict benchmark)))
  /\ (forall args : dict,
      default (VDict ∅) (benchmark !! "args") = VDict args ->
      resolve_strategy (VDict benchmark)
      = Ok (VDict config,
            (if truthy strategy then strategy else dget args "strategy" (VDict ∅)),
            (if truthy profile then profile else dget args "profile" (VDict ∅)))
      /\ loader_argument (VDict config) (VDict benchmark)
         = Ok (if truthy requests then requests
               else dget benchmark "request_loader" (VDict ∅)))
  /\ (forall concurrency rps settings test_start_time (request row : dict),
      request_row filename filepath extra_metadata concurrency rps settings
        test_start_time (VDict request) = Ok row ->
      exists row0 start_time end_time,
        row = merge_metadata extra_metadata row0
        /\ row0 !! "start_time" = Some start_time
        /\ row0 !! "end_time" = Some end_time
        /\ (forall a, request !! "request_start_time" = Some a -> start_time = a)
        /\ (forall e, request !! "request_end_time" = Some e -> end_time = e)
        /\ (request !! "request_start_time" = None ->
            start_time = dget request "start_time" (VInt 0))
        /\ (request !! "request_end_time" = None ->
            end_time = dget request "end_time" (VInt 0))).
Proof.
  intros strategy profile requests. split; [|split].
  - intros Ts Tp Tr.
    pose proof (truthy_dget _ _ Ts) as Hs. pose proof (truthy_dget _ _ Tp) as Hp.
    pose proof (truthy_dget _ _ Tr) as Hr.
    fold strategy in Hs. fold profile in Hp. fold requests in Hr.
    pose proof (resolve_strategy_variant_a _ _ _ _ Hconfig Hs Ts Hp Tp) as Ha.
    assert (forall args request_loader,
              resolve_strategy (VDict (with_variant_b args request_loader benchmark))
              = Ok (VDict config, strategy, profile)) as Hb.
    { intros args request_loader. eapply resolve_strategy_variant_a; eauto.
      unfold with_variant_b. rewrite !lookup_insert_ne by discriminate.
      exact Hconfig. }
    split; [|split; [|split]].
    + intros log row H.
      apply summary_entry_row in H as (cf & s & p & c & r & Hrs & Hax & _ & H).
      rewrite Ha in Hrs. apply Ok_inj in Hrs. injection Hrs as <- <- <-.
      apply summary_row_fields in H
        as (settings & metrics & o & t & row0 & Hset & _ & _ & _ & -> & Hc & Hrps
            & H1 & H2 & H3 & H4 & H5 & _).
      unfold benchmark_dataset_settings in Hset.
      rewrite (loader_argument_variant_a _ _ _ Hr Tr) in Hset.
      cbn [mbind result_bind] in Hset.
      exists row0. split; [reflexivity|]. exists c, r, settings.
      unfold summary_dataset_fields. auto 10.
    + intros log rows H.
      apply requests_entry_rows in H as [->|H]; [constructor|].
      destruct H as (cf & s & p & c & r & tst & settings & items
                     & _ & Hrs & Hax & _ & Hset & Hrows).
      rewrite Ha in Hrs. apply Ok_inj in Hrs. injection Hrs as <- <- <-.
      unfold benchmark_dataset_settings in Hset.
      rewrite (loader_argument_variant_a _ _ _ Hr Tr) in Hset.
      cbn [mbind result_bind] in Hset.
      induction Hrows as [|q row qs rows Hrow _ IH]; constructor; [|exact IH].
      apply request_row_fields in Hrow
        as (rq & row0 & ? & ? & ? & _ & -> & Hc & Hrps & H1 & H2 & _).
      exists row0. split; [reflexivity|]. exists c, r, settings.
      unfold request_dataset_fields. auto 10.
    + intros args request_loader. unfold summary_entry. rewrite Hb, Ha.
      cbn [lift mbind io_bind].
      destruct (resolve_axis rt strategy profile) as [[c r]|]; [|reflexivity].
      destruct (is_none c && is_none r); [reflexivity|].
      rewrite (summary_row_variant_b _ _ _ _ _ _ _ _ _ _ _ Hr Tr). reflexivity.
    + intros args request_loader. unfold requests_entry.
      replace (run_start_time (VDict (with_variant_b args request_loader benchmark)))
        with (run_start_time (VDict benchmark))
        by (unfold run_start_time;
            rewrite !py_get_with_variant_b by discriminate; reflexivity).
      destruct (run_start_time (VDict benchmark)) as [tst|]; [|reflexivity].
      rewrite Hb, Ha. cbn [lift mbind io_bind].
      destruct (resolve_axis rt strategy profile) as [[c r]|]; [|reflexivity].
      destruct (is_none c && is_none r); [reflexivity|].
      unfold benchmark_dataset_settings.
      rewrite !(loader_argument_variant_a _ _ _ Hr Tr).
      rewrite py_get_with_variant_b by discriminate. reflexivity.
  - intros args Hargs. split.
    + apply resolve_strategy_fallback; [|exact Hargs].
      rewrite Hconfig. reflexivity.
    + apply loader_argument_fallback_rule.
  - intros c r settings tst request row H.
    apply request_row_absolute in H as (row0 & -> & _ & Hs & He).
    exists row0, (request_time request "request_start_time" "start_time"),
      (request_time request "request_end_time" "end_time").
    split; [reflexivity|]. split; [exact Hs|]. split; [exact He|].
    unfold request_time, dget.
    repeat split; intros; rewrite H; reflexivity.
Qed.

Lemma variant_a_takes_precedence_witness :
  field_values "concurrency"
    (parse_benchmark_metrics Sample.python (results_file [VDict both_layouts_entry])
       "run.json" None) = Ok [Some (VInt 4)]
  /\ field_values "prompt_tokens"
    (parse_benchmark_metrics Sample.python (results_file [VDict both_layouts_entry])
       "run.json" None) = Ok [Some (VInt 512)]
  /\ field_values "start_time"
    (parse_individual_requests Sample.python (results_file [VDict both_layouts_entry])
       "run.json" None) = Ok [Some (VInt 20)]
  /\ (forall log row,
       summary_entry Sample.python "run.json" "run.json" None
         (VDict both_layouts_entry) = (log, Ok (Some row)) ->
       exists row0,
         row = merge_metadata None row0
         /\ summary_values Sample.python
              (obj [("max_concurrency", VInt 4)])
              (obj [("strategy_type", VStr "concurrent")])
              (obj [("data", VStr "['prompt_tokens=512,output_tokens=256']")])
              row0).
Proof.
  split; [by_vm|]. split; [by_vm|]. split; [by_vm|].
  assert (both_layouts_entry !! "config"
          = Some (VDict (list_to_map
               [("strategy", obj [("max_concurrency", VInt 4)]);
                ("profile", obj [("strategy_type", VStr "concurrent")]);
                ("requests",
                 obj [("data", VStr "['prompt_tokens=512,output_tokens=256']")])])))
    as Hconfig by by_vm.
  destruct (variant_a_takes_precedence Sample.python "run.json" "run.json" None
              both_layouts_entry _ Hconfig) as [Hfirst _].
  destruct Hfirst as [Hsummary _]; [reflexivity | reflexivity | reflexivity |].
  exact Hsummary.
Defined.

Lemma empty_variant_a_counterexample :
  field_values "concurrency"
    (parse_benchmark_metrics Sample.python (results_file [empty_strategy_entry])
       "run.json" None) = Ok [Some (VInt 8)]
  /\ parse_benchmark_metrics Sample.python (results_file [empty_strategy_alone])
       "run.json" None = ([NoAxisFound "run.json"], Ok []).
Proof. split; by_vm. Qed.

(** ** Tables *)

Lemma filter_sublist {A} (p : A -> bool) (l : list A) :
  sublist (List.filter p l) l.
Proof.
  induction l as [|x l IH]; cbn; [constructor|].
  destruct (p x); [apply sublist_skip | apply sublist_cons]; exact IH.
Qed.


(** The example of the specification: concurrency levels 1, 2, 4, 8
    with a row that is there twice, filtered by the levels 2 and 8; levels
    one unit in the last place above 2 and below 8; the integer 2^53 + 1
    against the float 2^53; and the floats nearest 0.1 and 0.2 added,
    against the float nearest 0.3. *)
Lemma filter_data_by_levels_near_example :
  fst (filter_data_by_levels Sample.frames (concurrency_table [1; 2; 4; 8; 2])
         "concurrency" (Some [VFloat 2; VFloat 8]))
  = concurrency_table [2; 8; 2]
  /\ filter_data_by_levels Sample.frames (concurrency_table [1; 2; 4; 8])
       "concurrency" (Some [VFloat 0x1.0000000000001p+1; VFloat 0x1.fffffffffffffp+2])
     = (concurrency_table [],
        [NoDataRemains "concurrency"
           [VFloat 0x1.0000000000001p+1; VFloat 0x1.fffffffffffffp+2]])
  /\ number_eqb (VInt (2 ^ 53 + 1)) (VFloat 9007199254740992) = false
  /\ number_eqb (VInt (2 ^ 53)) (VFloat 9007199254740992) = true
  /\ number_eqb (VFloat (0x1.999999999999ap-4 + 0x1.999999999999ap-3))
       (VFloat 0x1.3333333333333p-2) = false.
Proof. repeat split; by_vm. Qed.

(** The example of the specification: concurrency levels 1, 2, 4, 8
    filtered by the levels 2 and 8. *)
Lemma filter_data_by_levels_example :
  filter_data_by_levels Sample.frames (concurrency_table [1; 2; 4; 8])
    "concurrency" (Some [VFloat 2; VFloat 8])
  = (concurrency_table [2; 8], []).
Proof. by_vm. Qed.

Lemma filter_data_by_levels_empty_example :
  filter_data_by_levels Sample.frames (concurrency_table [1; 2; 4; 8])
    "concurrency" (Some [VFloat 3])
  = (concurrency_table [], [NoDataRemains "concurrency" [VFloat 3]]).
Proof. by_vm. Qed.

Lemma zip_with_insert_again (c : string) (rows : list dict) (series : list value) :
  zip_with (fun row v => <[c := v]> row)
    (zip_with (fun row v => <[c := v]> row) rows series) series
  = zip_with (fun row v => <[c := v]> row) rows series.
Proof.
  revert series. induction rows as [|row rows IH]; intros [|v series]; cbn;
    try reflexivity.
  rewrite insert_insert_eq, IH. reflexivity.
Qed.

(** Writing a column leaves the cells of every other column alone. *)
Lemma cells_after_set_column (c k : string) (rows : list dict) (series : list value) :
  c <> k -> length series = length rows ->
  (fun row => cell row k) <$> zip_with (fun row v => <[c := v]> row) rows series
  = (fun row => cell row k) <$> rows.
Proof.
  intros Hck. revert series. induction rows as [|row rows IH]; intros [|v series];
    cbn; intros Hlen; try reflexivity; try discriminate Hlen.
  unfold cell at 1. rewrite lookup_insert_ne by exact Hck.
  fold (cell row k). rewrite IH by congruence. reflexivity.
Qed.

Lemma dash_join_length (pd : pandas) (a b : list value) :
  length a = length b -> length (dash_join pd a b) = length a.
Proof.
  revert b. induction a as [|x a IH]; intros [|y b]; cbn; intros H;
    try reflexivity; try discriminate H.
  f_equal. apply IH. congruence.
Qed.

Lemma has_column_set_column (df : dataframe) (c k : string) (series : list value) :
  has_column df k = true -> has_column (set_column df c series) k = true.
Proof.
  unfold has_column at 1 2, set_column. cbn [columns]. intros H.
  apply bool_decide_eq_true in H. apply bool_decide_eq_true.
  destruct (has_column df c); [exact H|].
  apply elem_of_app. left. exact H.
Qed.

Lemma has_column_set_column_self (df : dataframe) (c : string) (series : list value) :
  has_column (set_column df c series) c = true.
Proof.
  unfold has_column at 1, set_column. cbn [columns]. apply bool_decide_eq_true.
  destruct (has_column df c) eqn:H.
  - apply bool_decide_eq_true in H. exact H.
  - apply elem_of_app. right. apply list_elem_of_singleton. reflexivity.
Qed.

Lemma has_column_set_column_other (df : dataframe) (c k : string) (series : list value) :
  c <> k -> has_column (set_column df c series) k = has_column df k.
Proof.
  intros Hck. unfold set_column. unfold has_column at 1 3. cbn [columns].
  destruct (has_column df c); [reflexivity|].
  apply bool_decide_ext. rewrite elem_of_app, list_elem_of_singleton.
  split; [intros [H|H]; [exact H | congruence] | auto].
Qed.

(** Deriving the identifier from two columns a second time changes
    nothing. *)
Lemma set_dataset_id_twice (pd : pandas) (df : dataframe) (p o : string) :
  p <> "dataset_id" -> o <> "dataset_id" ->
  has_column df p = true -> has_column df o = true ->
  let df1 := set_column df "dataset_id"
               (dash_join pd ((fun row => cell row p) <$> rows df)
                             ((fun row => cell row o) <$> rows df)) in
  has_column df1 p = true /\ has_column df1 o = true
  /\ set_column df1 "dataset_id"
       (dash_join pd ((fun row => cell row p) <$> rows df1)
                     ((fun row => cell row o) <$> rows df1)) = df1.
Proof.
  intros Hp Ho Cp Co df1.
  split; [apply has_column_set_column, Cp|].
  split; [apply has_column_set_column, Co|].
  assert (length (dash_join pd ((fun row => cell row p) <$> rows df)
                     ((fun row => cell row o) <$> rows df)) = length (rows df)) as Hlen.
  { rewrite dash_join_length; rewrite !length_fmap; reflexivity. }
  subst df1. unfold set_column at 1. cbn [rows columns].
  rewrite has_column_set_column_self.
  unfold set_column at 3 4. cbn [rows].
  rewrite !cells_after_set_column by (try congruence; exact Hlen).
  unfold set_column. cbn [rows columns].
  rewrite zip_with_insert_again. reflexivity.
Qed.

Lemma get_column_present (df : dataframe) (c : string) :
  has_column df c = true ->
  get_column df c = Ok ((fun row => cell row c) <$> rows df).
Proof. intros H. unfold get_column. rewrite H. reflexivity. Qed.

Lemma get_column_missing (df : dataframe) (c : string) :
  has_column df c = false -> get_column df c = Raise KeyError.
Proof. intros H. unfold get_column. rewrite H. reflexivity. Qed.

Lemma create_dataset_identifier_example :
  (df ← create_dataset_identifier Sample.frames token_table;
   get_column df "dataset_id")
  = Ok [VStr "512-256"; VStr "400-200"].
Proof. by_vm. Qed.

(** ** Configuration *)

Lemma py_eq_str_true (v : value) (s : string) :
  py_eq_str v s = true -> v = VStr s.
Proof.
  destruct v; cbn; try discriminate. intros H.
  apply String.eqb_eq in H. congruence.
Qed.

(** X1. Whatever the options hold, the axis mode [get_axis_mode] returns is
    the string "rps" when the configured [axis_mode] is that string and the
    string "concurrency" in every other case, and it names the very column
    [filter_data_by_levels] filters on. *)
Theorem get_axis_mode_range (config mode : value) :
  get_axis_mode config = Ok mode ->
  exists (options configured : value) (name : string),
    py_get config "options" (VDict ∅) = Ok options
    /\ py_get options "axis_mode" (VStr "concurrency") = Ok configured
    /\ mode = VStr name
    /\ name = (if py_eq_str configured "rps" then "rps" else "concurrency")
    /\ axis_field name = name.
Proof.
  unfold get_axis_mode. intros H.
  apply bind_Ok in H as (options & Ho & H).
  apply bind_Ok in H as (configured & Hc & H).
  exists options, configured.
  destruct (py_eq_str configured "concurrency") eqn:E1.
  - apply py_eq_str_true in E1. subst configured. cbn in H.
    apply Ok_inj in H. subst mode. exists "concurrency". auto.
  - destruct (py_eq_str configured "rps") eqn:E2; cbn in H; apply Ok_inj in H.
    + apply py_eq_str_true in E2. subst configured mode. exists "rps". auto.
    + subst mode. exists "concurrency". auto.
Qed.

Lemma get_axis_mode_range_witness :
  get_axis_mode rps_config = Ok (VStr "rps")
  /\ exists (options configured : value) (name : string),
    py_get rps_config "options" (VDict ∅) = Ok options
    /\ py_get options "axis_mode" (VStr "concurrency") = Ok configured
    /\ VStr "rps" = VStr name
    /\ name = (if py_eq_str configured "rps" then "rps" else "concurrency")
    /\ axis_field name = name.
Proof.
  split; [by_vm|]. apply (get_axis_mode_range rps_config (VStr "rps")). by_vm.
Defined.

Lemma float_each_Ok (rt : runtime) (items levels : list value) :
  float_each rt items = Ok levels ->
  Forall2 (fun item level => exists f, py_float rt item = Ok f /\ level = VFloat f)
    items levels.
Proof.
  revert levels. induction items as [|x items IH]; intros levels H; cbn in H.
  - apply Ok_inj in H. subst levels. constructor.
  - apply bind_Ok in H as (f & Hf & H). apply bind_Ok in H as (fs & Hfs & H).
    apply Ok_inj in H. subst levels. constructor; eauto.
Qed.

Lemma key_order_length (rt : runtime) (m : dict) :
  length (key_order rt m) = size m.
Proof.
  rewrite (Permutation_length (key_order_keys rt m)), length_fmap.
  apply length_map_to_list.
Qed.

Lemma truthy_iter_nonempty (rt : runtime) (v : value) (items : list value) :
  truthy v = true -> py_iter rt v = Ok items -> items <> [].
Proof.
  destruct v as [| | | |s|l|l|m]; cbn; try discriminate.
  - intros Ht H. apply Ok_inj in H. subst items.
    destruct s; [discriminate Ht | discriminate].
  - intros Ht H. apply Ok_inj in H. subst items.
    destruct l; [discriminate Ht | discriminate].
  - intros Ht H. apply Ok_inj in H. subst items.
    destruct l; [discriminate Ht | discriminate].
  - intros Ht H. apply Ok_inj in H. subst items. intros E.
    apply (f_equal length) in E. rewrite length_fmap, key_order_length in E.
    cbn in E. rewrite E in Ht. discriminate Ht.
Qed.

(** X2. When [get_concurrency_levels] or [get_rps_levels] returns a list,
    that list is the configured levels converted one by one with [float],
    in order: it is not empty, it has as many entries as were configured,
    and every entry is a float.  The order is the one of the configured
    list; for levels written as a mapping it is the order in which the
    mapping holds its keys. *)
Theorem get_levels_floats (rt : runtime) (key : string) (config : value)
    (levels : list value) :
  get_levels rt key config = Ok (Some levels) ->
  exists (options configured : value) (items : list value),
    py_get config "options" (VDict ∅) = Ok options
    /\ py_get options key VNone = Ok configured
    /\ py_iter rt configured = Ok items
    /\ (forall l, configured = VList l -> items = l)
    /\ (forall m, configured = VDict m -> items = VStr <$> key_order rt m)
    /\ Forall2 (fun item level =>
                  exists f, py_float rt item = Ok f /\ level = VFloat f)
         items levels
    /\ levels <> [].
Proof.
  unfold get_levels. intros H.
  apply bind_Ok in H as (options & Ho & H).
  apply bind_Ok in H as (configured & Hc & H).
  exists options, configured.
  destruct (truthy configured) eqn:Ht; [|discriminate H].
  destruct (py_iter rt configured) as [items|e] eqn:Hi; cbn in H.
  - exists items. destruct (float_each rt items) as [floats|e] eqn:Hf; cbn in H.
    + apply Ok_inj in H. injection H as ->.
      apply float_each_Ok in Hf.
      pose proof (truthy_iter_nonempty _ _ _ Ht Hi) as Hne.
      split; [assumption|]. split; [assumption|]. split; [reflexivity|].
      split; [intros l ->; apply Ok_inj in Hi; congruence|].
      split; [intros m ->; apply Ok_inj in Hi; congruence|].
      split; [assumption|].
      intros Heq. rewrite Heq in Hf. inversion Hf. congruence.
    + destruct (_ || _); discriminate H.
  - destruct (_ || _); discriminate H.
Qed.

Lemma get_levels_floats_witness :
  get_rps_levels Sample.python rps_config
    = Ok (Some [VFloat 1; VFloat 2.5; VFloat 10])
  /\ exists (options configured : value) (items : list value),
    py_get rps_config "options" (VDict ∅) = Ok options
    /\ py_get options "rps_levels" VNone = Ok configured
    /\ py_iter Sample.python configured = Ok items
    /\ (forall l, configured = VList l -> items = l)
    /\ (forall m, configured = VDict m -> items = VStr <$> key_order Sample.python m)
    /\ Forall2 (fun item level =>
                  exists f, py_float Sample.python item = Ok f /\ level = VFloat f)
         items [VFloat 1; VFloat 2.5; VFloat 10]
    /\ [VFloat 1; VFloat 2.5; VFloat 10] <> [].
Proof.
  split; [by_vm|].
  apply (get_levels_floats Sample.python "rps_levels" rps_config). by_vm.
Defined.

(** The comprehension fails with what the first failing conversion
    raised. *)
Lemma float_each_Raise (rt : runtime) (before after : list value) (bad : value)
    (e : exn) :
  Forall (fun item => exists f, py_float rt item = Ok f) before ->
  py_float rt bad = Raise e ->
  float_each rt (before ++ bad :: after) = Raise e.
Proof.
  intros Hb Hbad. induction Hb as [|x before (f & Hx) _ IH]; cbn.
  - rewrite Hbad. reflexivity.
  - rewrite Hx. cbn. rewrite IH. reflexivity.
Qed.

(** X3. A configured level that [float] refuses with [ValueError] or
    [TypeError] (a word, a null, a list) makes the whole list count as not
    configured; an integer too large for a float is not covered by the
    handler, and the getter raises [OverflowError]. *)
Theorem get_levels_refused (rt : runtime) (key : string) (config options : dict)
    (before after : list value) (bad : value) (e : exn) :
  config !! "options" = Some (VDict options) ->
  options !! key = Some (VList (before ++ bad :: after)) ->
  Forall (fun item => exists f, py_float rt item = Ok f) before ->
  py_float rt bad = Raise e ->
  (e = ValueError \/ e = TypeError -> get_levels rt key (VDict config) = Ok None)
  /\ (e = OverflowError -> get_levels rt key (VDict config) = Raise OverflowError).
Proof.
  intros Ho Hk Hb Hbad.
  assert (get_levels rt key (VDict config)
          = try_except (Raise e) [ValueError; TypeError] (Ok None)) as ->.
  { unfold get_levels. rewrite (py_get_Some _ _ _ _ Ho).
    cbn [mbind result_bind]. rewrite (py_get_Some _ _ _ _ Hk).
    cbn [mbind result_bind truthy py_iter].
    replace (negb (Nat.eqb (length (before ++ bad :: after)) 0)) with true
      by (destruct before; reflexivity).
    rewrite (float_each_Raise _ _ _ _ _ Hb Hbad). reflexivity. }
  split.
  - intros [-> | ->]; reflexivity.
  - intros ->. reflexivity.
Qed.

Lemma get_levels_refused_witness :
  get_concurrency_levels Sample.python rps_config = Ok None.
Proof.
  refine (proj1 (get_levels_refused Sample.python "concurrency_levels"
           (list_to_map
              [("data", VList []);
               ("options", obj [("axis_mode", VStr "rps");
                                ("rps_levels", VList [VInt 1; VFloat 2.5; VStr "10"]);
                                ("concurrency_levels", VList [VInt 1; VStr "fast"])])])
           (list_to_map
              [("axis_mode", VStr "rps");
               ("rps_levels", VList [VInt 1; VFloat 2.5; VStr "10"]);
               ("concurrency_levels", VList [VInt 1; VStr "fast"])])
           [VInt 1] [] (VStr "fast") ValueError _ _ _ _) (or_introl eq_refl)).
  - reflexivity.
  - reflexivity.
  - repeat constructor. exists 1%float. by_vm.
  - by_vm.
Defined.

(** ** More on tables *)

Lemma set_dataset_id_rows (pd : pandas) (p o : string) (rows : list dict) :
  zip_with (fun row v => <["dataset_id" := v]> row) rows
    (dash_join pd ((fun row => cell row p) <$> rows)
                  ((fun row => cell row o) <$> rows))
  = (fun row => <["dataset_id" := dataset_id_of pd p o row]> row) <$> rows.
Proof.
  induction rows as [|row rows IH]; [reflexivity|].
  cbn. unfold dash_join in IH. rewrite IH. reflexivity.
Qed.

(** What [create_dataset_identifier] returns, read off the columns of the
    table. *)
Lemma create_dataset_identifier_cases (pd : pandas) (df df' : dataframe) :
  create_dataset_identifier pd df = Ok df' ->
  match identifier_columns df with
  | Some (p, o) =>
      has_column df p = true /\ has_column df o = true
      /\ p <> "dataset_id" /\ o <> "dataset_id"
      /\ df' = {| columns := if has_column df "dataset_id" then columns df
                             else (columns df ++ ["dataset_id"])%list;
                  rows := (fun row => <["dataset_id" := dataset_id_of pd p o row]> row)
                            <$> rows df |}
  | None => df' = df
  end.
Proof.
  unfold create_dataset_identifier, identifier_columns. intros H.
  destruct (has_column df "prompt_tokens") eqn:Hp.
  - rewrite (get_column_present _ _ Hp) in H. cbn [mbind result_bind] in H.
    destruct (has_column df "output_tokens") eqn:Ho.
    + rewrite (get_column_present _ _ Ho) in H. cbn [mbind result_bind] in H.
      apply Ok_inj in H. subst df'. unfold set_column.
      rewrite set_dataset_id_rows.
      repeat (split; [first [assumption | reflexivity | discriminate]|]).
      reflexivity.
    + rewrite (get_column_missing _ _ Ho) in H. discriminate H.
  - destruct (has_column df "dataset_prompt_tokens") eqn:Hdp.
    + rewrite (get_column_present _ _ Hdp) in H. cbn [mbind result_bind] in H.
      destruct (has_column df "dataset_output_tokens") eqn:Hdo.
      * rewrite (get_column_present _ _ Hdo) in H. cbn [mbind result_bind] in H.
        apply Ok_inj in H. subst df'. unfold set_column.
        rewrite set_dataset_id_rows.
        repeat (split; [first [assumption | reflexivity | discriminate]|]).
        reflexivity.
      * rewrite (get_column_missing _ _ Hdo) in H. discriminate H.
    + apply Ok_inj in H. congruence.
Qed.

(** The identifiers of the returned table, when the token columns are
    there. *)
Lemma create_dataset_identifier_ids (pd : pandas) (df df' : dataframe)
    (p o : string) :
  create_dataset_identifier pd df = Ok df' ->
  identifier_columns df = Some (p, o) ->
  has_column df' "dataset_id" = true
  /\ Forall (fun row => row !! "dataset_id" = Some (dataset_id_of pd p o row))
       (rows df').
Proof.
  intros H Hpo. apply create_dataset_identifier_cases in H. rewrite Hpo in H.
  destruct H as (Hp & Ho & Np & No & ->). cbn [rows columns]. split.
  - unfold has_column at 1. cbn [columns]. apply bool_decide_eq_true.
    destruct (has_column df "dataset_id") eqn:Hd.
    + apply bool_decide_eq_true in Hd. exact Hd.
    + apply elem_of_app. right. apply list_elem_of_singleton. reflexivity.
  - apply Forall_fmap, Forall_forall. intros row _. cbn.
    rewrite lookup_insert_eq. unfold dataset_id_of, cell.
    rewrite !lookup_insert_ne by congruence. reflexivity.
Qed.

(** X4. [create_dataset_identifier] only adds: the table it returns has the
    same number of rows, every cell outside [dataset_id] is what it was, no
    column is lost, and when the table has the token columns the
    [dataset_id] of every row is made of that row's own two token cells as
    the table stores them: their two texts around a dash, and NaN when one
    of the two has no text. *)
Theorem create_dataset_identifier_only_adds (pd : pandas) (df df' : dataframe) :
  create_dataset_identifier pd df = Ok df' ->
  length (rows df') = length (rows df)
  /\ (forall k, k <> "dataset_id" ->
        (fun row : dict => row !! k) <$> rows df'
        = (fun row : dict => row !! k) <$> rows df)
  /\ (forall k, has_column df k = true -> has_column df' k = true)
  /\ (forall p o, identifier_columns df = Some (p, o) ->
        has_column df' "dataset_id" = true
        /\ Forall2 (fun row row' : dict =>
                      row' !! "dataset_id"
                      = Some (joined (astype_str pd (cell row p))
                                (astype_str pd (cell row o))))
             (rows df) (rows df')
        /\ Forall (fun row' => row' !! "dataset_id" = Some (dataset_id_of pd p o row'))
             (rows df')).
Proof.
  intros H. pose proof (create_dataset_identifier_ids pd df df') as Hids.
  specialize (fun p o => Hids p o H).
  apply create_dataset_identifier_cases in H.
  destruct (identifier_columns df) as [[p o]|].
  - destruct H as (Hp & Ho & Np & No & ->). cbn [rows columns].
    split; [apply length_fmap|]. split; [|split].
    + intros k Hk. rewrite <- list_fmap_compose. apply list_fmap_ext.
      intros i row _. cbn. apply lookup_insert_ne. congruence.
    + intros k Hk. unfold has_column at 1. cbn [columns].
      apply bool_decide_eq_true in Hk. apply bool_decide_eq_true.
      destruct (has_column df "dataset_id"); [exact Hk | apply elem_of_app; auto].
    + intros p' o' Hpo. destruct (Hids p' o' Hpo) as [Hcol Hall].
      injection Hpo as <- <-.
      split; [exact Hcol|]. split; [|exact Hall].
      apply Forall2_fmap_r, Forall_Forall2_diag, Forall_forall.
      intros row _. cbn. rewrite lookup_insert_eq. reflexivity.
  - subst df'. split; [reflexivity|]. split; [reflexivity|].
    split; [auto|]. intros p o Hpo. discriminate Hpo.
Qed.

Lemma create_dataset_identifier_only_adds_witness :
  (df ← create_dataset_identifier Sample.frames summary_frame;
   get_column df "dataset_id")
    = Ok [VStr "512-256"; VStr "400-200"]
  /\ (df ← create_dataset_identifier Sample.frames gappy_frame;
      get_column df "dataset_id")
     = Ok [VStr "512.0-256"; VFloat PrimFloat.nan]
  /\ length (rows (with_dataset_id Sample.frames "prompt_tokens" "output_tokens"
                     summary_frame))
     = length (rows summary_frame).
Proof.
  split; [by_vm|]. split; [by_vm|].
  assert (create_dataset_identifier Sample.frames summary_frame
          = Ok (with_dataset_id Sample.frames "prompt_tokens" "output_tokens"
                  summary_frame)) as H by by_vm.
  exact (proj1 (create_dataset_identifier_only_adds Sample.frames summary_frame _ H)).
Defined.

Lemma filter_filter {A} (p : A -> bool) (l : list A) :
  List.filter p (List.filter p l) = List.filter p l.
Proof.
  induction l as [|x l IH]; cbn; [reflexivity|].
  destruct (p x) eqn:Hx; cbn; rewrite ?Hx, IH; reflexivity.
Qed.

(** X5. Filtering a table that was already filtered by the same axis and
    levels returns the same table: [filter_data_by_levels] is idempotent on
    the table it returns. *)
Theorem filter_data_by_levels_idempotent (pd : pandas) (df : dataframe)
    (axis_mode : string) (levels : option (list value)) :
  fst (filter_data_by_levels pd (fst (filter_data_by_levels pd df axis_mode levels))
         axis_mode levels)
  = fst (filter_data_by_levels pd df axis_mode levels).
Proof.
  destruct levels as [levels|]; [|reflexivity].
  unfold filter_data_by_levels.
  destruct (has_column df (axis_field axis_mode)) eqn:Hc; cbn [negb fst].
  - unfold has_column in *. cbn [columns]. rewrite Hc. cbn [negb fst rows].
    rewrite filter_filter. reflexivity.
  - rewrite Hc. reflexivity.
Qed.

Lemma filter_fmap {A B} (f : A -> B) (p : B -> bool) (l : list A) :
  List.filter p (f <$> l) = f <$> List.filter (fun x => p (f x)) l.
Proof.
  induction l as [|x l IH]; cbn; [reflexivity|].
  destruct (p (f x)); cbn; rewrite IH; reflexivity.
Qed.

(** [create_dataset_identifier] as a function of the columns it finds. *)
Lemma create_dataset_identifier_eq (pd : pandas) (df : dataframe) :
  create_dataset_identifier pd df
  = match identifier_columns df with
    | Some (p, o) =>
        if has_column df o then
          Ok {| columns := if has_column df "dataset_id" then columns df
                           else (columns df ++ ["dataset_id"])%list;
                rows := (fun row => <["dataset_id" := dataset_id_of pd p o row]> row)
                          <$> rows df |}
        else Raise KeyError
    | None => Ok df
    end.
Proof.
  unfold create_dataset_identifier, identifier_columns.
  destruct (has_column df "prompt_tokens") eqn:Hp.
  - rewrite (get_column_present _ _ Hp). cbn [mbind result_bind].
    destruct (has_column df "output_tokens") eqn:Ho.
    + rewrite (get_column_present _ _ Ho). cbn [mbind result_bind].
      unfold set_column. rewrite set_dataset_id_rows. reflexivity.
    + rewrite (get_column_missing _ _ Ho). reflexivity.
  - destruct (has_column df "dataset_prompt_tokens") eqn:Hdp; [|reflexivity].
    rewrite (get_column_present _ _ Hdp). cbn [mbind result_bind].
    destruct (has_column df "dataset_output_tokens") eqn:Hdo.
    + rewrite (get_column_present _ _ Hdo). cbn [mbind result_bind].
      unfold set_column. rewrite set_dataset_id_rows. reflexivity.
    + rewrite (get_column_missing _ _ Hdo). reflexivity.
Qed.

(** The table [filter_data_by_levels] returns for a list of levels. *)
Lemma filter_data_by_levels_table (pd : pandas) (df : dataframe)
    (axis_mode : string) (levels : list value) :
  fst (filter_data_by_levels pd df axis_mode (Some levels))
  = if has_column df (axis_field axis_mode) then
      {| columns := columns df;
         rows := List.filter
                   (fun row => isin pd (cell row (axis_field axis_mode)) levels)
                   (rows df) |}
    else df.
Proof.
  unfold filter_data_by_levels.
  destruct (has_column df (axis_field axis_mode)); reflexivity.
Qed.

Lemma axis_field_not_dataset_id (axis_mode : string) :
  axis_field axis_mode <> "dataset_id".
Proof. unfold axis_field. destruct (String.eqb _ _); discriminate. Qed.

Lemma has_column_columns (d df : dataframe) (k : string) :
  columns d = columns df -> has_column d k = has_column df k.
Proof. intros H. unfold has_column. rewrite H. reflexivity. Qed.

Lemma identifier_columns_columns (d df : dataframe) :
  columns d = columns df -> identifier_columns d = identifier_columns df.
Proof.
  intros H. unfold identifier_columns. rewrite !(has_column_columns d df _ H).
  reflexivity.
Qed.

Lemma has_column_with_dataset_id (df : dataframe) (rows' : list dict) (k : string) :
  k <> "dataset_id" ->
  has_column {| columns := if has_column df "dataset_id" then columns df
                           else (columns df ++ ["dataset_id"])%list;
                rows := rows' |} k
  = has_column df k.
Proof.
  intros Hk. unfold has_column at 1. cbn [columns].
  destruct (has_column df "dataset_id"); [reflexivity|].
  unfold has_column. apply bool_decide_ext.
  rewrite elem_of_app, list_elem_of_singleton.
  split; [intros [H|H]; [exact H | congruence] | auto].
Qed.

(** Running the function on its own result: the same outcome. *)
Lemma create_dataset_identifier_twice (pd : pandas) (df : dataframe) :
  create_dataset_identifier pd df ≫= create_dataset_identifier pd
  = create_dataset_identifier pd df.
Proof.
  unfold create_dataset_identifier at 2 3.
  destruct (has_column df "prompt_tokens") eqn:Hp.
  - rewrite (get_column_present _ _ Hp). cbn [mbind result_bind].
    destruct (has_column df "output_tokens") eqn:Ho.
    + rewrite (get_column_present _ _ Ho). cbn [mbind result_bind].
      destruct (set_dataset_id_twice pd df "prompt_tokens" "output_tokens")
        as (Hp1 & Ho1 & Heq); try assumption; try discriminate.
      unfold create_dataset_identifier. rewrite Hp1.
      rewrite (get_column_present _ _ Hp1), (get_column_present _ _ Ho1).
      cbn [mbind result_bind]. rewrite Heq. reflexivity.
    + rewrite (get_column_missing _ _ Ho). reflexivity.
  - destruct (has_column df "dataset_prompt_tokens") eqn:Hdp.
    + rewrite (get_column_present _ _ Hdp). cbn [mbind result_bind].
      destruct (has_column df "dataset_output_tokens") eqn:Hdo.
      * rewrite (get_column_present _ _ Hdo). cbn [mbind result_bind].
        destruct (set_dataset_id_twice pd df "dataset_prompt_tokens"
                    "dataset_output_tokens")
          as (Hp1 & Ho1 & Heq); try assumption; try discriminate.
        unfold create_dataset_identifier.
        rewrite has_column_set_column_other by discriminate. rewrite Hp, Hp1.
        rewrite (get_column_present _ _ Hp1), (get_column_present _ _ Ho1).
        cbn [mbind result_bind]. rewrite Heq. reflexivity.
      * rewrite (get_column_missing _ _ Hdo). reflexivity.
    + cbn [mbind result_bind]. unfold create_dataset_identifier.
      rewrite Hp, Hdp. reflexivity.
Qed.

(** [create_dataset_identifier] in the five configurations of the four
    token columns. *)
Lemma create_dataset_identifier_configurations (pd : pandas) (df : dataframe) :
  (has_column df "prompt_tokens" = true ->
   has_column df "output_tokens" = true ->
   create_dataset_identifier pd df
   = Ok (with_dataset_id pd "prompt_tokens" "output_tokens" df))
  /\ (has_column df "prompt_tokens" = true ->
      has_column df "output_tokens" = false ->
      create_dataset_identifier pd df = Raise KeyError)
  /\ (has_column df "prompt_tokens" = false ->
      has_column df "dataset_prompt_tokens" = true ->
      has_column df "dataset_output_tokens" = true ->
      create_dataset_identifier pd df
      = Ok (with_dataset_id pd "dataset_prompt_tokens" "dataset_output_tokens" df))
  /\ (has_column df "prompt_tokens" = false ->
      has_column df "dataset_prompt_tokens" = true ->
      has_column df "dataset_output_tokens" = false ->
      create_dataset_identifier pd df = Raise KeyError)
  /\ (has_column df "prompt_tokens" = false ->
      has_column df "dataset_prompt_tokens" = false ->
      create_dataset_identifier pd df = Ok df).
Proof.
  rewrite create_dataset_identifier_eq. unfold identifier_columns, with_dataset_id.
  repeat split; intros; repeat match goal with H : has_column _ _ = _ |- _ =>
                                    rewrite H; clear H end; reflexivity.
Qed.

(** C9, as the code has it.  Running [create_dataset_identifier] on its own
    result returns that result again, so the [dataset_id] column is the
    same after two runs as after one.  The function derives the identifier
    from [prompt_tokens] and [output_tokens] when the first is a column,
    else from [dataset_prompt_tokens] and [dataset_output_tokens] when the
    first of these is a column, and returns the table as it is when neither
    is; when the first column of a pair is there and the second is not, it
    raises [KeyError]. *)
Theorem create_dataset_identifier_idempotent (pd : pandas) (df : dataframe) :
  (forall df1,
      create_dataset_identifier pd df = Ok df1 ->
      create_dataset_identifier pd df1 = Ok df1)
  /\ (forall df1 df2,
        create_dataset_identifier pd df = Ok df1 ->
        create_dataset_identifier pd df1 = Ok df2 ->
        get_column df2 "dataset_id" = get_column df1 "dataset_id")
  /\ (has_column df "prompt_tokens" = true ->
      has_column df "output_tokens" = true ->
      create_dataset_identifier pd df
      = Ok (with_dataset_id pd "prompt_tokens" "output_tokens" df))
  /\ (has_column df "prompt_tokens" = true ->
      has_column df "output_tokens" = false ->
      create_dataset_identifier pd df = Raise KeyError)
  /\ (has_column df "prompt_tokens" = false ->
      has_column df "dataset_prompt_tokens" = true ->
      has_column df "dataset_output_tokens" = true ->
      create_dataset_identifier pd df
      = Ok (with_dataset_id pd "dataset_prompt_tokens" "dataset_output_tokens" df))
  /\ (has_column df "prompt_tokens" = false ->
      has_column df "dataset_prompt_tokens" = true ->
      has_column df "dataset_output_tokens" = false ->
      create_dataset_identifier pd df = Raise KeyError)
  /\ (has_column df "prompt_tokens" = false ->
      has_column df "dataset_prompt_tokens" = false ->
      create_dataset_identifier pd df = Ok df).
Proof.
  pose proof (create_dataset_identifier_twice pd df) as Hidem.
  split; [|split; [|exact (create_dataset_identifier_configurations pd df)]].
  - intros df1 H1. rewrite H1 in Hidem. exact Hidem.
  - intros df1 df2 H1 H2. rewrite H1 in Hidem. cbn [mbind result_bind] in Hidem.
    congruence.
Qed.

(** The text of the claim has the table returned as it is in every case
    without both token columns: a table with [prompt_tokens] and without
    [output_tokens] makes the function raise. *)
Lemma create_dataset_identifier_keyerror_counterexample :
  create_dataset_identifier Sample.frames prompt_only_frame = Raise KeyError.
Proof. by_vm. Qed.

(** X6. Deriving the identifier and filtering by levels can be done in
    either order: filtering the table and then deriving [dataset_id] gives
    the table that deriving [dataset_id] and then filtering gives, and the
    one raises exactly when the other does. *)
Theorem create_dataset_identifier_filter_commute (pd : pandas) (df : dataframe)
    (axis_mode : string) (levels : option (list value)) :
  create_dataset_identifier pd (fst (filter_data_by_levels pd df axis_mode levels))
  = (df1 ← create_dataset_identifier pd df;
     Ok (fst (filter_data_by_levels pd df1 axis_mode levels))).
Proof.
  destruct levels as [levels|];
    [|cbn [filter_data_by_levels fst];
      destruct (create_dataset_identifier pd df); reflexivity].
  pose proof (axis_field_not_dataset_id axis_mode) as Hne.
  rewrite filter_data_by_levels_table.
  rewrite (create_dataset_identifier_eq pd df).
  destruct (has_column df (axis_field axis_mode)) eqn:Hf.
  - set (fdf := {| columns := columns df;
                   rows := List.filter
                             (fun row => isin pd (cell row (axis_field axis_mode)) levels)
                             (rows df) |}).
    rewrite create_dataset_identifier_eq.
    rewrite (identifier_columns_columns fdf df eq_refl).
    destruct (identifier_columns df) as [[p o]|]; cbn [mbind result_bind].
    + rewrite (has_column_columns fdf df o eq_refl).
      destruct (has_column df o); [|reflexivity]. cbn [mbind result_bind].
      rewrite filter_data_by_levels_table.
      rewrite has_column_with_dataset_id by exact Hne. rewrite Hf.
      rewrite (has_column_columns fdf df "dataset_id" eq_refl).
      subst fdf. cbn [rows columns]. do 2 f_equal. rewrite filter_fmap. f_equal.
      apply filter_ext. intros row. unfold cell.
      rewrite lookup_insert_ne by congruence. reflexivity.
    + rewrite filter_data_by_levels_table, Hf. reflexivity.
  - rewrite create_dataset_identifier_eq.
    destruct (identifier_columns df) as [[p o]|]; cbn [mbind result_bind].
    + destruct (has_column df o); [|reflexivity]. cbn [mbind result_bind].
      rewrite filter_data_by_levels_table.
      rewrite has_column_with_dataset_id by exact Hne. rewrite Hf. reflexivity.
    + rewrite filter_data_by_levels_table, Hf. reflexivity.
Qed.

Lemma configured_levels_key (rt : runtime) (config : value) (axis_mode : string) :
  configured_levels rt config axis_mode
  = get_levels rt (axis_field axis_mode ++ "_levels") config.
Proof.
  unfold configured_levels, axis_field, get_concurrency_levels, get_rps_levels.
  destruct (String.eqb axis_mode "concurrency"); reflexivity.
Qed.

Lemma filter_data_by_levels_rows (pd : pandas) (df : dataframe)
    (axis_mode : string) (levels : option (list value)) :
  columns (fst (filter_data_by_levels pd df axis_mode levels)) = columns df
  /\ sublist (rows (fst (filter_data_by_levels pd df axis_mode levels))) (rows df).
Proof.
  destruct levels as [levels|]; [|split; reflexivity].
  rewrite filter_data_by_levels_table.
  destruct (has_column df (axis_field axis_mode)); cbn [rows columns];
    split; auto using filter_sublist.
Qed.

(** X7. The enrichment step of [main] filters the column named by the axis
    mode with the levels configured under that same name: for the mode [m]
    it reads the option [m_levels] ([rps_levels] for anything that is not
    "concurrency").  The table it returns has the columns of the table with
    the identifier added, its rows are rows of that table in their order,
    and when the token columns are there every remaining row still has the
    [dataset_id] made of its own two token cells. *)
Theorem enrich_table_consistent (rt : runtime) (pd : pandas) (config : value)
    (axis_mode : string) (df out : dataframe) (log : list diag) :
  enrich_table rt pd config axis_mode df = Ok (out, log) ->
  exists (df1 : dataframe) (levels : option (list value)),
    create_dataset_identifier pd df = Ok df1
    /\ get_levels rt (axis_field axis_mode ++ "_levels") config = Ok levels
    /\ filter_data_by_levels pd df1 axis_mode levels = (out, log)
    /\ columns out = columns df1
    /\ sublist (rows out) (rows df1)
    /\ (forall p o, identifier_columns df = Some (p, o) ->
          has_column out "dataset_id" = true
          /\ Forall (fun row => row !! "dataset_id" = Some (dataset_id_of pd p o row))
               (rows out)).
Proof.
  unfold enrich_table. intros H.
  apply bind_Ok in H as (df1 & Hcreate & H).
  apply bind_Ok in H as (levels & Hlevels & H).
  apply Ok_inj in H. rewrite configured_levels_key in Hlevels.
  exists df1, levels. split; [exact Hcreate|]. split; [exact Hlevels|].
  split; [exact H|].
  destruct (filter_data_by_levels_rows pd df1 axis_mode levels) as [Hcols Hsub].
  rewrite H in Hcols, Hsub. cbn [fst] in Hcols, Hsub.
  split; [exact Hcols|]. split; [exact Hsub|].
  intros p o Hpo.
  destruct (create_dataset_identifier_ids pd df df1 p o Hcreate Hpo)
    as [Hcol Hrows]. split.
  - rewrite (has_column_columns out df1 _ Hcols). exact Hcol.
  - rewrite Forall_forall in Hrows. apply Forall_forall. intros row Hrow.
    apply Hrows. eapply elem_of_sublist; eassumption.
Qed.

Lemma enrich_table_consistent_witness :
  (out ← enrich_table Sample.python Sample.frames
           (obj [("options", obj [("concurrency_levels", VList [VInt 4])])])
           "concurrency" request_frame;
   get_column (fst out) "dataset_id")
    = Ok [VStr "100-50"; VStr "120-60"]
  /\ (forall p o, identifier_columns request_frame = Some (p, o) ->
        Forall (fun row => row !! "dataset_id"
                           = Some (dataset_id_of Sample.frames p o row))
          (rows (fst (filter_data_by_levels Sample.frames
                        (with_dataset_id Sample.frames "prompt_tokens"
                           "output_tokens" request_frame)
                        "concurrency" (Some [VFloat 4]))))).
Proof.
  split; [by_vm|].
  assert (enrich_table Sample.python Sample.frames
            (obj [("options", obj [("concurrency_levels", VList [VInt 4])])])
            "concurrency" request_frame
          = Ok (fst (filter_data_by_levels Sample.frames
                       (with_dataset_id Sample.frames "prompt_tokens"
                          "output_tokens" request_frame)
                       "concurrency" (Some [VFloat 4])), [])) as H by by_vm.
  destruct (enrich_table_consistent Sample.python Sample.frames _ _ _ _ _ H)
    as (df1 & levels & _ & _ & _ & _ & _ & Hids).
  intros p o Hpo. exact (proj2 (Hids p o Hpo)).
Defined.

(** ** The loader *)

Lemma lio_bind_Ok {A B} (m : lio A) (f : A -> lio B) (log : list load_diag) (b : B) :
  m ≫= f = (log, Ok b) ->
  exists l1 a l2, m = (l1, Ok a) /\ f a = (l2, Ok b) /\ log = (l1 ++ l2)%list.
Proof.
  destruct m as [l1 [a|e]]; unfold mbind, lio_bind; simpl.
  - destruct (f a) as [l2 r] eqn:Hf. intros [= <- ->]. eauto 6.
  - intros [= _ ?].
Qed.

Lemma llift_Ok {A} (r : result A) (log : list load_diag) (a : A) :
  llift r = (log, Ok a) -> r = Ok a /\ log = [].
Proof. unfold llift. intros [= <- ->]. auto. Qed.

Lemma lmret_Ok {A} (a b : A) (log : list load_diag) :
  (mret a : lio A) = (log, Ok b) -> a = b /\ log = [].
Proof. unfold mret, lio_ret. intros [= <- <-]. auto. Qed.

Ltac lio_step H x Hx :=
  let l1 := fresh "l" in
  let l2 := fresh "l" in
  apply lio_bind_Ok in H as (l1 & x & l2 & Hx & H & ->);
  apply llift_Ok in Hx as [Hx ->].

Lemma processed_files_app (l1 l2 : list load_diag) :
  processed_files (l1 ++ l2) = (processed_files l1 ++ processed_files l2)%list.
Proof. apply omap_app. Qed.

Lemma processed_files_parsing (log : list diag) :
  processed_files (Parsing <$> log) = [].
Proof. induction log as [|d log IH]; [reflexivity | exact IH]. Qed.

Section LoaderFacts.

Variable rt : runtime.
Variable glob : string -> list string.
Variable parser_func : string -> value -> io (list dict).

(** Every pattern is a string, and the files are the matches of the
    patterns one after the other. *)
Lemma expand_patterns_Ok (patterns : list value) (files : list string) :
  expand_patterns glob patterns = Ok files ->
  exists names : list string,
    patterns = VStr <$> names /\ files = concat (glob <$> names).
Proof.
  revert files. induction patterns as [|p patterns IH]; intros files H.
  - apply Ok_inj in H. subst files. exists []. auto.
  - destruct p; try discriminate H. cbn [expand_patterns] in H.
    apply bind_Ok in H as (rest & Hrest & H). apply Ok_inj in H. subst files.
    destruct (IH _ Hrest) as (names & -> & ->). exists (s :: names). auto.
Qed.

Lemma run_parser_Ok (filepath : string) (extra_metadata : value)
    (log : list load_diag) (rows : list dict) :
  run_parser parser_func filepath extra_metadata = (log, Ok rows) ->
  snd (parser_func filepath extra_metadata) = Ok rows /\ processed_files log = [].
Proof.
  unfold run_parser. destruct (parser_func filepath extra_metadata) as [l r].
  intros [= <- ->]. split; [reflexivity | apply processed_files_parsing].
Qed.

Lemma parse_files_rows (extra_metadata : value) (files : list string)
    (log : list load_diag) (rows : list dict) :
  parse_files parser_func extra_metadata files = (log, Ok rows) ->
  processed_files log = files
  /\ exists per_file : list (list dict),
      Forall2 (fun filepath rows =>
                 snd (parser_func filepath extra_metadata) = Ok rows)
        files per_file
      /\ rows = concat per_file.
Proof.
  revert log rows. induction files as [|f files IH]; intros log rows H.
  - apply lmret_Ok in H as [<- ->]. split; [reflexivity|]. exists []. auto.
  - cbn [parse_files] in H.
    apply lio_bind_Ok in H as (l1 & [] & l2 & Hp & H & ->).
    apply lio_bind_Ok in H as (l3 & here & l4 & Hhere & H & ->).
    apply lio_bind_Ok in H as (l5 & more & l6 & Hmore & H & ->).
    apply lmret_Ok in H as [<- ->].
    injection Hp as <-.
    apply run_parser_Ok in Hhere as [Hhere Hl3].
    apply IH in Hmore as (Hl5 & per_file & Hall & ->).
    rewrite !processed_files_app, Hl3, Hl5. cbn. rewrite app_nil_r.
    split; [reflexivity|].
    exists (here :: per_file). split; [constructor; assumption | reflexivity].
Qed.

(** X8. One group of the configuration: the loader parses the matches of
    the first pattern, then those of the second, and so on, every match
    once per pattern that gives it, so a file matched by two patterns is
    parsed twice; the rows of the group are the rows the parser returned for
    these files, in that order, each call given the group's metadata.  The
    patterns come in the order of the configured list; for patterns written
    as a mapping it is the order in which the mapping holds its keys. *)
Theorem load_group_order (data_group : value) (log : list load_diag)
    (rows : list dict) :
  load_group rt glob parser_func data_group = (log, Ok rows) ->
  exists (extra_metadata file_patterns : value) (names : list string)
         (per_file : list (list dict)),
    py_get data_group "extra_metadata" (VDict ∅) = Ok extra_metadata
    /\ py_get data_group "files" (VList []) = Ok file_patterns
    /\ py_iter rt file_patterns = Ok (VStr <$> names)
    /\ (forall l, file_patterns = VList l -> l = VStr <$> names)
    /\ (forall m, file_patterns = VDict m -> key_order rt m = names)
    /\ processed_files log = concat (glob <$> names)
    /\ Forall2 (fun filepath rows =>
                  snd (parser_func filepath extra_metadata) = Ok rows)
         (concat (glob <$> names)) per_file
    /\ rows = concat per_file.
Proof.
  unfold load_group. intros H.
  lio_step H extra Hextra. lio_step H file_patterns Hfiles.
  lio_step H patterns Hpatterns. lio_step H files Hexpand.
  apply lio_bind_Ok in H as (la & [] & lb & Hp & H & ->).
  injection Hp as <-.
  apply expand_patterns_Ok in Hexpand as (names & -> & ->).
  apply parse_files_rows in H as (Hlog & per_file & Hall & ->).
  exists extra, file_patterns, names, per_file.
  cbn [app processed_files omap].
  split; [assumption|]. split; [assumption|]. split; [assumption|].
  split; [intros l ->; apply Ok_inj in Hpatterns; exact Hpatterns|].
  split; [intros m ->; apply Ok_inj in Hpatterns;
          eapply (list_fmap_eq_inj VStr); [|exact Hpatterns];
          intros x y Hxy; congruence|].
  auto.
Qed.

Lemma load_groups_rows (groups : list value) (log : list load_diag)
    (rows : list dict) :
  load_groups rt glob parser_func groups = (log, Ok rows) ->
  exists (logs : list (list load_diag)) (per_group : list (list dict)),
    Forall2 (fun data_group out => load_group rt glob parser_func data_group = out)
      groups (zip logs (Ok <$> per_group))
    /\ length logs = length groups /\ length per_group = length groups
    /\ log = concat logs /\ rows = concat per_group.
Proof.
  revert log rows. induction groups as [|g groups IH]; intros log rows H.
  - apply lmret_Ok in H as [<- ->]. exists [], []. repeat split. constructor.
  - cbn [load_groups] in H.
    apply lio_bind_Ok in H as (l1 & here & l2 & Hhere & H & ->).
    apply lio_bind_Ok in H as (l3 & more & l4 & Hmore & H & ->).
    apply lmret_Ok in H as [<- ->].
    apply IH in Hmore as (logs & per_group & Hall & Hl1 & Hl2 & -> & ->).
    exists (l1 :: logs), (here :: per_group). cbn.
    rewrite app_nil_r. repeat split; try congruence.
    constructor; assumption.
Qed.

(** X9. The whole configuration: the rows are those of the first group,
    then those of the second, and so on, and so is what was printed; a
    configuration without a [data] key raises [KeyError], and one whose
    [data] is an empty list gives no rows and prints nothing. *)
Theorem load_data_from_config_order (config : dict) :
  (forall log rows,
      load_data_from_config rt glob parser_func (VDict config) = (log, Ok rows) ->
      exists (data : value) (groups : list value) (logs : list (list load_diag))
             (per_group : list (list dict)),
        config !! "data" = Some data /\ py_iter rt data = Ok groups
        /\ Forall2 (fun data_group out =>
                      load_group rt glob parser_func data_group = out)
             groups (zip logs (Ok <$> per_group))
        /\ length logs = length groups /\ length per_group = length groups
        /\ log = concat logs /\ rows = concat per_group)
  /\ (config !! "data" = None ->
      load_data_from_config rt glob parser_func (VDict config) = ([], Raise KeyError))
  /\ (config !! "data" = Some (VList []) ->
      load_data_from_config rt glob parser_func (VDict config) = ([], Ok [])).
Proof.
  split; [|split].
  - intros log rows H. unfold load_data_from_config in H.
    lio_step H data Hdata. lio_step H groups Hgroups.
    apply load_groups_rows in H as (logs & per_group & H).
    exists data, groups, logs, per_group.
    split; [|split; [exact Hgroups | exact H]].
    cbn in Hdata. destruct (config !! "data"); [congruence | discriminate].
  - intros H. unfold load_data_from_config. cbn. rewrite H. reflexivity.
  - intros H. unfold load_data_from_config. cbn. rewrite H. reflexivity.
Qed.

End LoaderFacts.

Lemma load_group_order_witness :
  processed_files (fst (load_group Sample.python sample_glob sample_parser overlapping_group))
    = ["runs/a.json"; "runs/b.json"; "runs/a.json"]
  /\ (fun row : dict => (row !! "filename", row !! "version"))
       <$> loaded_rows (load_group Sample.python sample_glob sample_parser overlapping_group)
     = [(Some (VStr "a.json"), Some (VStr "v1"));
        (Some (VStr "b.json"), Some (VStr "v1"));
        (Some (VStr "a.json"), Some (VStr "v1"))]
  /\ exists (extra_metadata file_patterns : value) (names : list string)
            (per_file : list (list dict)),
    py_get overlapping_group "extra_metadata" (VDict ∅) = Ok extra_metadata
    /\ py_get overlapping_group "files" (VList []) = Ok file_patterns
    /\ py_iter Sample.python file_patterns = Ok (VStr <$> names)
    /\ (forall l, file_patterns = VList l -> l = VStr <$> names)
    /\ (forall m, file_patterns = VDict m -> key_order Sample.python m = names)
    /\ processed_files (fst (load_group Sample.python sample_glob sample_parser overlapping_group))
       = concat (sample_glob <$> names)
    /\ Forall2 (fun filepath rows =>
                  snd (sample_parser filepath extra_metadata) = Ok rows)
         (concat (sample_glob <$> names)) per_file
    /\ loaded_rows (load_group Sample.python sample_glob sample_parser overlapping_group)
       = concat per_file.
Proof.
  split; [by_vm|]. split; [by_vm|].
  apply (load_group_order Sample.python sample_glob sample_parser overlapping_group).
  by_vm.
Defined.

(** ** The shape of the rows *)

Lemma dom_merge_metadata (extra_metadata : option dict) (row : dict) :
  dom (merge_metadata extra_metadata row)
  = dom (default (∅ : dict) extra_metadata) ∪ dom row.
Proof.
  unfold merge_metadata. destruct extra_metadata as [extra|]; cbn.
  - destruct (Nat.eqb (size extra) 0) eqn:Hsize; cbn.
    + apply Nat.eqb_eq, map_size_empty_iff in Hsize. subst extra.
      rewrite dom_empty_L, (left_id_L ∅ (∪)). reflexivity.
    + apply dom_union_L.
  - rewrite dom_empty_L, (left_id_L ∅ (∪)). reflexivity.
Qed.

Lemma summary_row_dom (rt : runtime) (filename filepath : string)
    (extra_metadata : option dict) (config benchmark concurrency rps : value)
    (row : dict) :
  summary_row rt filename filepath extra_metadata config benchmark concurrency rps
    = Ok row ->
  dom row = dom (default (∅ : dict) extra_metadata) ∪ list_to_set summary_keys
  /\ (metadata_free extra_metadata "filename" -> row !! "filename" = Some (VStr filename))
  /\ (metadata_free extra_metadata "filepath" -> row !! "filepath" = Some (VStr filepath)).
Proof.
  intros H. unfold summary_row in H. bind_inv H. apply Ok_inj in H. subst row.
  split; [|split].
  - rewrite dom_merge_metadata, dom_list_to_map_L. reflexivity.
  - intros F. rewrite merge_metadata_free by exact F. by_vm.
  - intros F. rewrite merge_metadata_free by exact F. by_vm.
Qed.

Lemma union_three_last (a b c : string) (keys : list string) :
  {[c]} ∪ ({[b]} ∪ ({[a]} ∪ list_to_set keys))
  = (list_to_set (keys ++ [a; b; c]) : gset string).
Proof.
  rewrite list_to_set_app_L. cbn [list_to_set]. apply set_eq. intros x.
  rewrite !elem_of_union, elem_of_empty. tauto.
Qed.

Lemma request_row_dom (filename filepath : string)
    (extra_metadata : option dict) (concurrency rps : value) (settings : dict)
    (test_start_time request : value) (row : dict) :
  request_row filename filepath extra_metadata concurrency rps settings
    test_start_time request = Ok row ->
  dom row = dom (default (∅ : dict) extra_metadata) ∪ list_to_set request_keys
  /\ (metadata_free extra_metadata "filename" -> row !! "filename" = Some (VStr filename))
  /\ (metadata_free extra_metadata "filepath" -> row !! "filepath" = Some (VStr filepath)).
Proof.
  intros H. unfold request_row in H.
  destruct request as [| | | | | | |r]; try discriminate H.
  cbn [py_get mbind result_bind] in H.
  apply bind_Ok in H as ([[first_rel start_rel] end_rel] & _ & H).
  apply Ok_inj in H. subst row. split; [|split].
  - rewrite dom_merge_metadata, !dom_insert_L, dom_list_to_map_L.
    cbn [fmap list_fmap fst]. rewrite union_three_last. reflexivity.
  - intros F. rewrite merge_metadata_free by exact F.
    rewrite !lookup_insert_ne by discriminate. by_vm.
  - intros F. rewrite merge_metadata_free by exact F.
    rewrite !lookup_insert_ne by discriminate. by_vm.
Qed.

Lemma rows_of_Forall {P : dict -> Prop} (out : io (list dict)) :
  (forall log rows, out = (log, Ok rows) -> Forall P rows) ->
  Forall P (rows_of out).
Proof.
  intros H. destruct out as [log [rows|e]]; unfold rows_of; cbn.
  - eapply H. reflexivity.
  - constructor.
Qed.

Lemma summary_rows_from_row (rt : runtime) (file : option value)
    (filepath : string) (extra_metadata : option dict) (P : dict -> Prop) :
  (forall config benchmark concurrency rps row,
      summary_row rt (basename filepath) filepath extra_metadata config
        benchmark concurrency rps = Ok row -> P row) ->
  Forall P (rows_of (parse_benchmark_metrics rt file filepath extra_metadata)).
Proof.
  intros HP. apply rows_of_Forall.
  apply parse_benchmark_metrics_rows. intros benchmark log row H.
  apply summary_entry_row in H
    as (config & strategy & profile & c & r & _ & _ & _ & H).
  eapply HP, H.
Qed.

Lemma request_rows_from_row (rt : runtime) (file : option value)
    (filepath : string) (extra_metadata : option dict) (P : dict -> Prop) :
  (forall concurrency rps settings test_start_time request row,
      request_row (basename filepath) filepath extra_metadata concurrency rps
        settings test_start_time request = Ok row -> P row) ->
  Forall P (rows_of (parse_individual_requests rt file filepath extra_metadata)).
Proof.
  intros HP. apply rows_of_Forall.
  apply parse_individual_requests_rows. intros benchmark log rows H.
  apply requests_entry_rows in H as [->|H]; [constructor|].
  destruct H as (config & strategy & profile & c & r & tst & settings & requests
                 & _ & _ & _ & _ & _ & H).
  induction H as [|q row qs rows Hrow _ IH]; constructor; [|exact IH].
  eapply HP, Hrow.
Qed.

(** X10. Every row of a summary extraction has the same keys: the 25 of
    the row literal together with the keys of the caller's metadata; and
    every row of a per-request extraction has the 20 keys of its literal
    together with the keys of the metadata.  No field is ever left out,
    whatever the document lacks. *)
Theorem emitted_rows_schema (rt : runtime) (file : option value)
    (filepath : string) (extra_metadata : option dict) :
  Forall (fun row : dict =>
            dom row = dom (default (∅ : dict) extra_metadata)
                      ∪ list_to_set summary_keys)
    (rows_of (parse_benchmark_metrics rt file filepath extra_metadata))
  /\ Forall (fun row : dict =>
               dom row = dom (default (∅ : dict) extra_metadata)
                         ∪ list_to_set request_keys)
       (rows_of (parse_individual_requests rt file filepath extra_metadata)).
Proof.
  split.
  - apply summary_rows_from_row. intros config benchmark c r row H.
    apply summary_row_dom in H. apply H.
  - apply request_rows_from_row. intros c r settings tst request row H.
    apply request_row_dom in H. apply H.
Qed.

Lemma merge_metadata_bound (extra : dict) (row : dict) (k : string) (v : value) :
  extra !! k = Some v ->
  merge_metadata (Some extra) row !! k = Some v.
Proof.
  intros Hk. unfold merge_metadata.
  destruct (Nat.eqb (size extra) 0) eqn:Hsize; cbn.
  - apply Nat.eqb_eq, map_size_empty_iff in Hsize. subst extra.
    rewrite lookup_empty in Hk. discriminate Hk.
  - apply lookup_union_Some_l, Hk.
Qed.

(** X11. A key of the caller's metadata holds the metadata's value in
    every emitted row of both extractions, also where the extraction
    computes a field of that name ([filename], [concurrency], ...): the
    update comes last. *)
Theorem metadata_overrides_fields (rt : runtime) (file : option value)
    (filepath : string) (extra : dict) (k : string) (v : value)
    (Hk : extra !! k = Some v) :
  Forall (fun row : dict => row !! k = Some v)
    (rows_of (parse_benchmark_metrics rt file filepath (Some extra)))
  /\ Forall (fun row : dict => row !! k = Some v)
       (rows_of (parse_individual_requests rt file filepath (Some extra))).
Proof.
  split.
  - apply summary_rows_from_row. intros config benchmark c r row H.
    unfold summary_row in H. bind_inv H. apply Ok_inj in H. subst row.
    apply merge_metadata_bound, Hk.
  - apply request_rows_from_row. intros c r settings tst request row H.
    unfold request_row in H.
    destruct request as [| | | | | | |q]; try discriminate H.
    cbn [py_get mbind result_bind] in H.
    apply bind_Ok in H as ([[first_rel start_rel] end_rel] & _ & H).
    apply Ok_inj in H. subst row.
    apply merge_metadata_bound, Hk.
Qed.

Lemma metadata_overrides_fields_witness :
  (fun row : dict => row !! "concurrency")
    <$> rows_of (parse_benchmark_metrics Sample.python one_run_file "runs/a.json"
                   (Some {["concurrency" := VStr "n/a"]}))
  = [Some (VStr "n/a")]
  /\ Forall (fun row : dict => row !! "concurrency" = Some (VStr "n/a"))
       (rows_of (parse_benchmark_metrics Sample.python one_run_file "runs/a.json"
                   (Some {["concurrency" := VStr "n/a"]})))
  /\ Forall (fun row : dict => row !! "concurrency" = Some (VStr "n/a"))
       (rows_of (parse_individual_requests Sample.python one_run_file "runs/a.json"
                   (Some {["concurrency" := VStr "n/a"]}))).
Proof.
  split; [by_vm|].
  apply (metadata_overrides_fields Sample.python one_run_file "runs/a.json"
           {["concurrency" := VStr "n/a"]} "concurrency" (VStr "n/a")).
  by_vm.
Defined.

(** ** The file a row came from *)

Lemma split_char_nonempty (c : ascii) (s : string) : split_char c s <> [].
Proof.
  destruct s as [|a s]; cbn; [discriminate|].
  destruct (Ascii.eqb a c); [discriminate|].
  destruct (split_char c s); discriminate.
Qed.

Lemma last_split_char_cons (c a : ascii) (s d : string) :
  Ascii.eqb a c = false ->
  List.last (split_char c (String a s)) d
  = match split_char c s with
    | [_] => String a (List.last (split_char c s) d)
    | _ => List.last (split_char c s) d
    end.
Proof.
  intros Ha. cbn [split_char]. rewrite Ha.
  pose proof (split_char_nonempty c s) as Hne.
  destruct (split_char c s) as [|h [|h' t]]; [congruence|reflexivity|reflexivity].
Qed.

Lemma split_char_slash_free (c : ascii) (s : string) :
  contains_char c s = false -> split_char c s = [s].
Proof.
  induction s as [|a s IH]; cbn; [reflexivity|].
  intros H. apply orb_false_iff in H as [Ha Hs].
  rewrite Ha, (IH Hs). reflexivity.
Qed.

Lemma split_char_after (c : ascii) (dir name : string) :
  exists before, split_char c (dir ++ String c name)%string
                 = (before ++ split_char c name)%list /\ before <> [].
Proof.
  induction dir as [|a dir (before & IH & Hne)]; simpl.
  - rewrite Ascii.eqb_refl. exists [EmptyString]. split; [reflexivity|discriminate].
  - destruct (Ascii.eqb a c).
    + exists (EmptyString :: before). split; [rewrite IH; reflexivity|discriminate].
    + rewrite IH. destruct before as [|h t]; [congruence|].
      exists (String a h :: t). split; [reflexivity|discriminate].
Qed.

(** [os.path.basename] returns the text after the last separator. *)
Lemma basename_join (dir name : string) :
  contains_char "/" name = false ->
  basename (dir ++ String "/" name) = name /\ basename name = name.
Proof.
  intros Hname. unfold basename. split.
  - destruct (split_char_after "/" dir name) as (before & -> & Hne).
    rewrite (split_char_slash_free _ _ Hname).
    rewrite List.last_last. reflexivity.
  - rewrite (split_char_slash_free _ _ Hname). reflexivity.
Qed.

(** X12. Unless the caller's metadata binds these keys, every row of both
    extractions names the file it came from: [filepath] is the path as
    given and [filename] the text after its last ['/']. *)
Theorem emitted_rows_name_their_file (rt : runtime) (file : option value)
    (dir name : string) (extra_metadata : option dict)
    (Hname : contains_char "/" name = false)
    (Hfree : metadata_free extra_metadata "filename"
             /\ metadata_free extra_metadata "filepath") :
  let filepath := (dir ++ String "/" name)%string in
  let named (row : dict) :=
    row !! "filename" = Some (VStr name)
    /\ row !! "filepath" = Some (VStr filepath) in
  Forall named (rows_of (parse_benchmark_metrics rt file filepath extra_metadata))
  /\ Forall named (rows_of (parse_individual_requests rt file filepath extra_metadata)).
Proof.
  intros filepath named. destruct Hfree as [Hfn Hfp].
  pose proof (proj1 (basename_join dir name Hname)) as Hbase.
  fold filepath in Hbase. split.
  - apply summary_rows_from_row. intros config benchmark c r row H.
    apply summary_row_dom in H as (_ & H1 & H2).
    rewrite Hbase in H1. split; auto.
  - apply request_rows_from_row. intros c r settings tst request row H.
    apply request_row_dom in H as (_ & H1 & H2).
    rewrite Hbase in H1. split; auto.
Qed.

Lemma emitted_rows_name_their_file_witness :
  (fun row : dict => (row !! "filename", row !! "filepath"))
    <$> rows_of (parse_individual_requests Sample.python one_run_file
                   "results/run1/a.json" None)
  = [(Some (VStr "a.json"), Some (VStr "results/run1/a.json"))]
  /\ Forall (fun row : dict =>
               row !! "filename" = Some (VStr "a.json")
               /\ row !! "filepath" = Some (VStr "results/run1/a.json"))
       (rows_of (parse_benchmark_metrics Sample.python one_run_file
                   "results/run1/a.json" None))
  /\ Forall (fun row : dict =>
               row !! "filename" = Some (VStr "a.json")
               /\ row !! "filepath" = Some (VStr "results/run1/a.json"))
       (rows_of (parse_individual_requests Sample.python one_run_file
                   "results/run1/a.json" None)).
Proof.
  split; [by_vm|].
  apply (emitted_rows_name_their_file Sample.python one_run_file
           "results/run1" "a.json" None); [reflexivity|].
  split; reflexivity.
Defined.

(** ** Rows and messages *)

Lemma summary_entry_log (rt : runtime) (filename filepath : string)
    (extra_metadata : option dict) (benchmark : value) (log : list diag)
    (row : option dict) :
  summary_entry rt filename filepath extra_metadata benchmark = (log, Ok row) ->
  match row with
  | Some _ => log = []
  | None => log = [NoAxisFound filepath]
  end.
Proof.
  unfold summary_entry. intros H.
  io_step H x Hx. destruct x as [[config strategy] profile].
  io_step H y Hy. destruct y as [concurrency rps].
  destruct (is_none concurrency && is_none rps).
  - apply io_bind_Ok in H as (la & u & lb & Hp & H & ->).
    apply print_Ok in Hp. apply mret_Ok in H as [<- ->]. subst la. reflexivity.
  - io_step H z Hz. apply mret_Ok in H as [<- ->]. reflexivity.
Qed.

Lemma summary_loop_count (rt : runtime) (filename filepath : string)
    (extra_metadata : option dict) (benchmarks : list value) :
  forall log rows,
    summary_loop rt filename filepath extra_metadata benchmarks = (log, Ok rows) ->
    (length rows + length log = length benchmarks)%nat
    /\ Forall (eq (NoAxisFound filepath)) log.
Proof.
  induction benchmarks as [|b bs IH]; intros log rows H.
  - apply mret_Ok in H as [<- ->]. split; [reflexivity|constructor].
  - cbn [summary_loop] in H.
    apply io_bind_Ok in H as (l1 & row & l2 & Hrow & H & ->).
    apply io_bind_Ok in H as (l3 & rest & l4 & Hrest & H & ->).
    apply mret_Ok in H as [<- ->].
    destruct (IH _ _ Hrest) as [Hlen Hall].
    apply summary_entry_log in Hrow. rewrite app_nil_r.
    destruct row as [row|]; subst l1; cbn [length app].
    + split; [lia|exact Hall].
    + split; [lia|]. constructor; [reflexivity|exact Hall].
Qed.

(** X13. What a summary extraction that returns has printed: for an
    unreadable file the error message and no row; for a document without
    (or with an empty) [benchmarks] the message for that and no row; else
    one row for each entry of [benchmarks] but those passed over, and one
    warning for each entry passed over, nothing else. *)
Theorem parse_benchmark_metrics_outcomes (rt : runtime) (file : option value)
    (filepath : string) (extra_metadata : option dict) (log : list diag)
    (rows : list dict)
    (H : parse_benchmark_metrics rt file filepath extra_metadata = (log, Ok rows)) :
  match file with
  | None => log = [ErrorReading filepath] /\ rows = []
  | Some data =>
      exists benchmarks,
        py_get data "benchmarks" (VList []) = Ok benchmarks
        /\ if truthy benchmarks then
             exists items,
               py_iter rt benchmarks = Ok items
               /\ (length rows + length log = length items)%nat
               /\ Forall (eq (NoAxisFound filepath)) log
           else log = [NoBenchmarks filepath] /\ rows = []
  end.
Proof.
  unfold parse_benchmark_metrics in H. destruct file as [data|].
  - io_step H benchmarks Hb. exists benchmarks. split; [exact Hb|].
    destruct (truthy benchmarks); cbn [negb] in H.
    + io_step H items Hitems. exists items. split; [exact Hitems|].
      eapply summary_loop_count, H.
    + apply io_bind_Ok in H as (la & u & lb & Hp & H & ->).
      apply print_Ok in Hp. apply mret_Ok in H as [<- ->]. subst la. auto.
  - apply io_bind_Ok in H as (la & u & lb & Hp & H & ->).
    apply print_Ok in Hp. apply mret_Ok in H as [<- ->]. subst la. auto.
Qed.

Lemma parse_benchmark_metrics_outcomes_witness :
  log_of (parse_benchmark_metrics Sample.python mixed_file "a.json" None)
    = [NoAxisFound "a.json"]
  /\ length (rows_of (parse_benchmark_metrics Sample.python mixed_file "a.json" None))
     = 2%nat
  /\ exists benchmarks,
       py_get (obj [("benchmarks",
                     VList [constant_rate_entry; axisless_entry; VDict bare_entry])])
         "benchmarks" (VList []) = Ok benchmarks
       /\ if truthy benchmarks then
            exists items,
              py_iter Sample.python benchmarks = Ok items
              /\ (length (rows_of (parse_benchmark_metrics Sample.python mixed_file
                                     "a.json" None))
                  + length (log_of (parse_benchmark_metrics Sample.python mixed_file
                                      "a.json" None))
                  = length items)%nat
              /\ Forall (eq (NoAxisFound "a.json"))
                   (log_of (parse_benchmark_metrics Sample.python mixed_file
                              "a.json" None))
          else log_of (parse_benchmark_metrics Sample.python mixed_file "a.json" None)
               = [NoBenchmarks "a.json"]
               /\ rows_of (parse_benchmark_metrics Sample.python mixed_file
                             "a.json" None) = [].
Proof.
  split; [by_vm|]. split; [by_vm|].
  apply (parse_benchmark_metrics_outcomes Sample.python mixed_file "a.json" None
           (log_of (parse_benchmark_metrics Sample.python mixed_file "a.json" None))
           (rows_of (parse_benchmark_metrics Sample.python mixed_file "a.json" None))).
  by_vm.
Defined.

Lemma announced_app (l1 l2 : list diag) :
  announced (l1 ++ l2) = (announced l1 + announced l2)%nat.
Proof.
  induction l1 as [|d l1 IH]; [reflexivity|].
  destruct d; cbn [announced app]; rewrite IH; lia.
Qed.

Lemma py_len_iter (rt : runtime) (v : value) (n : nat) (items : list value) :
  py_len v = Ok n -> py_iter rt v = Ok items -> length items = n.
Proof.
  destruct v as [| | | |s|l|l|m]; cbn; try discriminate;
    intros Hn Hi; apply Ok_inj in Hn; apply Ok_inj in Hi; subst n items;
    try reflexivity.
  - rewrite length_fmap. induction s as [|a s IH]; cbn; [reflexivity|].
    rewrite IH. reflexivity.
  - rewrite length_fmap. apply key_order_length.
Qed.

Lemma requests_entry_count (rt : runtime) (filename filepath : string)
    (extra_metadata : option dict) (benchmark : value) (log : list diag)
    (rows : list dict) :
  requests_entry rt filename filepath extra_metadata benchmark = (log, Ok rows) ->
  (log = [NoAxisFound filepath] /\ rows = [])
  \/ (log = [NoSuccessfulRequests filepath] /\ rows = [])
  \/ exists label, log = [FoundRequests (length rows) filename label] /\ rows <> [].
Proof.
  unfold requests_entry. intros H.
  io_step H tst Htst.
  io_step H x Hx. destruct x as [[config strategy] profile].
  io_step H y Hy. destruct y as [concurrency rps].
  destruct (is_none concurrency && is_none rps).
  { apply io_bind_Ok in H as (la & u & lb & Hp & H & ->).
    apply print_Ok in Hp. apply mret_Ok in H as [<- ->]. subst la. auto. }
  io_step H settings Hsettings.
  io_step H requests Hrequests.
  io_step H successful Hsuccessful.
  destruct (truthy successful) eqn:Ht; cbn [negb] in H.
  2:{ apply io_bind_Ok in H as (la & u & lb & Hp & H & ->).
      apply print_Ok in Hp. apply mret_Ok in H as [<- ->]. subst la. auto. }
  io_step H label Hlabel.
  io_step H n Hn.
  apply io_bind_Ok in H as (la & u & lb & Hp & H & ->).
  apply print_Ok in Hp. subst la.
  io_step H items Hitems.
  apply lift_Ok in H as [H ->].
  apply request_loop_rows, Forall2_length in H.
  pose proof (py_len_iter _ _ _ _ Hn Hitems) as Hlen.
  pose proof (truthy_iter_nonempty _ _ _ Ht Hitems) as Hne.
  right. right. exists label. cbn [app]. split.
  - rewrite <- H, Hlen. reflexivity.
  - destruct rows; [|discriminate]. destruct items; [congruence|discriminate H].
Qed.

Lemma requests_outer_loop_count (rt : runtime) (filepath : string)
    (extra_metadata : option dict) (benchmarks : list value) :
  forall log rows,
    requests_outer_loop rt (basename filepath) filepath extra_metadata benchmarks
      = (log, Ok rows) ->
    length rows = announced log /\ Forall (request_message filepath) log.
Proof.
  induction benchmarks as [|b bs IH]; intros log rows H.
  - apply mret_Ok in H as [<- ->]. split; [reflexivity|constructor].
  - cbn [requests_outer_loop] in H.
    apply io_bind_Ok in H as (l1 & here & l2 & Hhere & H & ->).
    apply io_bind_Ok in H as (l3 & rest & l4 & Hrest & H & ->).
    apply mret_Ok in H as [<- ->].
    destruct (IH _ _ Hrest) as [Hlen Hall].
    rewrite app_nil_r, length_app, announced_app, Hlen.
    apply requests_entry_count in Hhere
      as [[-> ->]|[[-> ->]|(label & -> & Hne)]]; cbn [announced length app].
    + split; [lia|]. constructor; [reflexivity|exact Hall].
    + split; [lia|]. constructor; [reflexivity|exact Hall].
    + split; [lia|]. constructor; [|exact Hall].
      split; [|reflexivity]. destruct here; [congruence|discriminate].
Qed.

(** X14. A per-request extraction that returns has returned as many rows
    as its progress messages announce ([Found n successful requests ...]),
    every such message counts at least one request, and it has printed
    nothing but its five kinds of message about this very file. *)
Theorem parse_individual_requests_count (rt : runtime) (file : option value)
    (filepath : string) (extra_metadata : option dict) (log : list diag)
    (rows : list dict)
    (H : parse_individual_requests rt file filepath extra_metadata = (log, Ok rows)) :
  length rows = announced log /\ Forall (request_message filepath) log.
Proof.
  unfold parse_individual_requests in H. destruct file as [data|].
  - io_step H benchmarks Hb.
    destruct (truthy benchmarks); cbn [negb] in H.
    + io_step H items Hitems. cbn [app]. eapply requests_outer_loop_count, H.
    + apply io_bind_Ok in H as (la & u & lb & Hp & H & ->).
      apply print_Ok in Hp. apply mret_Ok in H as [<- ->]. subst la.
      split; [reflexivity|]. repeat constructor.
  - apply io_bind_Ok in H as (la & u & lb & Hp & H & ->).
    apply print_Ok in Hp. apply mret_Ok in H as [<- ->]. subst la.
    split; [reflexivity|]. repeat constructor.
Qed.

Lemma parse_individual_requests_count_witness :
  log_of (parse_individual_requests Sample.python mixed_file "runs/a.json" None)
    = [FoundRequests 1 "a.json" "c4"; NoAxisFound "runs/a.json";
       FoundRequests 1 "a.json" "c4"]
  /\ length (rows_of (parse_individual_requests Sample.python mixed_file
                        "runs/a.json" None))
     = announced (log_of (parse_individual_requests Sample.python mixed_file
                            "runs/a.json" None))
  /\ Forall (request_message "runs/a.json")
       (log_of (parse_individual_requests Sample.python mixed_file
                  "runs/a.json" None)).
Proof.
  split; [by_vm|].
  apply (parse_individual_requests_count Sample.python mixed_file "runs/a.json" None).
  by_vm.
Defined.

(** ** The axis pair *)

(** X15. The pair [(concurrency, rps)] both extractors compute, when the
    computation does not raise: [strategy] and [profile] are mappings;
    [concurrency] is [max_concurrency], or [streams] when that one is
    absent or null; [rps] is null or a float, and it is a float only if
    the strategy type reads [constant], where a [type_] key of the
    strategy, even a null one, hides the profile's [strategy_type]. *)
Theorem resolve_axis_values (rt : runtime) (strategy profile c r : value)
    (H : resolve_axis rt strategy profile = Ok (c, r)) :
  exists s p : dict,
    strategy = VDict s /\ profile = VDict p
    /\ c = (if is_none (dget s "max_concurrency" VNone)
            then dget s "streams" VNone
            else dget s "max_concurrency" VNone)
    /\ (r = VNone \/ exists f, r = VFloat f)
    /\ (r <> VNone ->
        py_eq_str (default (dget p "strategy_type" VNone) (s !! "type_")) "constant"
        = true).
Proof.
  unfold resolve_axis in H.
  apply bind_Ok in H as (m & Hm & H).
  apply py_get_dict in Hm as (s & -> & ->).
  apply bind_Ok in H as (c' & Hc & H).
  apply bind_Ok in H as (pt & Hpt & H).
  apply py_get_dict in Hpt as (p & -> & ->).
  apply bind_Ok in H as (st & Hst & H).
  apply py_get_dict in Hst as (s' & [= <-] & ->).
  apply bind_Ok in H as (r' & Hr & H).
  apply Ok_inj in H. injection H as -> ->.
  exists s, p. split; [reflexivity|]. split; [reflexivity|]. split; [|split].
  - unfold dget. destruct (is_none (default VNone (s !! "max_concurrency"))).
    + apply py_get_dict in Hc as (s' & [= <-] & ->). reflexivity.
    + apply Ok_inj in Hc. congruence.
  - destruct (py_eq_str _ "constant").
    + apply bind_Ok in Hr as (rate & _ & Hr).
      apply bind_Ok in Hr as (rate' & _ & Hr).
      destruct (is_none rate').
      * apply Ok_inj in Hr. auto.
      * apply bind_Ok in Hr as (f & _ & Hr). apply Ok_inj in Hr. eauto.
    + apply Ok_inj in Hr. auto.
  - intros Hne. unfold dget. destruct (py_eq_str _ "constant"); [reflexivity|].
    apply Ok_inj in Hr. congruence.
Qed.

Lemma resolve_axis_values_witness :
  resolve_axis Sample.python
    (obj [("type_", VNone); ("rate", VInt 2); ("streams", VInt 8)])
    (obj [("strategy_type", VStr "constant")])
  = Ok (VInt 8, VNone)
  /\ exists s p : dict,
    obj [("type_", VNone); ("rate", VInt 2); ("streams", VInt 8)] = VDict s
    /\ obj [("strategy_type", VStr "constant")] = VDict p
    /\ VInt 8 = (if is_none (dget s "max_concurrency" VNone)
                 then dget s "streams" VNone
                 else dget s "max_concurrency" VNone)
    /\ (VNone = VNone \/ exists f, VNone = VFloat f)
    /\ (VNone <> VNone ->
        py_eq_str (default (dget p "strategy_type" VNone) (s !! "type_")) "constant"
        = true).
Proof.
  split; [by_vm|].
  apply (resolve_axis_values Sample.python
           (obj [("type_", VNone); ("rate", VInt 2); ("streams", VInt 8)])
           (obj [("strategy_type", VStr "constant")]) (VInt 8) VNone).
  by_vm.
Defined.

(** ** The dataset record *)

Lemma try_except_Ok {A} (m : result A) (classes : list exn) (handler : result A)
    (a : A) :
  try_except m classes handler = Ok a -> m = Ok a \/ handler = Ok a.
Proof.
  unfold try_except. destruct m as [x|e]; [auto|].
  destruct (existsb _ _); [auto|discriminate].
Qed.

(** X16. Whatever [extract_dataset_settings] returns is the empty mapping
    or a record of exactly the five dataset keys: no branch returns a
    partial record, and the keys written inside the [data] text never
    become keys of the result. *)
Theorem extract_dataset_settings_shape (rt : runtime) (request_loader : value)
    (settings : dict)
    (H : extract_dataset_settings rt request_loader = Ok settings) :
  settings = ∅ \/ dom settings = list_to_set settings_keys.
Proof.
  unfold extract_dataset_settings in H.
  destruct (is_none request_loader).
  { apply Ok_inj in H. subst settings. right.
    unfold default_settings. rewrite dom_list_to_map_L. reflexivity. }
  apply bind_Ok in H as (data_str & _ & H).
  destruct (negb (truthy data_str)).
  { apply Ok_inj in H. auto. }
  apply bind_Ok in H as (early & Hearly & H).
  destruct early as [found|].
  - apply Ok_inj in H. subst found. right.
    destruct data_str as [| | | |s| | |]; try discriminate Hearly.
    destruct (is_stringified_list (VStr s)); [|discriminate Hearly].
    apply try_except_Ok in Hearly as [Hearly|Hearly]; [|discriminate Hearly].
    unfold stringified_list_settings in Hearly.
    apply bind_Ok in Hearly as (data_list & _ & Hearly).
    destruct data_list as [| | | | |[|first rest]| |]; try discriminate Hearly.
    bind_inv Hearly. apply Ok_inj in Hearly. injection Hearly as <-.
    rewrite !dom_insert_L, dom_empty_L. by_vm.
  - apply try_except_Ok in H as [H|H].
    + right. unfold json_settings in H. bind_inv H.
      apply Ok_inj in H. subst settings.
      rewrite dom_list_to_map_L. reflexivity.
    + apply Ok_inj in H. auto.
Qed.

Lemma extract_dataset_settings_shape_witness :
  (fun k => row_of (extract_dataset_settings Sample.python
                      (obj [("data", VStr "['prompt_tokens=512,seed=7']")])) !! k)
    <$> ["prompt_tokens"; "output_tokens"; "seed"]
  = [Some (VInt 512); Some (VInt 0); None]
  /\ (row_of (extract_dataset_settings Sample.python
                (obj [("data", VStr "['prompt_tokens=512,seed=7']")])) = ∅
      \/ dom (row_of (extract_dataset_settings Sample.python
                        (obj [("data", VStr "['prompt_tokens=512,seed=7']")])))
         = list_to_set settings_keys).
Proof.
  split; [by_vm|].
  apply (extract_dataset_settings_shape Sample.python
           (obj [("data", VStr "['prompt_tokens=512,seed=7']")])).
  by_vm.
Defined.

Lemma py_int_raises (rt : runtime) (s : string) (e : exn) :
  py_int rt s = Raise e -> e = ValueError.
Proof.
  unfold py_int. destruct (all_chars is_ascii_digit s); [|congruence].
  destruct (_ && _); [congruence|discriminate].
Qed.

Lemma parse_items_raises (rt : runtime) (items : list string) :
  forall settings e, parse_items rt items settings = Raise e -> e = ValueError.
Proof.
  induction items as [|item rest IH]; intros settings e H; [discriminate H|].
  cbn [parse_items] in H.
  destruct (split_first "=" item) as [[key val]|]; [|eapply IH, H].
  destruct (isdigit val).
  - destruct (py_int rt val) as [z|e'] eqn:Hz.
    + cbn [mbind result_bind] in H. eapply IH, H.
    + cbn [mbind result_bind] in H. injection H as <-.
      eapply py_int_raises, Hz.
  - cbn [mbind result_bind] in H. eapply IH, H.
Qed.

Lemma parse_items_refused (rt : runtime) (before after : list string)
    (item key val : string) :
  split_first "=" item = Some (key, val) ->
  isdigit val = true ->
  py_int rt val = Raise ValueError ->
  forall settings,
    parse_items rt (before ++ item :: after) settings = Raise ValueError.
Proof.
  intros Hsplit Hdigit Hint. induction before as [|b before IH]; intros settings.
  - cbn [app parse_items]. rewrite Hsplit, Hdigit, Hint. reflexivity.
  - cbn [app parse_items].
    destruct (split_first "=" b) as [[k v]|]; [|apply IH].
    destruct (isdigit v).
    + destruct (py_int rt v) as [z|e] eqn:Hz; cbn [mbind result_bind].
      * apply IH.
      * apply py_int_raises in Hz. subst e. reflexivity.
    + cbn [mbind result_bind]. apply IH.
Qed.

(** X17. A stringified list with one value that [str.isdigit] accepts and
    [int] refuses (a superscript digit, or more digits than the conversion
    limit), wherever it stands among the items and whatever its key: the
    [ValueError] is swallowed, the text is handed to [json.loads], and
    when that one rejects it the result is the empty mapping; the other
    items of the list are lost with it. *)
Theorem extract_dataset_settings_refused_digits (rt : runtime) (loader : dict)
    (s first : string) (more : list value) (before after : list string)
    (item key val : string)
    (Hdata : loader !! "data" = Some (VStr s))
    (Hshape : is_stringified_list (VStr s) = true)
    (Hliteral : literal_eval rt s = Ok (VList (VStr first :: more)))
    (Hitems : split_char "," first = (before ++ item :: after)%list)
    (Hitem : split_first "=" item = Some (key, val))
    (Hdigit : isdigit val = true)
    (Hint : py_int rt val = Raise ValueError)
    (Hjson : json_loads rt s = Raise JSONDecodeError) :
  extract_dataset_settings rt (VDict loader) = Ok ∅.
Proof.
  unfold extract_dataset_settings. cbn [is_none].
  rewrite (py_get_Some _ _ _ _ Hdata). cbn [mbind result_bind].
  assert (truthy (VStr s) = true) as ->.
  { cbn. destruct s; [discriminate Hshape|reflexivity]. }
  cbn [negb]. rewrite Hshape.
  unfold stringified_list_settings. rewrite Hliteral.
  cbn [mbind result_bind]. rewrite Hitems.
  rewrite (parse_items_refused rt before after item key val Hitem Hdigit Hint).
  cbn [mbind result_bind try_except existsb exn_isinstance orb].
  unfold json_settings. rewrite Hjson. reflexivity.
Qed.

Lemma extract_dataset_settings_refused_digits_witness :
  extract_dataset_settings Sample.python (VDict superscript_loader) = Ok ∅.
Proof.
  apply (extract_dataset_settings_refused_digits Sample.python superscript_loader
           ("['output_tokens=256,prompt_tokens=" ++ String (ascii_of_N 178) "']")
           ("output_tokens=256,prompt_tokens=" ++ String (ascii_of_N 178) "") []
           ["output_tokens=256"] []
           ("prompt_tokens=" ++ String (ascii_of_N 178) "")
           "prompt_tokens" (String (ascii_of_N 178) "")).
  - reflexivity.
  - reflexivity.
  - by_vm.
  - reflexivity.
  - reflexivity.
  - reflexivity.
  - reflexivity.
  - by_vm.
Defined.

(** ** Entries that make an extraction raise *)

Lemma int_of_float_raises (f : float) (e : exn) :
  int_of_float f = Raise e -> e = OverflowError \/ e = ValueError.
Proof.
  unfold int_of_float. destruct (Prim2SF f); intros [= <-]; auto.
Qed.

(** X18. A run at a constant rate without a concurrency bound, whose rate
    is infinite or not a number, and that has successful requests: the
    summary extraction handles the entry as any other, the per-request
    extraction raises on it ([OverflowError] for an infinity, [ValueError]
    for a NaN), before any message about the entry and before any row:
    the label of the progress message takes [int(rps)]. *)
Theorem requests_entry_unbounded_rate (rt : runtime) (filename filepath : string)
    (extra_metadata : option dict) (benchmark config profile : value)
    (strategy : dict) (f : float) (e : exn)
    (test_start_time requests successful : value) (settings : dict)
    (Hstart : run_start_time benchmark = Ok test_start_time)
    (Hstrategy : resolve_strategy benchmark = Ok (config, VDict strategy, profile))
    (Hprofile : exists p : dict, profile = VDict p)
    (Hconcurrency : dget strategy "max_concurrency" VNone = VNone
                    /\ dget strategy "streams" VNone = VNone)
    (Htype : strategy !! "type_" = Some (VStr "constant"))
    (Hrate : strategy !! "rate" = Some (VFloat f))
    (Hint : int_of_float f = Raise e)
    (Hsettings : benchmark_dataset_settings rt config benchmark = Ok settings)
    (Hrequests : py_get benchmark "requests" (VDict ∅) = Ok requests)
    (Hsuccessful : py_get requests "successful" (VList []) = Ok successful)
    (Htruthy : truthy successful = true) :
  requests_entry rt filename filepath extra_metadata benchmark = ([], Raise e)
  /\ (e = OverflowError \/ e = ValueError)
  /\ summary_entry rt filename filepath extra_metadata benchmark
     = ([], match summary_row rt filename filepath extra_metadata config benchmark
                    VNone (VFloat f) with
            | Ok row => Ok (Some row)
            | Raise e' => Raise e'
            end).
Proof.
  destruct Hprofile as [p ->]. destruct Hconcurrency as [Hmax Hstreams].
  unfold dget in Hmax, Hstreams.
  assert (resolve_axis rt (VDict strategy) (VDict p) = Ok (VNone, VFloat f)) as Haxis.
  { unfold resolve_axis. cbn [py_get mbind result_bind].
    rewrite Hmax. cbn [is_none]. rewrite Hstreams, Htype, Hrate.
    reflexivity. }
  split; [|split].
  - unfold requests_entry. rewrite Hstart, Hstrategy.
    cbn -[resolve_axis benchmark_dataset_settings py_get].
    rewrite Haxis. cbn -[benchmark_dataset_settings py_get].
    rewrite Hsettings, Hrequests. cbn -[py_get]. rewrite Hsuccessful.
    cbn -[truthy]. rewrite Htruthy. cbn. rewrite Hint. reflexivity.
  - eapply int_of_float_raises, Hint.
  - unfold summary_entry. rewrite Hstrategy. cbn -[resolve_axis summary_row].
    rewrite Haxis. cbn -[summary_row].
    destruct (summary_row _ _ _ _ _ _ _ _); reflexivity.
Qed.

Lemma requests_entry_unbounded_rate_witness :
  length (rows_of (parse_benchmark_metrics Sample.python
                     (results_file [unbounded_rate_entry]) "a.json" None)) = 1%nat
  /\ parse_individual_requests Sample.python
       (results_file [unbounded_rate_entry]) "a.json" None
     = ([], Raise OverflowError)
  /\ requests_entry Sample.python "a.json" "a.json" None unbounded_rate_entry
     = ([], Raise OverflowError)
  /\ (OverflowError = OverflowError \/ OverflowError = ValueError)
  /\ summary_entry Sample.python "a.json" "a.json" None unbounded_rate_entry
     = ([], match summary_row Sample.python "a.json" "a.json" None
                    (obj [("strategy",
                           obj [("type_", VStr "constant");
                                ("rate", VFloat infinity)])])
                    unbounded_rate_entry VNone (VFloat infinity) with
            | Ok row => Ok (Some row)
            | Raise e' => Raise e'
            end).
Proof.
  split; [by_vm|]. split; [by_vm|].
  apply (requests_entry_unbounded_rate Sample.python "a.json" "a.json" None
           unbounded_rate_entry
           (obj [("strategy",
                  obj [("type_", VStr "constant"); ("rate", VFloat infinity)])])
           (VDict ∅)
           (list_to_map [("type_", VStr "constant"); ("rate", VFloat infinity)])
           infinity OverflowError VNone
           (obj [("successful", VList [obj [("request_id", VStr "r1")]])])
           (VList [obj [("request_id", VStr "r1")]]) ∅).
  - by_vm.
  - by_vm.
  - exists ∅. reflexivity.
  - split; by_vm.
  - by_vm.
  - by_vm.
  - by_vm.
  - by_vm.
  - by_vm.
  - by_vm.
  - reflexivity.
Defined.

Lemma summary_loop_raise (rt : runtime) (filename filepath : string)
    (extra_metadata : option dict) (benchmark : value) (after : list value)
    (log' : list diag) (e : exn) :
  summary_entry rt filename filepath extra_metadata benchmark = (log', Raise e) ->
  forall before log rows,
    summary_loop rt filename filepath extra_metadata before = (log, Ok rows) ->
    summary_loop rt filename filepath extra_metadata (before ++ benchmark :: after)
    = ((log ++ log')%list, Raise e).
Proof.
  intros He. induction before as [|b before IH]; intros log rows H.
  - apply mret_Ok in H as [_ ->]. cbn [app summary_loop]. rewrite He. reflexivity.
  - cbn [app summary_loop] in *.
    apply io_bind_Ok in H as (l1 & row & l2 & Hrow & H & ->).
    apply io_bind_Ok in H as (l3 & rest & l4 & Hrest & H & ->).
    apply mret_Ok in H as [_ ->].
    rewrite Hrow. unfold mbind at 1, io_bind at 1.
    rewrite (IH _ _ Hrest). cbn. rewrite app_nil_r, app_assoc. reflexivity.
Qed.

Lemma requests_outer_loop_raise (rt : runtime) (filename filepath : string)
    (extra_metadata : option dict) (benchmark : value) (after : list value)
    (log' : list diag) (e : exn) :
  requests_entry rt filename filepath extra_metadata benchmark = (log', Raise e) ->
  forall before log rows,
    requests_outer_loop rt filename filepath extra_metadata before = (log, Ok rows) ->
    requests_outer_loop rt filename filepath extra_metadata
      (before ++ benchmark :: after)
    = ((log ++ log')%list, Raise e).
Proof.
  intros He. induction before as [|b before IH]; intros log rows H.
  - apply mret_Ok in H as [_ ->]. cbn [app requests_outer_loop].
    rewrite He. reflexivity.
  - cbn [app requests_outer_loop] in *.
    apply io_bind_Ok in H as (l1 & row & l2 & Hrow & H & ->).
    apply io_bind_Ok in H as (l3 & rest & l4 & Hrest & H & ->).
    apply mret_Ok in H as [_ ->].
    rewrite Hrow. unfold mbind at 1, io_bind at 1.
    rewrite (IH _ _ Hrest). cbn. rewrite app_nil_r, app_assoc. reflexivity.
Qed.

(** X19. Neither extraction guards the body of its loop: when one entry
    of [benchmarks] makes the body raise, the extraction of the whole file
    raises that exception.  The rows of the entries before it are not
    returned, what was printed for them stays printed, and the entries
    after it are not looked at. *)
Theorem extraction_fails_fast (rt : runtime) (data : value) (filepath : string)
    (extra_metadata : option dict) (before after : list value) (benchmark : value)
    (Hdata : py_get data "benchmarks" (VList [])
             = Ok (VList (before ++ benchmark :: after))) :
  (forall log rows log' e,
      summary_loop rt (basename filepath) filepath extra_metadata before
        = (log, Ok rows) ->
      summary_entry rt (basename filepath) filepath extra_metadata benchmark
        = (log', Raise e) ->
      parse_benchmark_metrics rt (Some data) filepath extra_metadata
      = ((log ++ log')%list, Raise e))
  /\ (forall log rows log' e,
         requests_outer_loop rt (basename filepath) filepath extra_metadata before
           = (log, Ok rows) ->
         requests_entry rt (basename filepath) filepath extra_metadata benchmark
           = (log', Raise e) ->
         parse_individual_requests rt (Some data) filepath extra_metadata
         = ((log ++ log')%list, Raise e)).
Proof.
  assert (truthy (VList (before ++ benchmark :: after)) = true) as Ht.
  { cbn. destruct before; reflexivity. }
  split; intros log rows log' e Hbefore He.
  - unfold parse_benchmark_metrics. rewrite Hdata.
    unfold lift. unfold mbind at 1, io_bind at 1. rewrite Ht. cbn [negb py_iter].
    unfold mbind at 1, io_bind at 1.
    rewrite (summary_loop_raise _ _ _ _ _ after _ _ He _ _ _ Hbefore).
    reflexivity.
  - unfold parse_individual_requests. rewrite Hdata.
    unfold lift. unfold mbind at 1, io_bind at 1. rewrite Ht. cbn [negb py_iter].
    unfold mbind at 1, io_bind at 1.
    rewrite (requests_outer_loop_raise _ _ _ _ _ after _ _ He _ _ _ Hbefore).
    reflexivity.
Qed.

Lemma extraction_fails_fast_witness :
  parse_benchmark_metrics Sample.python
    (results_file [axisless_entry; VDict bare_entry; number_loader_entry;
                   VDict bare_entry])
    "a.json" None
  = ([NoAxisFound "a.json"], Raise AttributeError)
  /\ parse_individual_requests Sample.python
       (results_file [axisless_entry; VDict bare_entry; number_loader_entry;
                      VDict bare_entry])
       "a.json" None
     = ([NoAxisFound "a.json"; FoundRequests 1 "a.json" "c4"], Raise AttributeError).
Proof.
  pose proof (extraction_fails_fast Sample.python
                (obj [("benchmarks",
                       VList [axisless_entry; VDict bare_entry; number_loader_entry;
                              VDict bare_entry])])
                "a.json" None [axisless_entry; VDict bare_entry] [VDict bare_entry]
                number_loader_entry eq_refl) as [Hsummary Hrequests].
  split.
  - apply (Hsummary [NoAxisFound "a.json"]
             (rows_of (summary_loop Sample.python "a.json" "a.json" None
                         [axisless_entry; VDict bare_entry]))
             [] AttributeError); by_vm.
  - apply (Hrequests [NoAxisFound "a.json"; FoundRequests 1 "a.json" "c4"]
             (rows_of (requests_outer_loop Sample.python "a.json" "a.json" None
                         [axisless_entry; VDict bare_entry]))
             [] AttributeError); by_vm.
Defined.

(** ** From the configuration to the rows *)

Lemma summary_row_bound (rt : runtime) (filename filepath : string)
    (extra : dict) (config benchmark concurrency rps : value) (row : dict)
    (k : string) (v : value) :
  extra !! k = Some v ->
  summary_row rt filename filepath (Some extra) config benchmark concurrency rps
    = Ok row ->
  row !! k = Some v.
Proof.
  intros Hk H. unfold summary_row in H. bind_inv H. apply Ok_inj in H. subst row.
  apply merge_metadata_bound, Hk.
Qed.

Lemma request_row_bound (filename filepath : string) (extra : dict)
    (concurrency rps : value) (settings : dict) (test_start_time request : value)
    (row : dict) (k : string) (v : value) :
  extra !! k = Some v ->
  request_row filename filepath (Some extra) concurrency rps settings
    test_start_time request = Ok row ->
  row !! k = Some v.
Proof.
  intros Hk H. unfold request_row in H.
  destruct request as [| | | | | | |q]; try discriminate H.
  cbn [py_get mbind result_bind] in H.
  apply bind_Ok in H as ([[first_rel start_rel] end_rel] & _ & H).
  apply Ok_inj in H. subst row.
  apply merge_metadata_bound, Hk.
Qed.

Lemma Forall_concat_Forall2 {A B} (P : B -> Prop) (R : A -> list B -> Prop)
    (l : list A) (ls : list (list B)) :
  (forall a bs, R a bs -> Forall P bs) ->
  Forall2 R l ls -> Forall P (concat ls).
Proof.
  intros HR H. induction H as [|a bs l ls Hab _ IH]; cbn; [constructor|].
  apply Forall_app. split; [eapply HR, Hab | exact IH].
Qed.

(** X20. A group's metadata reaches every row of the group: when the
    loader runs either extractor over a group whose [extra_metadata] is a
    mapping, every row it collects for that group holds, for every key of
    the metadata, the metadata's value. *)
Theorem load_group_metadata (rt : runtime) (read : string -> option value)
    (glob : string -> list string)
    (parser_func : string -> value -> io (list dict))
    (data_group extra : dict) (k : string) (v : value)
    (log : list load_diag) (rows : list dict)
    (Hparser : calls_extractor rt read parser_func)
    (Hextra : data_group !! "extra_metadata" = Some (VDict extra))
    (Hk : extra !! k = Some v)
    (H : load_group rt glob parser_func (VDict data_group) = (log, Ok rows)) :
  Forall (fun row : dict => row !! k = Some v) rows.
Proof.
  unfold load_group in H. rewrite (py_get_Some _ _ _ _ Hextra) in H.
  lio_step H em Hem. apply Ok_inj in Hem. subst em.
  lio_step H file_patterns Hfiles.
  lio_step H patterns Hpatterns. lio_step H files Hexpand.
  apply lio_bind_Ok in H as (la & [] & lb & Hp & H & ->).
  apply parse_files_rows in H as (_ & per_file & Hall & ->).
  eapply Forall_concat_Forall2; [|exact Hall].
  intros filepath found Hfound. cbn beta in Hfound.
  destruct Hparser as [Hparser|Hparser]; rewrite Hparser in Hfound.
  - assert (found = rows_of (parse_benchmark_metrics rt (read filepath) filepath
                               (Some extra))) as ->
      by (unfold rows_of; rewrite Hfound; reflexivity).
    apply summary_rows_from_row. intros config benchmark c r row Hrow.
    eapply summary_row_bound; eassumption.
  - assert (found = rows_of (parse_individual_requests rt (read filepath) filepath
                               (Some extra))) as ->
      by (unfold rows_of; rewrite Hfound; reflexivity).
    apply request_rows_from_row. intros c r settings tst request row Hrow.
    eapply request_row_bound; eassumption.
Qed.

Lemma load_group_metadata_witness :
  (fun row : dict => row !! "version")
    <$> loaded_rows (load_group Sample.python sample_glob sample_parser overlapping_group)
  = [Some (VStr "v1"); Some (VStr "v1"); Some (VStr "v1")]
  /\ Forall (fun row : dict => row !! "version" = Some (VStr "v1"))
       (loaded_rows (load_group Sample.python sample_glob sample_parser overlapping_group)).
Proof.
  split; [by_vm|].
  apply (load_group_metadata Sample.python sample_read sample_glob sample_parser
           (list_to_map
              [("files", VList [VStr "runs/*.json"; VStr "runs/a*"]);
               ("extra_metadata", obj [("version", VStr "v1")])])
           (list_to_map [("version", VStr "v1")]) "version" (VStr "v1")
           (fst (load_group Sample.python sample_glob sample_parser overlapping_group))).
  - left. intros filepath m. reflexivity.
  - reflexivity.
  - reflexivity.
  - by_vm.
Defined.
